(** * translation_agent: a shallow embedding of the agentic translation pipeline

    The development follows the Python package [translation_agent]:
    - [prompts.py]   : [PromptTemplate] (placeholder extraction, the binding
                       check, rendering) and [PromptConfig] (the per-role
                       placeholder contract);
    - [splitters.py] : [UniformTextSplitter], [NewLineSplitter],
                       [SentenceSplitter];
    - [agents.py]    : [SimpleTranslationAgent] (tagging, the three stage
                       methods run over a thread pool, [agentic_translate]).

    Python values are modelled as follows.  A [str] is a [string]; a list is a
    [list]; a dict with string keys is a [gmap string _], except where the
    iteration order of the dict is observable, where it is an association
    list; a set of strings is a [gset string].  A call that may raise returns
    a [result]; warnings and printed lines are returned next to the result. *)

From Stdlib Require Import ZArith Ascii.
From stdpp Require Import base option list sorting gmap strings pretty.

Open Scope Z_scope.

(** ** Exceptions

    One constructor per raise site (or per built-in failure) the code can
    reach; [exn_class] gives the Python class. *)

Inductive exn : Type :=
  (* ValueError raised by [string.Formatter().parse] / [str.format] on
     malformed markup *)
  | FormatSyntaxError (msg : string)
  (* ValueError(f"Prompt requires missing parameters: {str_set - kwargs_set}") *)
  | MissingParameters (missing : gset string)
  (* ValueError: not enough / too many values to unpack (expected 2) *)
  | UnpackError (got : nat)
  (* ValueError(f"{prompt_type} prompt must contain the placeholder '{placeholder}'.") *)
  | MissingPlaceholder (prompt_type placeholder : string)
  (* ValueError("Buffer is empty. Run agentic_translate first.") *)
  | BufferEmpty
  (* ValueError("Source chunks not found in buffer. Run agentic_translate first.") *)
  | SourceChunksNotFound
  (* ValueError: range() arg 3 must not be zero *)
  | RangeStepZero
  (* ValueError("max_workers must be greater than 0") *)
  | MaxWorkersNotPositive
  (* ZeroDivisionError: integer division or modulo by zero *)
  | DivisionByZero
  (* IndexError: list index out of range *)
  | ListIndexOutOfRange
  (* IndexError: Replacement index n out of range for positional args tuple *)
  | ReplacementIndexOutOfRange (n : Z)
  (* ValueError: Too many decimal digits in format string *)
  | TooManyDecimalDigits
  (* KeyError(key) *)
  | KeyError (key : string)
  (* TypeError: 'NoneType' object is not subscriptable, and the like *)
  | TypeError (msg : string)
  (* AttributeError *)
  | AttributeError (name : string)
  (* whatever the completion backend raises *)
  | CompletionError (msg : string).

Inductive pyclass : Type :=
  ClsValueError | ClsZeroDivisionError | ClsIndexError | ClsKeyError
  | ClsTypeError | ClsAttributeError | ClsException.

Definition exn_class (e : exn) : pyclass :=
  match e with
  | FormatSyntaxError _ | MissingParameters _ | UnpackError _
  | MissingPlaceholder _ _ | BufferEmpty | SourceChunksNotFound
  | RangeStepZero | MaxWorkersNotPositive | TooManyDecimalDigits => ClsValueError
  | DivisionByZero => ClsZeroDivisionError
  | ListIndexOutOfRange | ReplacementIndexOutOfRange _ => ClsIndexError
  | KeyError _ => ClsKeyError
  | TypeError _ => ClsTypeError
  | AttributeError _ => ClsAttributeError
  | CompletionError _ => ClsException
  end.

Inductive result (A : Type) : Type :=
  | Ok (a : A)
  | Raise (e : exn).
Arguments Ok {A} a.
Arguments Raise {A} e.

(** Sequencing of calls that may raise: the first exception propagates. *)
Definition rbind {A B} (m : result A) (k : A → result B) : result B :=
  match m with Ok a => k a | Raise e => Raise e end.

Notation "'let*' x ':=' m 'in' k" := (rbind m (λ x, k))
  (at level 10, x pattern, m at level 100, k at level 200).

Definition is_ok {A} (r : result A) : bool :=
  match r with Ok _ => true | Raise _ => false end.

(** Warnings issued through [warnings.warn]. *)
Inductive warning : Type :=
  (* "String-template has extra parameters: {kwargs_set - str_set}" *)
  | ExtraParameters (extra : gset string)
  (* "The following template placeholders were overridden: {_intersect}." *)
  | Overridden (names : gset string)
  (* "Buffer is not empty. Clearing buffer." *)
  | BufferNotEmpty
  (* "Source text is too short. Switching to direct translation." *)
  | SourceTooShort.

(** ** Python built-ins used by the package *)

Module Py.

(** [len(s)] *)
Definition len (s : string) : Z := Z.of_nat (String.length s).

(** [sep.join(l)] for [sep = ""] *)
Fixpoint join (l : list string) : string :=
  match l with
  | [] => ""
  | s :: l => s +:+ join l
  end.

(** Normalisation of one bound of a slice over a sequence of length [n]:
    a negative bound counts from the end, then the bound is clamped. *)
Definition slice_bound (n : nat) (i : Z) : nat :=
  Z.to_nat (Z.min (Z.of_nat n) (Z.max 0 (if i <? 0 then i + Z.of_nat n else i))).

(** [l[:i]] and [l[i:]] *)
Definition slice_to {A} (l : list A) (i : Z) : list A :=
  take (slice_bound (length l) i) l.
Definition slice_from {A} (l : list A) (i : Z) : list A :=
  drop (slice_bound (length l) i) l.

(** [l[i]] *)
Definition getitem {A} (l : list A) (i : Z) : result A :=
  let j := if i <? 0 then i + Z.of_nat (length l) else i in
  if j <? 0 then Raise ListIndexOutOfRange
  else match l !! Z.to_nat j with
       | Some x => Ok x
       | None => Raise ListIndexOutOfRange
       end.

(** [s[i:j]] for [0 <= i <= j] *)
Definition str_slice (s : string) (i j : Z) : string :=
  String.substring (Z.to_nat i) (Z.to_nat (j - i)) s.

(** [range(0, stop, step)]: the step may not be zero; a negative step
    from [0] up to a non-negative [stop] is empty; otherwise the range
    has [ceil(stop / step)] elements. *)
Definition range0 (stop step : Z) : result (list Z) :=
  if step =? 0 then Raise RangeStepZero
  else if (step <? 0) || (stop <=? 0) then Ok []
  else Ok ((λ k : nat, Z.of_nat k * step) <$> seq 0 (Z.to_nat ((stop + step - 1) / step))).

(** [a // b] *)
Definition floordiv (a b : Z) : result Z :=
  if b =? 0 then Raise DivisionByZero else Ok (a / b).

(** [s.split(sep)] for a one-character separator: the pieces between the
    occurrences of [sep], [cur] being the piece read so far. *)
Fixpoint split_go (sep : ascii) (cur : string) (s : string) : list string :=
  match s with
  | "" => [cur]
  | String c s' =>
      if decide (c = sep) then cur :: split_go sep "" s'
      else split_go sep (cur +:+ String c "") s'
  end.
Definition split (sep : ascii) (s : string) : list string := split_go sep "" s.

(** [sorted(l, key=key)] for keys that are natural numbers.  The sort is
    stable: an element is inserted in front of the first element whose
    key is not smaller, and the elements are inserted from the last to
    the first. *)
Fixpoint insert_by {A} (key : A → nat) (x : A) (l : list A) : list A :=
  match l with
  | [] => [x]
  | y :: l' =>
      if decide (key x ≤ key y)%nat then x :: l else y :: insert_by key x l'
  end.
Definition sorted {A} (key : A → nat) (l : list A) : list A :=
  foldr (insert_by key) [] l.

(** [ThreadPoolExecutor(max_workers=max_workers)]: the pool is created
    unless the number of workers is given and not positive. *)
Definition ThreadPoolExecutor (max_workers : option Z) : result unit :=
  match max_workers with
  | Some w => if w <=? 0 then Raise MaxWorkersNotPositive else Ok ()
  | None => Ok ()
  end.

(** [str(x)] inside an f-string, for an optional string: [None] prints
    as "None". *)
Definition str_opt (o : option string) : string := default "None" o.

(** [a % b]: the remainder has the sign of [b]. *)
Definition floormod (a b : Z) : result Z :=
  if b =? 0 then Raise DivisionByZero else Ok (a `mod` b).

End Py.

(** ** splitters.py *)

(** [SplitterInterface]: one required operation, [split_text]. *)
Class SplitterInterface (S : Type) : Type :=
  split_text : S → string → result (list string).

Record UniformTextSplitter : Type := { num_chunks : Z }.

(** [chunk_size = len(text) // self.num_chunks]
    [[text[i : i + chunk_size] for i in range(0, len(text), chunk_size)]] *)
Definition UniformTextSplitter_split_text
    (self : UniformTextSplitter) (text : string) : result (list string) :=
  let* chunk_size := Py.floordiv (Py.len text) (num_chunks self) in
  let* starts := Py.range0 (Py.len text) chunk_size in
  Ok ((λ i, Py.str_slice text i (i + chunk_size)) <$> starts).

Inductive NewLineSplitter : Type := MkNewLineSplitter.

(** [text.split("\n")] *)
Definition NewLineSplitter_split_text
    (self : NewLineSplitter) (text : string) : result (list string) :=
  Ok (Py.split "010"%char text).

Inductive SentenceSplitter : Type := MkSentenceSplitter.

(** [text.split(".")] *)
Definition SentenceSplitter_split_text
    (self : SentenceSplitter) (text : string) : result (list string) :=
  Ok (Py.split "."%char text).

Global Instance UniformTextSplitter_splitter : SplitterInterface UniformTextSplitter :=
  UniformTextSplitter_split_text.
Global Instance NewLineSplitter_splitter : SplitterInterface NewLineSplitter :=
  NewLineSplitter_split_text.
Global Instance SentenceSplitter_splitter : SplitterInterface SentenceSplitter :=
  SentenceSplitter_split_text.

(** [TikTokenMaxTokenSplitter]: only [calculate_chunk_size] is code of the
    package; counting tokens and splitting are done by [tiktoken] and
    [langchain_text_splitters]. *)
Record TikTokenMaxTokenSplitter : Type := {
  model_name : string;
  max_tokens_per_chunk : Z
}.

Definition calculate_chunk_size (self : TikTokenMaxTokenSplitter)
    (token_count token_limit : Z) : result Z :=
  if token_count <=? token_limit then Ok token_count
  else
    let* num_chunks := Py.floordiv (token_count + token_limit - 1) token_limit in
    let* chunk_size := Py.floordiv token_count num_chunks in
    let* remaining_tokens := Py.floormod token_count token_limit in
    if 0 <? remaining_tokens then
      let* extra := Py.floordiv remaining_tokens num_chunks in
      Ok (chunk_size + extra)
    else Ok chunk_size.

(** ** Format strings

    [string.Formatter().parse] and [str.format] are Python built-ins.  The
    parser below follows CPython's markup iterator: literal text runs up to
    a brace, a doubled brace is an escaped brace that closes the literal,
    and a replacement field is [name], [name!c], [name:spec] or
    [name!c:spec], where brackets inside the name hide the delimiters and
    braces inside the spec nest. *)

Record field : Type := Field {
  field_name : string;
  format_spec : string;
  conversion : option ascii
}.

(** One tuple yielded by [parse]: the literal text and the field that
    follows it, if any. *)
Definition markup : Type := string * option field.

Inductive pstate : Type :=
  | PLiteral (lit : string)
  | PName (lit name : string)
  | PBracket (lit name : string)
  | PConv (lit name : string)
  | PSpec (lit name : string) (conv : option ascii) (spec : string) (nested : nat).

Definition snoc_char (s : string) (c : ascii) : string := s +:+ String c "".

Definition ch (c d : ascii) : bool := bool_decide (c = d).

Fixpoint parse_go (st : pstate) (s : string) : result (list markup) :=
  match st, s with
  | PLiteral lit, "" => Ok (if decide (lit = "") then [] else [(lit, None)])
  | PLiteral lit, String c s' =>
      if ch c "{" then
        match s' with
        | "" => Raise (FormatSyntaxError "Single '{' encountered in format string")
        | String d s'' =>
            if ch d "{" then
              let* rest := parse_go (PLiteral "") s'' in Ok ((snoc_char lit c, None) :: rest)
            else parse_go (PName lit "") s'
        end
      else if ch c "}" then
        match s' with
        | "" => Raise (FormatSyntaxError "Single '}' encountered in format string")
        | String d s'' =>
            if ch d "}" then
              let* rest := parse_go (PLiteral "") s'' in Ok ((snoc_char lit c, None) :: rest)
            else Raise (FormatSyntaxError "Single '}' encountered in format string")
        end
      else parse_go (PLiteral (snoc_char lit c)) s'
  | PName lit name, "" =>
      Raise (FormatSyntaxError "expected '}' before end of string")
  | PName lit name, String c s' =>
      if ch c "{" then Raise (FormatSyntaxError "unexpected '{' in field name")
      else if ch c "[" then parse_go (PBracket lit (snoc_char name c)) s'
      else if ch c "}" then
        let* rest := parse_go (PLiteral "") s' in Ok ((lit, Some (Field name "" None)) :: rest)
      else if ch c ":" then parse_go (PSpec lit name None "" 0) s'
      else if ch c "!" then parse_go (PConv lit name) s'
      else parse_go (PName lit (snoc_char name c)) s'
  | PBracket lit name, "" =>
      Raise (FormatSyntaxError "expected '}' before end of string")
  | PBracket lit name, String c s' =>
      if ch c "]" then parse_go (PName lit (snoc_char name c)) s'
      else parse_go (PBracket lit (snoc_char name c)) s'
  | PConv lit name, "" =>
      Raise (FormatSyntaxError "end of string while looking for conversion specifier")
  | PConv lit name, String c s' =>
      match s' with
      | "" => Raise (FormatSyntaxError "unmatched '{' in format spec")
      | String d s'' =>
          if ch d "}" then
            let* rest := parse_go (PLiteral "") s'' in Ok ((lit, Some (Field name "" (Some c))) :: rest)
          else if ch d ":" then parse_go (PSpec lit name (Some c) "" 0) s''
          else Raise (FormatSyntaxError "expected ':' after conversion specifier")
      end
  | PSpec lit name conv spec nested, "" =>
      Raise (FormatSyntaxError "unmatched '{' in format spec")
  | PSpec lit name conv spec nested, String c s' =>
      if ch c "{" then parse_go (PSpec lit name conv (snoc_char spec c) (S nested)) s'
      else if ch c "}" then
        match nested with
        | O => let* rest := parse_go (PLiteral "") s' in Ok ((lit, Some (Field name spec conv)) :: rest)
        | S n => parse_go (PSpec lit name conv (snoc_char spec c) n) s'
        end
      else parse_go (PSpec lit name conv (snoc_char spec c) nested) s'
  end.

(** [string.Formatter().parse(s)], fully consumed *)
Definition formatter_parse (s : string) : result (list markup) :=
  parse_go (PLiteral "") s.

(** The part of a field name before the first [.] or [[]: the argument the
    field refers to; what follows it are attribute and index lookups. *)
Fixpoint field_first (name : string) : string :=
  match name with
  | "" => ""
  | String c s => if ch c "." || ch c "[" then "" else String c (field_first s)
  end.

(** [sys.maxsize], on a 64-bit build. *)
Definition PY_SSIZE_T_MAX : Z := 9223372036854775807.

(** The loop of the interpreter's [get_integer], which reads the argument
    of a field as an index; [acc] is the value of the digits read so far.
    A character that is not a decimal digit ends the scan ([None]: the
    argument is not an index).  A digit that would take the value above
    [PY_SSIZE_T_MAX] raises, whatever follows it. *)
Fixpoint get_integer_go (acc : Z) (s : string) : result (option Z) :=
  match s with
  | "" => Ok (Some acc)
  | String c s =>
      match Ascii.is_nat c with
      | Some d =>
          if (PY_SSIZE_T_MAX - Z.of_nat d) / 10 <? acc then Raise TooManyDecimalDigits
          else get_integer_go (acc * 10 + Z.of_nat d) s
      | None => Ok None
      end
  end.

(** The empty string is not an index. *)
Definition get_integer (s : string) : result (option Z) :=
  if decide (s = "") then Ok None else get_integer_go 0 s.

(** A field that only names a keyword argument: no attribute or index
    lookup, no conversion, no format specification. *)
Definition plain_field (f : field) : bool :=
  bool_decide (field_first (field_name f) = field_name f)
  && bool_decide (conversion f = None)
  && bool_decide (format_spec f = "").

(** What Python does with a field that is not plain once its argument has
    been found among the keyword arguments (attribute and index lookups on
    the [str] value, [!r]/[!s]/[!a], [format(value, spec)] with nested
    fields expanded) is left to the interpreter. *)
Class PyBuiltins : Type :=
  py_format_field : field → gmap string string → result string.

Section format.
Context `{PyBuiltins}.

(** One replacement field of [s.format( **kwargs )].  The argument is
    first read as an index, which can raise.  No positional argument is
    ever passed, so a field whose argument is a number or is empty
    (automatic numbering, [auto] being the next number) is out of range. *)
Definition format_field (auto : nat) (f : field) (kwargs : gmap string string)
    : result string :=
  let first := field_first (field_name f) in
  let* first_idx := get_integer first in
  match first_idx with
  | Some n => Raise (ReplacementIndexOutOfRange n)
  | None =>
      if decide (first = "") then Raise (ReplacementIndexOutOfRange (Z.of_nat auto))
      else match kwargs !! first with
           | None => Raise (KeyError first)
           | Some v => if plain_field f then Ok v else py_format_field f kwargs
           end
  end.

Fixpoint format_markup (items : list markup) (kwargs : gmap string string)
    : result string :=
  match items with
  | [] => Ok ""
  | (lit, None) :: items => let* rest := format_markup items kwargs in Ok (lit +:+ rest)
  | (lit, Some f) :: items =>
      let* v := format_field 0 f kwargs in
      let* rest := format_markup items kwargs in
      Ok (lit +:+ v +:+ rest)
  end.

(** [s.format( **kwargs )].  Its only caller has parsed [s] to the end
    before, so a syntax error never competes with a lookup error. *)
Definition str_format (s : string) (kwargs : gmap string string) : result string :=
  let* items := formatter_parse s in format_markup items kwargs.
End format.

(** ** prompts.py: PromptTemplate *)

Record PromptTemplate : Type := {
  _prompt : string;
  _sysmsg : string;
  _prompt_placeholders : list string;
  _sysmsg_placeholders : list string;
  prompt_kwargs : gmap string string;
  sysmsg_kwargs : gmap string string
}.

(** The [prompt], [sysmsg], [prompt_placehodlers] (sic) and [sysmsg_params]
    properties. *)
Definition prompt (self : PromptTemplate) : string := _prompt self.
Definition sysmsg (self : PromptTemplate) : string := _sysmsg self.
Definition prompt_placehodlers (self : PromptTemplate) : list string :=
  _prompt_placeholders self.
Definition sysmsg_params (self : PromptTemplate) : list string :=
  _sysmsg_placeholders self.

(** [tuple(f for _, f, _, _ in formatter.parse(_str) if f is not None)] *)
Definition get_string_placeholders (_str : string) : result (list string) :=
  let* items := formatter_parse _str in
  Ok (omap (λ it : markup, field_name <$> it.2) items).

(** [k, v = key]: a string unpacks into its characters, and there must be
    exactly two of them. *)
Definition unpack2 (key : string) : result (string * string) :=
  match key with
  | String a (String b "") => Ok (String a "", String b "")
  | _ => Raise (UnpackError (String.length key))
  end.

(** [{k: v for k, v in placeholder_kwargs if k in placeholders}]: iterating
    a dict yields its keys, in insertion order; [acc] is the dict built so
    far. *)
Fixpoint filter_kwargs (keys : list string) (placeholders : list string)
    (acc : gmap string string) : result (gmap string string) :=
  match keys with
  | [] => Ok acc
  | key :: keys =>
      let* kv := unpack2 key in
      filter_kwargs keys placeholders
        (if bool_decide (kv.1 ∈ placeholders) then <[kv.1 := kv.2]> acc else acc)
  end.

(** [PromptTemplate.__init__].  The dict [placeholder_kwargs] is given as
    its items in insertion order. *)
Definition PromptTemplate_init (prompt sysmsg : string)
    (placeholder_kwargs : option (list (string * string))) : result PromptTemplate :=
  let* pp := get_string_placeholders prompt in
  let* sp := get_string_placeholders sysmsg in
  (* placeholder_kwargs = placeholder_kwargs or {} *)
  let placeholder_kwargs := default [] placeholder_kwargs in
  let* pk := filter_kwargs placeholder_kwargs.*1 pp ∅ in
  let* sk := filter_kwargs placeholder_kwargs.*1 sp ∅ in
  Ok {| _prompt := prompt; _sysmsg := sysmsg;
        _prompt_placeholders := pp; _sysmsg_placeholders := sp;
        prompt_kwargs := pk; sysmsg_kwargs := sk |}.

(** [PromptTemplate.placeholders_in_dict]: the warnings issued and the
    value returned or the exception raised. *)
Definition placeholders_in_dict (_str : string) (_kwargs : gmap string string)
    : list warning * result bool :=
  match get_string_placeholders _str with
  | Raise e => ([], Raise e)
  | Ok phs =>
      let str_set : gset string := list_to_set phs in
      let kwargs_set : gset string := dom _kwargs in
      if negb (bool_decide (str_set ⊆ kwargs_set)) then
        ([], Raise (MissingParameters (str_set ∖ kwargs_set)))
      else if negb (bool_decide (kwargs_set ⊆ str_set)) then
        ([ExtraParameters (kwargs_set ∖ str_set)], Ok false)
      else ([], Ok true)
  end.

Section render.
Context `{PyBuiltins}.

(** [PromptTemplate.get_formatted]; [format_kwargs or {}] maps [None] to
    the empty dict. *)
Definition get_formatted (to_format : string)
    (format_kwargs : option (gmap string string)) : list warning * result string :=
  let format_kwargs := default ∅ format_kwargs in
  let '(ws, r) := placeholders_in_dict to_format format_kwargs in
  (ws, let* _ := r in str_format to_format format_kwargs).

(** [get_formatted_prompt( **kwargs )] *)
Definition get_formatted_prompt (self : PromptTemplate)
    (kwargs : gmap string string) : list warning * result string :=
  let _intersect : gset string := dom (prompt_kwargs self) ∩ dom kwargs in
  let w := if decide (_intersect = ∅) then [] else [Overridden _intersect] in
  (* self.prompt_kwargs | kwargs: the right operand wins *)
  let _kwargs := kwargs ∪ prompt_kwargs self in
  let '(ws, r) := get_formatted (prompt self) (Some _kwargs) in
  (w ++ ws, r).

(** [get_formatted_sysmsg( **kwargs )] *)
Definition get_formatted_sysmsg (self : PromptTemplate)
    (kwargs : gmap string string) : list warning * result string :=
  let _intersect : gset string := dom (sysmsg_kwargs self) ∩ dom kwargs in
  let w := if decide (_intersect = ∅) then [] else [Overridden _intersect] in
  let _kwargs := kwargs ∪ sysmsg_kwargs self in
  let '(ws, r) := get_formatted (sysmsg self) (Some _kwargs) in
  (w ++ ws, r).
End render.

(** ** prompts.py: PromptConfig *)

Record PromptConfig : Type := {
  _translation_prompt : PromptTemplate;
  _reflection_prompt : PromptTemplate;
  _improvement_prompt : PromptTemplate
}.

Definition translation_prompt (self : PromptConfig) := _translation_prompt self.
Definition reflection_prompt (self : PromptConfig) := _reflection_prompt self.
Definition improvement_prompt (self : PromptConfig) := _improvement_prompt self.

(** The class attribute, a dict literal: its items in insertion order. *)
Definition REQUIRED_PROMPT_PLACEHOLDERS : list (string * list string) :=
  [ ("translation", ["source_lang"; "target_lang"; "source_chunk"]);
    ("reflection", ["source_lang"; "target_lang"; "source_chunk"; "translated_chunk"]);
    ("improvement", ["source_lang"; "target_lang"; "source_chunk"; "translated_chunk";
                     "reflection_chunk"]) ].

(** [getattr(self, f"_{prompt_type}_prompt")] *)
Definition getattr_prompt (self : PromptConfig) (prompt_type : string)
    : result PromptTemplate :=
  if decide (prompt_type = "translation") then Ok (_translation_prompt self)
  else if decide (prompt_type = "reflection") then Ok (_reflection_prompt self)
  else if decide (prompt_type = "improvement") then Ok (_improvement_prompt self)
  else Raise (AttributeError ("_" +:+ prompt_type +:+ "_prompt")).

(** The inner loop of [PromptConfig.__init__]: the first required
    placeholder that the prompt string lacks raises. *)
Fixpoint check_required (prompt_type : string) (prompt : PromptTemplate)
    (required_placeholders : list string) : result unit :=
  match required_placeholders with
  | [] => Ok ()
  | placeholder :: rest =>
      if bool_decide (placeholder ∈ prompt_placehodlers prompt)
      then check_required prompt_type prompt rest
      else Raise (MissingPlaceholder prompt_type placeholder)
  end.

(** The outer loop, over the items of the contract. *)
Fixpoint check_contract (self : PromptConfig) (items : list (string * list string))
    : result unit :=
  match items with
  | [] => Ok ()
  | (prompt_type, required_placeholders) :: items =>
      let* prompt := getattr_prompt self prompt_type in
      let* _ := check_required prompt_type prompt required_placeholders in
      check_contract self items
  end.

(** [PromptConfig.__init__] (the first parameter is spelt
    [tranlsation_prompt] in the source). *)
Definition PromptConfig_init (tranlsation_prompt reflection_prompt improvement_prompt
    : PromptTemplate) : result PromptConfig :=
  let self := {| _translation_prompt := tranlsation_prompt;
                 _reflection_prompt := reflection_prompt;
                 _improvement_prompt := improvement_prompt |} in
  let* _ := check_contract self REQUIRED_PROMPT_PLACEHOLDERS in
  Ok self.

(** ** agents.py: SimpleTranslationAgent *)

(** [LLMInterface]: the agent only calls [get_completion]. *)
Class LLMInterface (L : Type) : Type :=
  get_completion : L → string → string → result string.

(** The values the agent stores in its buffer dict. *)
Inductive bufval : Type :=
  | Chunks (l : list string)
  | Num (n : nat).

(** The agent object.  [llm] and [text_splitter] hold the bound methods
    [llm.get_completion] and [text_splitter.split_text] of the two
    collaborators. *)
Record SimpleTranslationAgent : Type := {
  llm : string → string → result string;
  text_splitter : string → result (list string);
  prompts : PromptConfig;
  source_lang : string;
  target_lang : string;
  verbose : bool;
  source_text_tag : option string;
  max_workers : option Z;
  default_kwargs : gmap string string;
  _buffer : option (gmap string bufval)
}.

(** [SimpleTranslationAgent.__init__]: the [isinstance] checks are the
    class constraints and the type of [prompts]. *)
Definition SimpleTranslationAgent_init {L S} `{LLMInterface L} `{SplitterInterface S}
    (llm : L) (text_splitter : S) (prompts : PromptConfig)
    (source_lang target_lang : string) (verbose : bool)
    (source_text_tag : option string) (max_workers : option Z)
    : SimpleTranslationAgent :=
  {| llm := get_completion llm;
     text_splitter := split_text text_splitter;
     prompts := prompts;
     source_lang := source_lang;
     target_lang := target_lang;
     verbose := verbose;
     source_text_tag := source_text_tag;
     max_workers := max_workers;
     default_kwargs := {[ "source_lang" := source_lang; "target_lang" := target_lang ]};
     _buffer := None |}.

(** Assignment to [self._buffer]. *)
Definition set_buffer (self : SimpleTranslationAgent)
    (b : option (gmap string bufval)) : SimpleTranslationAgent :=
  {| llm := llm self; text_splitter := text_splitter self; prompts := prompts self;
     source_lang := source_lang self; target_lang := target_lang self;
     verbose := verbose self; source_text_tag := source_text_tag self;
     max_workers := max_workers self; default_kwargs := default_kwargs self;
     _buffer := b |}.

(** [self._buffer[key] = v]; every call site has set the buffer to a dict
    before. *)
Definition buffer_setitem (self : SimpleTranslationAgent) (key : string) (v : bufval)
    : SimpleTranslationAgent :=
  set_buffer self (Some (<[key := v]> (default ∅ (_buffer self)))).

(** [self._buffer[key]] *)
Definition buffer_getitem (self : SimpleTranslationAgent) (key : string) : result bufval :=
  match _buffer self with
  | None => Raise (TypeError "'NoneType' object is not subscriptable")
  | Some b =>
      match b !! key with
      | Some v => Ok v
      | None => Raise (KeyError key)
      end
  end.

Definition as_chunks (v : bufval) : result (list string) :=
  match v with
  | Chunks l => Ok l
  | Num _ => Raise (TypeError "'int' object is not subscriptable")
  end.

Definition as_num (v : bufval) : result nat :=
  match v with
  | Num n => Ok n
  | Chunks _ => Raise (TypeError "'list' object cannot be interpreted as an integer")
  end.

(** [tag_chunk(chunk, tag)]: [f"<{tag}>{chunk}</{tag}>"] *)
Definition tag_chunk (chunk : string) (tag : option string) : string :=
  "<" +:+ Py.str_opt tag +:+ ">" +:+ chunk +:+ "</" +:+ Py.str_opt tag +:+ ">".

(** [get_tagged_source_text(self, chunk_idx)] *)
Definition get_tagged_source_text (self : SimpleTranslationAgent) (chunk_idx : Z)
    : result (gmap string string) :=
  match _buffer self with
  | None => Raise BufferEmpty
  | Some b =>
      if decide (b = ∅) then Raise BufferEmpty
      else match b !! "source_chunks" with
           | None => Raise SourceChunksNotFound
           | Some v =>
               let* chnks := as_chunks v in
               let* c := Py.getitem chnks chunk_idx in
               let tagged :=
                 Py.join (Py.slice_to chnks chunk_idx
                          ++ [tag_chunk c (source_text_tag self)]
                          ++ Py.slice_from chnks (chunk_idx + 1)) in
               Ok {[ "source_chunk" := c; "source_tagged" := tagged ]}
           end
  end.

(** The [buffer] property: [self._buffer or {}] *)
Definition buffer (self : SimpleTranslationAgent) : gmap string bufval :=
  default ∅ (_buffer self).

(** A line written by [print(f"Error reflecting on chunk {idx}: {e}")]
    (the three stage methods print the same text). *)
Inductive print_line : Type :=
  | ErrorReflecting (idx : nat) (e : exn).

(** What one call of a stage method does: the [executor.submit] calls it
    made, as (chunk id, prompt keyword arguments), the lines it printed, and
    the list it returned or the exception it raised. *)
Record stage_run : Type := {
  submitted : list (nat * gmap string string);
  printed : list print_line;
  returned : result (list string)
}.

(** The dict comprehension that submits one task per index: the keyword
    arguments of a task are built by the caller, so an exception there
    leaves the comprehension, after the earlier tasks were submitted. *)
Fixpoint submit_all (bind : nat → result (gmap string string)) (idxs : list nat)
    : list (nat * gmap string string) * option exn :=
  match idxs with
  | [] => ([], None)
  | idx :: idxs =>
      match bind idx with
      | Raise e => ([], Some e)
      | Ok kw => let '(subs, err) := submit_all bind idxs in ((idx, kw) :: subs, err)
      end
  end.

(** The loop over [as_completed(futures)].  [futures] lists, in submission
    order, the chunk id a future is mapped to and what [future.result()]
    gives; [completion_order] lists positions in [futures] in the order in
    which the futures complete. *)
Fixpoint collect (futures : list (nat * result (nat * string)))
    (completion_order : list nat) : list (nat * string) * list print_line :=
  match completion_order with
  | [] => ([], [])
  | p :: rest =>
      let '(output, lines) := collect futures rest in
      match futures !! p with
      | Some (idx, Ok res) => (res :: output, lines)
      | Some (idx, Raise e) => (output, ErrorReflecting idx e :: lines)
      | None => (output, lines)
      end
  end.

(** [[x[1] for x in sorted(output, key=lambda x: x[0])]] *)
Definition reorder (output : list (nat * string)) : list string :=
  (Py.sorted fst output).*2.

(** The completion orders of the three pools of one run. *)
Record schedule : Type := {
  translate_order : list nat;
  reflect_order : list nat;
  improve_order : list nat
}.

(** What one call of [agentic_translate] does: the agent afterwards, the
    warnings issued by the method itself, the lines printed, and the
    string returned or the exception raised. *)
Record translation_run : Type := {
  agent_after : SimpleTranslationAgent;
  warned : list warning;
  lines : list print_line;
  outcome : result string
}.

Section agent.
Context `{PyBuiltins}.

(** [query_model]; the warnings of the two renderings come first. *)
Definition query_model (self : SimpleTranslationAgent) (chunk_id : nat)
    (prompt_template : PromptTemplate)
    (prompt_kwargs sysmsg_kwargs : option (gmap string string))
    : list warning * result (nat * string) :=
  let prompt_kwargs := default ∅ prompt_kwargs in
  let sysmsg_kwargs := default ∅ sysmsg_kwargs in
  let '(w1, rp) := get_formatted_prompt prompt_template prompt_kwargs in
  match rp with
  | Raise e => (w1, Raise e)
  | Ok _prompt =>
      let '(w2, rs) := get_formatted_sysmsg prompt_template sysmsg_kwargs in
      (w1 ++ w2,
       let* _sysmsg := rs in
       let* completion := llm self _prompt _sysmsg in
       Ok (chunk_id, completion))
  end.

(** The body shared by the three stage methods: create the pool, submit
    one [query_model] task per index of [range(num_chunks)], take the
    results as the futures complete, sort them by chunk id.  The warnings
    of the worker threads are not part of the stage's record. *)
Definition run_stage (self : SimpleTranslationAgent) (prompt_template : PromptTemplate)
    (bind : nat → result (gmap string string)) (completion_order : list nat)
    : stage_run :=
  match let* _ := Py.ThreadPoolExecutor (max_workers self) in
        let* v := buffer_getitem self "num_chunks" in as_num v with
  | Raise e => {| submitted := []; printed := []; returned := Raise e |}
  | Ok n =>
      let '(subs, err) := submit_all bind (seq 0 n) in
      match err with
      | Some e => {| submitted := subs; printed := []; returned := Raise e |}
      | None =>
          let futures :=
            (λ s : nat * gmap string string,
               (s.1, (query_model self s.1 prompt_template (Some s.2)
                                  (Some (default_kwargs self))).2)) <$> subs in
          let '(output, lines) := collect futures completion_order in
          {| submitted := subs; printed := lines; returned := Ok (reorder output) |}
      end
  end.

(** [self._buffer[key][idx]] *)
Definition buffer_chunk (self : SimpleTranslationAgent) (key : string) (idx : nat)
    : result string :=
  let* v := buffer_getitem self key in
  let* l := as_chunks v in
  Py.getitem l (Z.of_nat idx).

(** [{ **self.default_kwargs, **self.get_tagged_source_text(idx) }]: in a
    dict display a later entry overrides an earlier one. *)
Definition translate_kwargs (self : SimpleTranslationAgent) (idx : nat)
    : result (gmap string string) :=
  let* tagged := get_tagged_source_text self (Z.of_nat idx) in
  Ok (tagged ∪ default_kwargs self).

Definition reflect_kwargs (self : SimpleTranslationAgent) (idx : nat)
    : result (gmap string string) :=
  let* translated := buffer_chunk self "translated_chunks" idx in
  let* tagged := get_tagged_source_text self (Z.of_nat idx) in
  Ok (tagged ∪ default_kwargs self ∪ {[ "translated_chunk" := translated ]}).

Definition improve_kwargs (self : SimpleTranslationAgent) (idx : nat)
    : result (gmap string string) :=
  let* translated := buffer_chunk self "translated_chunks" idx in
  let* reflection := buffer_chunk self "reflection_chunks" idx in
  let* tagged := get_tagged_source_text self (Z.of_nat idx) in
  Ok (tagged ∪ default_kwargs self
      ∪ {[ "translated_chunk" := translated; "reflection_chunk" := reflection ]}).

Definition translate (self : SimpleTranslationAgent) (completion_order : list nat)
    : stage_run :=
  run_stage self (translation_prompt (prompts self)) (translate_kwargs self)
    completion_order.

Definition reflect (self : SimpleTranslationAgent) (completion_order : list nat)
    : stage_run :=
  run_stage self (reflection_prompt (prompts self)) (reflect_kwargs self)
    completion_order.

Definition improve (self : SimpleTranslationAgent) (completion_order : list nat)
    : stage_run :=
  run_stage self (improvement_prompt (prompts self)) (improve_kwargs self)
    completion_order.

Definition agentic_translate (self : SimpleTranslationAgent) (source_text : string)
    (clear_buffer : bool) (sched : schedule) : translation_run :=
  let w0 := match _buffer self with
            | Some b => if decide (b = ∅) then [] else [BufferNotEmpty]
            | None => []
            end in
  let self := set_buffer self (Some ∅) in
  match text_splitter self source_text with
  | Raise e => {| agent_after := self; warned := w0; lines := []; outcome := Raise e |}
  | Ok chunks =>
      let self := buffer_setitem self "source_chunks" (Chunks chunks) in
      let self := buffer_setitem self "num_chunks" (Num (length chunks)) in
      let w1 := if decide (length chunks = 1%nat) then [SourceTooShort] else [] in
      let t := translate self (translate_order sched) in
      match returned t with
      | Raise e => {| agent_after := self; warned := w0 ++ w1;
                      lines := printed t; outcome := Raise e |}
      | Ok translated =>
          let self := buffer_setitem self "translated_chunks" (Chunks translated) in
          let r := reflect self (reflect_order sched) in
          match returned r with
          | Raise e => {| agent_after := self; warned := w0 ++ w1;
                          lines := printed t ++ printed r; outcome := Raise e |}
          | Ok reflection =>
              let self := buffer_setitem self "reflection_chunks" (Chunks reflection) in
              let i := improve self (improve_order sched) in
              match returned i with
              | Raise e => {| agent_after := self; warned := w0 ++ w1;
                              lines := printed t ++ printed r ++ printed i;
                              outcome := Raise e |}
              | Ok improved_chunks =>
                  let self := buffer_setitem self "improved_chunks" (Chunks improved_chunks) in
                  let final := Py.join improved_chunks in
                  let self := if clear_buffer then set_buffer self None else self in
                  {| agent_after := self; warned := w0 ++ w1;
                     lines := printed t ++ printed r ++ printed i;
                     outcome := Ok final |}
              end
          end
      end
  end.
End agent.

(** ** Notions used to state the properties *)

(** The order of [sorted(l, key=key)]. *)
Definition key_le {A} (key : A → nat) : relation A := λ x y, (key x ≤ key y)%nat.

Section futures.
Context `{PyBuiltins}.

(** What the future of the unit [idx] of a stage holds once it is done:
    the pair returned by [query_model], or the exception it raised.  The
    keyword arguments are those the stage method built when it submitted
    the unit. *)
Definition stage_future (self : SimpleTranslationAgent) (prompt_template : PromptTemplate)
    (bind : nat → result (gmap string string)) (idx : nat) : result (nat * string) :=
  let* kw := bind idx in
  (query_model self idx prompt_template (Some kw) (Some (default_kwargs self))).2.

Definition translate_future (self : SimpleTranslationAgent) : nat → result (nat * string) :=
  stage_future self (translation_prompt (prompts self)) (translate_kwargs self).
Definition reflect_future (self : SimpleTranslationAgent) : nat → result (nat * string) :=
  stage_future self (reflection_prompt (prompts self)) (reflect_kwargs self).
Definition improve_future (self : SimpleTranslationAgent) : nat → result (nat * string) :=
  stage_future self (improvement_prompt (prompts self)) (improve_kwargs self).

(** The request of a unit reaches the completion backend, which raises
    [e]: the two renderings succeed and [get_completion] fails. *)
Definition fails_at_completion (self : SimpleTranslationAgent)
    (prompt_template : PromptTemplate) (bind : nat → result (gmap string string))
    (idx : nat) (e : exn) : Prop :=
  ∃ kw _prompt _sysmsg,
    bind idx = Ok kw
    ∧ (get_formatted_prompt prompt_template kw).2 = Ok _prompt
    ∧ (get_formatted_sysmsg prompt_template (default_kwargs self)).2 = Ok _sysmsg
    ∧ llm self _prompt _sysmsg = Raise e.
End futures.

(** The results of the futures that succeeded, and the lines printed for
    those that failed, over a list of unit indices. *)
Definition ok_result {A} (r : result A) : option A :=
  match r with Ok a => Some a | Raise _ => None end.

Definition error_line (fut : nat → result (nat * string)) (idx : nat) : option print_line :=
  match fut idx with Ok _ => None | Raise e => Some (ErrorReflecting idx e) end.

Definition successes (fut : nat → result (nat * string)) (idxs : list nat)
    : list (nat * string) :=
  omap (λ idx, ok_result (fut idx)) idxs.

Definition failures (fut : nat → result (nat * string)) (idxs : list nat)
    : list print_line :=
  omap (error_line fut) idxs.

(** The placeholder contract in the words of the specification: the
    translation prompt needs [source_lang], [target_lang] and
    [source_chunk]; the reflection prompt needs [translated_chunk] as well;
    the improvement prompt needs [reflection_chunk] as well. *)
Definition role_requirements (t r i : PromptTemplate)
    : list (string * PromptTemplate * list string) :=
  let base := ["source_lang"; "target_lang"; "source_chunk"] in
  [ ("translation", t, base);
    ("reflection", r, base ++ ["translated_chunk"]);
    ("improvement", i, base ++ ["translated_chunk"; "reflection_chunk"]) ].

Definition contract_holds (t r i : PromptTemplate) : Prop :=
  ∀ role prompt required placeholder,
    (role, prompt, required) ∈ role_requirements t r i →
    placeholder ∈ required → placeholder ∈ prompt_placehodlers prompt.

Definition lacks_required (t r i : PromptTemplate) (role placeholder : string) : Prop :=
  ∃ prompt required,
    (role, prompt, required) ∈ role_requirements t r i
    ∧ placeholder ∈ required ∧ placeholder ∉ prompt_placehodlers prompt.

(** A key of [placeholder_kwargs] that unpacks into two variables. *)
Definition two_long (key : string) : Prop := String.length key = 2%nat.

(** A replacement field that names a keyword argument and nothing else:
    plain, and its name is not read as an index: it is not empty (the
    empty name is numbered automatically), it is not a number, and it does
    not start with digits whose value exceeds [PY_SSIZE_T_MAX]. *)
Definition keyword_field (f : field) : bool :=
  plain_field f
  && negb (bool_decide (field_name f = ""))
  && match get_integer (field_name f) with Ok None => true | _ => false end.

Definition keyword_template (items : list markup) : Prop :=
  Forall (λ it : markup,
            match it.2 with Some f => keyword_field f = true | None => True end) items.

(** The text of a parsed template with every field replaced by the value
    bound to its name. *)
Fixpoint substitute (items : list markup) (bindings : gmap string string) : string :=
  match items with
  | [] => ""
  | (lit, None) :: items => lit +:+ substitute items bindings
  | (lit, Some f) :: items =>
      lit +:+ default "" (bindings !! field_name f) +:+ substitute items bindings
  end.

(** The agent as [agentic_translate] has it after the split and after each
    stage. *)
Definition after_split (self : SimpleTranslationAgent) (chunks : list string)
    : SimpleTranslationAgent :=
  buffer_setitem
    (buffer_setitem (set_buffer self (Some ∅)) "source_chunks" (Chunks chunks))
    "num_chunks" (Num (length chunks)).

Definition after_translate (self : SimpleTranslationAgent)
    (chunks translated : list string) : SimpleTranslationAgent :=
  buffer_setitem (after_split self chunks) "translated_chunks" (Chunks translated).

Definition after_reflect (self : SimpleTranslationAgent)
    (chunks translated reflection : list string) : SimpleTranslationAgent :=
  buffer_setitem (after_translate self chunks translated)
    "reflection_chunks" (Chunks reflection).

Definition after_improve (self : SimpleTranslationAgent)
    (chunks translated reflection improved : list string) : SimpleTranslationAgent :=
  buffer_setitem (after_reflect self chunks translated reflection)
    "improved_chunks" (Chunks improved).

(** The keys [agentic_translate] ever stores in the buffer. *)
Definition buffer_keys : gset string :=
  {[ "source_chunks"; "num_chunks"; "translated_chunks"; "reflection_chunks";
     "improved_chunks" ]}.

(** How far a call of [agentic_translate] got: the step that raised, or
    completion, with the lists produced until then. *)
Inductive progress : Type :=
  | SplitFailed
  | TranslateFailed (chunks : list string)
  | ReflectFailed (chunks translated : list string)
  | ImproveFailed (chunks translated reflection : list string)
  | Completed (chunks translated reflection improved : list string).

(** The dict the [buffer] property is expected to return after a run that
    got as far as [p]. *)
Definition buffer_at (clear_buffer : bool) (p : progress) : gmap string bufval :=
  match p with
  | SplitFailed => ∅
  | TranslateFailed chunks =>
      {[ "source_chunks" := Chunks chunks; "num_chunks" := Num (length chunks) ]}
  | ReflectFailed chunks translated =>
      {[ "source_chunks" := Chunks chunks; "num_chunks" := Num (length chunks);
         "translated_chunks" := Chunks translated ]}
  | ImproveFailed chunks translated reflection =>
      {[ "source_chunks" := Chunks chunks; "num_chunks" := Num (length chunks);
         "translated_chunks" := Chunks translated;
         "reflection_chunks" := Chunks reflection ]}
  | Completed chunks translated reflection improved =>
      if clear_buffer then ∅
      else {[ "source_chunks" := Chunks chunks; "num_chunks" := Num (length chunks);
              "translated_chunks" := Chunks translated;
              "reflection_chunks" := Chunks reflection;
              "improved_chunks" := Chunks improved ]}
  end.

Section progress.
Context `{PyBuiltins}.

(** The run of [agentic_translate] got as far as [p]: the steps before
    returned the lists of [p], on the agent as it was then, and the run
    ended with the exception of the step that raised or with the joined
    improved chunks. *)
Definition run_reached (self : SimpleTranslationAgent) (source_text : string)
    (clear_buffer : bool) (sched : schedule) (p : progress) : Prop :=
  let run := agentic_translate self source_text clear_buffer sched in
  match p with
  | SplitFailed =>
      ∃ e, text_splitter self source_text = Raise e
           ∧ outcome run = Raise e
           ∧ agent_after run = set_buffer self (Some ∅)
  | TranslateFailed chunks =>
      text_splitter self source_text = Ok chunks
      ∧ ∃ e, returned (translate (after_split self chunks) (translate_order sched))
             = Raise e
             ∧ outcome run = Raise e
             ∧ agent_after run = after_split self chunks
  | ReflectFailed chunks tr =>
      text_splitter self source_text = Ok chunks
      ∧ returned (translate (after_split self chunks) (translate_order sched)) = Ok tr
      ∧ ∃ e, returned (reflect (after_translate self chunks tr) (reflect_order sched))
             = Raise e
             ∧ outcome run = Raise e
             ∧ agent_after run = after_translate self chunks tr
  | ImproveFailed chunks tr rf =>
      text_splitter self source_text = Ok chunks
      ∧ returned (translate (after_split self chunks) (translate_order sched)) = Ok tr
      ∧ returned (reflect (after_translate self chunks tr) (reflect_order sched)) = Ok rf
      ∧ ∃ e, returned (improve (after_reflect self chunks tr rf) (improve_order sched))
             = Raise e
             ∧ outcome run = Raise e
             ∧ agent_after run = after_reflect self chunks tr rf
  | Completed chunks tr rf im =>
      text_splitter self source_text = Ok chunks
      ∧ returned (translate (after_split self chunks) (translate_order sched)) = Ok tr
      ∧ returned (reflect (after_translate self chunks tr) (reflect_order sched)) = Ok rf
      ∧ returned (improve (after_reflect self chunks tr rf) (improve_order sched)) = Ok im
      ∧ outcome run = Ok (Py.join im)
      ∧ agent_after run
        = if clear_buffer then set_buffer (after_improve self chunks tr rf im) None
          else after_improve self chunks tr rf im
  end.
End progress.

(** The number of occurrences of a character in a string, and the string
    without its first [n] characters. *)
Fixpoint count_char (c : ascii) (s : string) : nat :=
  match s with
  | "" => 0
  | String a s => (if decide (a = c) then 1 else 0) + count_char c s
  end%nat.

Fixpoint str_drop (n : nat) (s : string) : string :=
  match n, s with
  | O, _ => s
  | S n, "" => ""
  | S n, String _ s => str_drop n s
  end.

(** [sep.join(l)] for a separator of one character. *)
Fixpoint join_with (sep : ascii) (l : list string) : string :=
  match l with
  | [] => ""
  | [s] => s
  | s :: l => s +:+ String sep (join_with sep l)
  end.

(** Template strings written as segments: literal text followed by a
    field name between braces, and a last literal. *)
Fixpoint str_forall (P : ascii → bool) (s : string) : bool :=
  match s with
  | "" => true
  | String c s => P c && str_forall P s
  end.

Definition literal_char (c : ascii) : bool := negb (ch c "{") && negb (ch c "}").

Definition name_char (c : ascii) : bool :=
  literal_char c && negb (ch c "[") && negb (ch c ":") && negb (ch c "!").

Fixpoint template_text (segs : list (string * string)) (tail : string) : string :=
  match segs with
  | [] => tail
  | (lit, name) :: segs =>
      lit +:+ String "{" (name +:+ String "}" (template_text segs tail))
  end.

Definition template_markup (segs : list (string * string)) (tail : string)
    : list markup :=
  ((λ seg : string * string, (seg.1, Some (Field seg.2 "" None))) <$> segs)
  ++ (if decide (tail = "") then [] else [(tail, None)]).

Definition segments_ok (segs : list (string * string)) (tail : string) : Prop :=
  Forall (λ seg : string * string,
            str_forall literal_char seg.1 = true ∧ str_forall name_char seg.2 = true) segs
  ∧ str_forall literal_char tail = true.

(** The segments with every field name replaced by the value bound to it. *)
Fixpoint fill (segs : list (string * string)) (tail : string)
    (bindings : gmap string string) : string :=
  match segs with
  | [] => tail
  | (lit, name) :: segs =>
      lit +:+ default "" (bindings !! name) +:+ fill segs tail bindings
  end.

(** ** Collaborators and agents used in the examples *)

Module Examples.

(** An interpreter for the examples.  No example template has a field
    that is not plain, so no example depends on this choice. *)
Definition no_rich_fields : PyBuiltins :=
  λ f _, Raise (FormatSyntaxError ("unsupported field " +:+ field_name f)).

(** A splitter that returns a fixed list of chunks. *)
Record FixedSplitter : Type := { fixed_chunks : list string }.
Global Instance FixedSplitter_splitter : SplitterInterface FixedSplitter :=
  λ self _, Ok (fixed_chunks self).

(** A completion backend given by a table from prompts to completions;
    a prompt outside the table makes the backend raise. *)
Record TableModel : Type := { table : list (string * string) }.
Global Instance TableModel_llm : LLMInterface TableModel :=
  λ self prompt _,
    match list_find (λ row, row.1 = prompt) (table self) with
    | Some (_, row) => Ok row.2
    | None => Raise (CompletionError "service unavailable")
    end.

Definition template (prompt : string) : PromptTemplate :=
  match PromptTemplate_init prompt "Translate {source_lang} to {target_lang}." None with
  | Ok t => t
  | Raise _ =>
      {| _prompt := prompt; _sysmsg := ""; _prompt_placeholders := [];
         _sysmsg_placeholders := []; prompt_kwargs := ∅; sysmsg_kwargs := ∅ |}
  end.

Definition t_prompt := template "{source_lang}>{target_lang}:{source_chunk}".
Definition r_prompt := template "{source_lang}>{target_lang}:{source_chunk}={translated_chunk}?".
Definition i_prompt :=
  template "{source_lang}>{target_lang}:{source_chunk}={translated_chunk}!{reflection_chunk}".

Definition config : PromptConfig :=
  {| _translation_prompt := t_prompt; _reflection_prompt := r_prompt;
     _improvement_prompt := i_prompt |}.

Definition french : TableModel :=
  {| table := [ ("en>fr:Hello, ", "Salut, ");
                ("en>fr:world.", "monde.");
                ("en>fr:Hello, =Salut, ?", "too informal");
                ("en>fr:world.=monde.?", "fine");
                ("en>fr:Hello, =Salut, !too informal", "Bonjour, ");
                ("en>fr:world.=monde.!fine", "monde.") ] |}.

Definition agent : SimpleTranslationAgent :=
  SimpleTranslationAgent_init french {| fixed_chunks := ["Hello, "; "world."] |}
    config "en" "fr" false (Some "TRANSLATE_THIS") (Some 10).

(** The same backend when the request for the first chunk's translation
    fails. *)
Definition french_flaky : TableModel :=
  {| table := [ ("en>fr:world.", "monde.");
                ("en>fr:Hello, =monde.?", "wrong chunk") ] |}.

Definition agent_flaky : SimpleTranslationAgent :=
  SimpleTranslationAgent_init french_flaky {| fixed_chunks := ["Hello, "; "world."] |}
    config "en" "fr" false (Some "TRANSLATE_THIS") (Some 10).

(** The agents as [agentic_translate] has them when the translation
    stage starts. *)
Definition segmented (a : SimpleTranslationAgent) : SimpleTranslationAgent :=
  after_split a ["Hello, "; "world."].

(** The flaky agent after its translation stage, in which the unit of
    the first chunk failed. *)
Definition partial_buffer : gmap string bufval :=
  <["translated_chunks" := Chunks ["monde."]]>
    (<["num_chunks" := Num 2]> (<["source_chunks" := Chunks ["Hello, "; "world."]]> ∅)).

Definition agent_partial : SimpleTranslationAgent :=
  after_translate agent_flaky ["Hello, "; "world."] ["monde."].

(** Templates that break the contract or use a positional field. *)
Definition bindings_abc : gmap string string :=
  {[ "a" := "x"; "b" := "y"; "c" := "z" ]}.
Definition bindings_0_extra : gmap string string :=
  {[ "0" := "x"; "extra" := "y" ]}.

(** An agent whose splitter returns no chunk, an agent whose backend is
    down, and the first agent without a worker pool. *)
Definition agent_empty : SimpleTranslationAgent :=
  SimpleTranslationAgent_init french {| fixed_chunks := [] |}
    config "en" "fr" false (Some "TRANSLATE_THIS") (Some 10).

Definition agent_down : SimpleTranslationAgent :=
  SimpleTranslationAgent_init {| table := [] |} {| fixed_chunks := ["Hello, "; "world."] |}
    config "en" "fr" false (Some "TRANSLATE_THIS") None.

Definition agent_no_pool : SimpleTranslationAgent :=
  SimpleTranslationAgent_init french {| fixed_chunks := ["Hello, "; "world."] |}
    config "en" "fr" false (Some "TRANSLATE_THIS") (Some 0).

(** The first agent with a translation prompt that has one more
    placeholder, which nothing binds. *)
Definition agent_glossary : SimpleTranslationAgent :=
  SimpleTranslationAgent_init french {| fixed_chunks := ["Hello, "; "world."] |}
    {| _translation_prompt :=
         template "{source_lang}>{target_lang}:{source_chunk} ({glossary})";
       _reflection_prompt := r_prompt; _improvement_prompt := i_prompt |}
    "en" "fr" false (Some "TRANSLATE_THIS") (Some 10).

(** A template that stores a keyword argument for its placeholder [a]. *)
Definition stored_template : PromptTemplate :=
  {| _prompt := "{a} and {b}"; _sysmsg := "{a}";
     _prompt_placeholders := ["a"; "b"]; _sysmsg_placeholders := ["a"];
     prompt_kwargs := {[ "a" := "x" ]}; sysmsg_kwargs := {[ "a" := "x" ]} |}.

Definition a_tiktoken_splitter : TikTokenMaxTokenSplitter :=
  {| model_name := "gpt-4-turbo"; max_tokens_per_chunk := 500 |}.

Definition in_order : schedule :=
  {| translate_order := [0; 1]; reflect_order := [0; 1]; improve_order := [0; 1] |}%nat.
Definition out_of_order : schedule :=
  {| translate_order := [1; 0]; reflect_order := [1; 0]; improve_order := [1; 0] |}%nat.

End Examples.

(** * Properties *)

(** ** Strings, lists and slices *)

Lemma string_app_cons (c : ascii) (s1 s2 : string) :
  String c s1 +:+ s2 = String c (s1 +:+ s2).
Proof. reflexivity. Qed.

Lemma string_app_nil_l (s : string) : "" +:+ s = s.
Proof. reflexivity. Qed.

Lemma string_app_assoc (s1 s2 s3 : string) : (s1 +:+ s2) +:+ s3 = s1 +:+ s2 +:+ s3.
Proof.
  induction s1 as [|c s1 IH]; [done|].
  by rewrite !string_app_cons, IH.
Qed.

Lemma string_app_nil_r (s : string) : s +:+ "" = s.
Proof.
  induction s as [|c s IH]; [done|].
  by rewrite string_app_cons, IH.
Qed.

Lemma join_app (l1 l2 : list string) : Py.join (l1 ++ l2) = Py.join l1 +:+ Py.join l2.
Proof.
  induction l1 as [|s l1 IH]; simpl; [done|].
  by rewrite IH, string_app_assoc.
Qed.

Lemma join_singleton (s : string) : Py.join [s] = s.
Proof. simpl. apply string_app_nil_r. Qed.

Lemma slice_bound_in_range (n : nat) (i : Z) :
  0 ≤ i ≤ Z.of_nat n → Py.slice_bound n i = Z.to_nat i.
Proof.
  intros Hi. unfold Py.slice_bound.
  destruct (Z.ltb_spec i 0); [lia|]. f_equal. lia.
Qed.

Lemma getitem_in_range {A} (l : list A) (i : Z) (x : A) :
  0 ≤ i → l !! Z.to_nat i = Some x → Py.getitem l i = Ok x.
Proof.
  intros Hi Hx. unfold Py.getitem.
  assert (Hlt : (i <? 0) = false) by by apply Z.ltb_ge.
  rewrite Hlt; cbv zeta; rewrite Hlt. by rewrite Hx.
Qed.

Lemma getitem_out_of_range {A} (l : list A) (i : Z) :
  Z.of_nat (length l) ≤ i → Py.getitem l i = Raise ListIndexOutOfRange.
Proof.
  intros Hi. unfold Py.getitem.
  assert (Hlt : (i <? 0) = false) by (apply Z.ltb_ge; lia).
  rewrite Hlt; cbv zeta; rewrite Hlt.
  rewrite (lookup_ge_None_2 l (Z.to_nat i)) by lia. done.
Qed.

(** A list is its prefix before an index, the element there, and the rest. *)
Lemma take_lookup_drop {A} (l : list A) (i : nat) (x : A) :
  l !! i = Some x → take i l ++ x :: drop (S i) l = l.
Proof. intros Hx. by rewrite <-(take_drop_middle l i x Hx) at 3. Qed.

(** ** Tagging of one source chunk *)

(** The dict returned for the chunk at a valid index. *)
Lemma get_tagged_source_text_in_range
    (self : SimpleTranslationAgent) (b : gmap string bufval)
    (chnks : list string) (chunk_idx : Z) (c : string) :
  _buffer self = Some b →
  b !! "source_chunks" = Some (Chunks chnks) →
  0 ≤ chunk_idx →
  chnks !! Z.to_nat chunk_idx = Some c →
  get_tagged_source_text self chunk_idx
  = Ok {[ "source_chunk" := c;
          "source_tagged" :=
            Py.join (take (Z.to_nat chunk_idx) chnks)
            +:+ tag_chunk c (source_text_tag self)
            +:+ Py.join (drop (S (Z.to_nat chunk_idx)) chnks) ]}.
Proof.
  intros Hbuf Hsrc Hidx Hc.
  pose proof (lookup_lt_Some _ _ _ Hc) as Hlt.
  unfold get_tagged_source_text. rewrite Hbuf.
  destruct (decide (b = ∅)) as [->|_]; [by rewrite lookup_empty in Hsrc|].
  rewrite Hsrc. simpl.
  rewrite (getitem_in_range chnks chunk_idx c) by done. simpl.
  unfold Py.slice_to, Py.slice_from.
  rewrite !slice_bound_in_range by lia.
  replace (Z.to_nat (chunk_idx + 1)) with (S (Z.to_nat chunk_idx)) by lia.
  by rewrite join_app.
Qed.

(** C10.  When the buffer holds the source chunks and [chunk_idx] is a valid
    index, [get_tagged_source_text] returns the dict whose [source_chunk] is
    the chunk at that index and whose [source_tagged] is the concatenation
    of the chunks before it, that chunk between [<TAG>] and [</TAG>], and
    the chunks after it; without the two tags the text is exactly the
    concatenation of all the source chunks. *)
Theorem get_tagged_source_text_tags_one_chunk
    (self : SimpleTranslationAgent) (b : gmap string bufval)
    (chnks : list string) (chunk_idx : Z) :
  _buffer self = Some b →
  b !! "source_chunks" = Some (Chunks chnks) →
  0 ≤ chunk_idx < Z.of_nat (length chnks) →
  ∃ c before after,
    chnks !! Z.to_nat chunk_idx = Some c
    ∧ before = Py.join (take (Z.to_nat chunk_idx) chnks)
    ∧ after = Py.join (drop (S (Z.to_nat chunk_idx)) chnks)
    ∧ get_tagged_source_text self chunk_idx
      = Ok {[ "source_chunk" := c;
              "source_tagged" :=
                before +:+ ("<" +:+ Py.str_opt (source_text_tag self) +:+ ">"
                            +:+ c +:+ "</" +:+ Py.str_opt (source_text_tag self) +:+ ">")
                       +:+ after ]}
    ∧ before +:+ c +:+ after = Py.join chnks.
Proof.
  intros Hbuf Hsrc Hidx.
  destruct (lookup_lt_is_Some_2 chnks (Z.to_nat chunk_idx)) as [c Hc]; [lia|].
  exists c, (Py.join (take (Z.to_nat chunk_idx) chnks)),
    (Py.join (drop (S (Z.to_nat chunk_idx)) chnks)).
  split_and!; try done.
  - rewrite (get_tagged_source_text_in_range self b chnks chunk_idx c) by (done || lia).
    done.
  - rewrite <-(take_lookup_drop chnks (Z.to_nat chunk_idx) c Hc) at 3.
    by rewrite join_app.
Qed.

(** ** The stable sort by key *)

Section sorted.
Context {A : Type} (key : A → nat).

Global Instance key_le_trans : Transitive (key_le key).
Proof. intros x y z. unfold key_le. lia. Qed.

Lemma insert_by_Permutation (x : A) (l : list A) : Py.insert_by key x l ≡ₚ x :: l.
Proof.
  induction l as [|y l IH]; simpl; [done|].
  case_decide; [done|]. by rewrite IH, Permutation_swap.
Qed.

Lemma sorted_Permutation (l : list A) : Py.sorted key l ≡ₚ l.
Proof.
  induction l as [|x l IH]; simpl; [done|].
  unfold Py.sorted in IH. by rewrite insert_by_Permutation, IH.
Qed.

Lemma insert_by_HdRel (x y : A) (l : list A) :
  key_le key y x → HdRel (key_le key) y l → HdRel (key_le key) y (Py.insert_by key x l).
Proof.
  intros Hyx Hl. destruct Hl as [|z l Hz]; simpl.
  - by constructor.
  - case_decide; by constructor.
Qed.

Lemma insert_by_Sorted (x : A) (l : list A) :
  Sorted (key_le key) l → Sorted (key_le key) (Py.insert_by key x l).
Proof.
  induction 1 as [|y l Hl IH Hy]; simpl.
  - by repeat constructor.
  - case_decide as Hxy.
    + constructor; [by constructor|]. by constructor.
    + constructor; [done|]. apply insert_by_HdRel; [|done].
      unfold key_le. lia.
Qed.

Lemma sorted_Sorted (l : list A) : Sorted (key_le key) (Py.sorted key l).
Proof.
  induction l as [|x l IH]; simpl; [constructor|].
  by apply insert_by_Sorted.
Qed.

(** Elements of a list whose keys are pairwise distinct are determined by
    their key. *)
Lemma NoDup_key_inj (l : list A) (x y : A) :
  NoDup (key <$> l) → x ∈ l → y ∈ l → key x = key y → x = y.
Proof.
  induction l as [|z l IH]; intros Hnd Hx Hy Hk; [by inv Hx|].
  rewrite fmap_cons in Hnd. apply NoDup_cons in Hnd as [Hz Hnd].
  inv Hx; inv Hy; try done.
  - exfalso. apply Hz. rewrite Hk. by apply list_elem_of_fmap_2.
  - exfalso. apply Hz. rewrite <-Hk. by apply list_elem_of_fmap_2.
  - by apply IH.
Qed.

(** Sorting any rearrangement of a list that is in key order, with
    pairwise distinct keys, gives that list. *)
Lemma sorted_unique (l l0 : list A) :
  l ≡ₚ l0 → Sorted (key_le key) l0 → NoDup (key <$> l0) → Py.sorted key l = l0.
Proof.
  intros Hp Hs Hnd.
  apply (Sorted_unique_strong (key_le key)); [|apply sorted_Sorted|done|].
  - intros x1 x2 Hx1 Hx2 H12 H21.
    apply (NoDup_key_inj l0); [done| |done|].
    + by rewrite <-Hp, <-sorted_Permutation.
    + unfold key_le in *. lia.
  - by rewrite sorted_Permutation.
Qed.
End sorted.

(** ** One stage over the pool *)

Lemma Forall_HdRel {A} (R : relation A) (x : A) (l : list A) :
  Forall (R x) l → HdRel R x l.
Proof. destruct 1; by constructor. Qed.

Lemma submit_all_ok (bind : nat → result (gmap string string)) (idxs : list nat)
    (subs : list (nat * gmap string string)) :
  submit_all bind idxs = (subs, None) →
  Forall2 (λ idx s, s.1 = idx ∧ bind idx = Ok s.2) idxs subs.
Proof.
  revert subs. induction idxs as [|idx idxs IH]; intros subs; simpl.
  - intros [= <-]. constructor.
  - destruct (bind idx) as [kw|e] eqn:Hb; [|done].
    destruct (submit_all bind idxs) as [subs' err] eqn:Hs.
    intros [= <- ->]. constructor; [done|]. by apply IH.
Qed.

Lemma submit_all_raises (bind : nat → result (gmap string string)) (idxs : list nat)
    (subs : list (nat * gmap string string)) (e : exn) :
  submit_all bind idxs = (subs, Some e) → ∃ idx, idx ∈ idxs ∧ bind idx = Raise e.
Proof.
  revert subs. induction idxs as [|idx idxs IH]; intros subs; simpl; [done|].
  destruct (bind idx) as [kw|e'] eqn:Hb.
  - destruct (submit_all bind idxs) as [subs' err] eqn:Hs.
    intros [= <- ->]. destruct (IH subs' eq_refl) as (i & Hi & Hbi).
    exists i. split; [by right|done].
  - intros [= <- <-]. exists idx. split; [by left|done].
Qed.

(** The first index whose keyword arguments cannot be built stops the
    submission: the earlier units are submitted, the exception is raised. *)
Lemma submit_all_first_failure (bind : nat → result (gmap string string))
    (done_ rest : list nat) (idx : nat) (e : exn) :
  Forall (λ i, is_ok (bind i) = true) done_ →
  bind idx = Raise e →
  ∃ subs, submit_all bind (done_ ++ idx :: rest) = (subs, Some e) ∧ subs.*1 = done_.
Proof.
  intros Hok Hidx. induction Hok as [|i done_ Hi _ IH]; simpl.
  - rewrite Hidx. by exists [].
  - destruct (bind i) as [kw|]; [|done].
    destruct IH as (subs & -> & Hsubs). exists ((i, kw) :: subs).
    split; [done|]. rewrite fmap_cons. by rewrite Hsubs.
Qed.

Lemma successes_cons (fut : nat → result (nat * string)) (i : nat) (idxs : list nat) :
  successes fut (i :: idxs)
  = match fut i with
    | Ok r => r :: successes fut idxs
    | Raise _ => successes fut idxs
    end.
Proof. unfold successes. simpl. by destruct (fut i). Qed.

Lemma failures_cons (fut : nat → result (nat * string)) (i : nat) (idxs : list nat) :
  failures fut (i :: idxs)
  = match fut i with
    | Ok _ => failures fut idxs
    | Raise e => ErrorReflecting i e :: failures fut idxs
    end.
Proof. unfold failures, error_line. simpl. by destruct (fut i). Qed.

Lemma successes_all_ok (fut : nat → result (nat * string)) (c : nat → string)
    (idxs : list nat) :
  (∀ i, i ∈ idxs → fut i = Ok (i, c i)) →
  successes fut idxs = (λ i, (i, c i)) <$> idxs ∧ failures fut idxs = [].
Proof.
  induction idxs as [|i idxs IH]; intros Hok; [done|].
  rewrite successes_cons, failures_cons, (Hok i) by left.
  destruct IH as [-> ->]; [|done]. intros j Hj. apply Hok. by right.
Qed.

Lemma successes_app fut (l1 l2 : list nat) :
  successes fut (l1 ++ l2) = successes fut l1 ++ successes fut l2.
Proof. apply omap_app. Qed.

Lemma failures_app fut (l1 l2 : list nat) :
  failures fut (l1 ++ l2) = failures fut l1 ++ failures fut l2.
Proof. apply omap_app. Qed.

(** Over consecutive indices the successful results come in chunk-id order
    and no chunk id occurs twice. *)
Lemma successes_seq_sorted (fut : nat → result (nat * string)) (a n : nat) :
  (∀ i r, fut i = Ok r → r.1 = i) →
  Sorted (key_le fst) (successes fut (seq a n))
  ∧ NoDup ((successes fut (seq a n)).*1)
  ∧ Forall (λ r, (a ≤ r.1)%nat) (successes fut (seq a n)).
Proof.
  intros Hid. revert a. induction n as [|n IH]; intros a.
  { split_and!; constructor. }
  destruct (IH (S a)) as (Hs & Hnd & Hge).
  change (seq a (S n)) with (a :: seq (S a) n).
  rewrite successes_cons.
  destruct (fut a) as [r|e] eqn:Hr.
  - apply Hid in Hr. split_and!.
    + constructor; [done|]. apply Forall_HdRel.
      eapply Forall_impl; [exact Hge|]. intros x Hx. unfold key_le. simpl in *. lia.
    + rewrite fmap_cons. apply NoDup_cons. split; [|done].
      intros (x & Hx1 & Hx)%list_elem_of_fmap.
      rewrite Forall_forall in Hge. apply Hge in Hx. simpl in *. lia.
    + constructor; [lia|]. eapply Forall_impl; [exact Hge|]. intros x Hx. simpl in *. lia.
  - split_and!; [done..|]. eapply Forall_impl; [exact Hge|]. intros x Hx. simpl in *. lia.
Qed.

Lemma collect_spec (futures : list (nat * result (nat * string)))
    (fut : nat → result (nat * string)) (n : nat) (order : list nat) :
  (∀ p, (p < n)%nat → futures !! p = Some (p, fut p)) →
  Forall (λ p, (p < n)%nat) order →
  collect futures order = (successes fut order, failures fut order).
Proof.
  intros Hf. induction 1 as [|p order Hp _ IH]; [done|].
  rewrite successes_cons, failures_cons. simpl.
  rewrite IH, (Hf p Hp). by destruct (fut p).
Qed.

Section stage.
Context `{PyBuiltins}.

Lemma query_model_chunk_id self idx tmpl pk sk (r : nat * string) :
  (query_model self idx tmpl pk sk).2 = Ok r → r.1 = idx.
Proof.
  unfold query_model.
  destruct (get_formatted_prompt _ _) as [w1 [p|e]]; [|done].
  destruct (get_formatted_sysmsg _ _) as [w2 [s|e]]; [|done]. simpl.
  destruct (llm self p s); [|done]. by intros [= <-].
Qed.

Lemma stage_future_chunk_id self tmpl bind idx (r : nat * string) :
  stage_future self tmpl bind idx = Ok r → r.1 = idx.
Proof.
  unfold stage_future. destruct (bind idx); [|done]. apply query_model_chunk_id.
Qed.

Lemma fails_at_completion_future self tmpl bind idx e :
  fails_at_completion self tmpl bind idx e → stage_future self tmpl bind idx = Raise e.
Proof.
  intros (kw & p & s & Hb & Hp & Hs & Hl).
  unfold stage_future, query_model. rewrite Hb. simpl.
  destruct (get_formatted_prompt _ _) as [w1 rp]. simpl in Hp. subst rp.
  destruct (get_formatted_sysmsg _ _) as [w2 rs]. simpl in Hs. subst rs.
  simpl. by rewrite Hl.
Qed.

(** What a stage method does when the pool completes the units in any
    order: if the keyword arguments of some unit cannot be built the
    method raises; otherwise it returns the completions of the units that
    succeeded, by increasing chunk id, and has printed one line per failed
    unit, in completion order. *)
Lemma run_stage_spec self tmpl bind (n : nat) (order : list nat) :
  Py.ThreadPoolExecutor (max_workers self) = Ok () →
  buffer_getitem self "num_chunks" = Ok (Num n) →
  order ≡ₚ seq 0 n →
  run_stage self tmpl bind order
  = match submit_all bind (seq 0 n) with
    | (subs, Some e) => {| submitted := subs; printed := []; returned := Raise e |}
    | (subs, None) =>
        {| submitted := subs;
           printed := failures (stage_future self tmpl bind) order;
           returned := Ok (successes (stage_future self tmpl bind) (seq 0 n)).*2 |}
    end.
Proof.
  intros Hpool Hn Hperm. unfold run_stage. rewrite Hpool, Hn. simpl.
  destruct (submit_all bind (seq 0 n)) as [subs [e|]] eqn:Hsub; [done|].
  apply submit_all_ok in Hsub.
  erewrite (collect_spec _ (stage_future self tmpl bind) n).
  - f_equal. f_equal. unfold reorder. f_equal.
    destruct (successes_seq_sorted (stage_future self tmpl bind) 0 n) as (Hs & Hnd & _).
    { intros i r. apply stage_future_chunk_id. }
    apply sorted_unique; [|done..].
    unfold successes. by rewrite Hperm.
  - intros p Hp. rewrite list_lookup_fmap.
    destruct (Forall2_lookup_l _ _ _ p p Hsub) as ([i kw] & -> & Hi & Hb).
    { by apply lookup_seq. }
    simpl in *. subst i. unfold stage_future. by rewrite Hb.
  - rewrite Hperm. apply Forall_forall. intros p Hp%elem_of_seq. lia.
Qed.
End stage.

(** ** Ordering and isolation of failures *)

Section ordering.
Context `{PyBuiltins}.


Lemma run_stage_all_succeed self tmpl bind (n : nat) (order : list nat)
    (c : nat → string) :
  Py.ThreadPoolExecutor (max_workers self) = Ok () →
  buffer_getitem self "num_chunks" = Ok (Num n) →
  order ≡ₚ seq 0 n →
  (∀ i, (i < n)%nat → stage_future self tmpl bind i = Ok (i, c i)) →
  returned (run_stage self tmpl bind order) = Ok (c <$> seq 0 n)
  ∧ printed (run_stage self tmpl bind order) = [].
Proof.
  intros Hpool Hn Hperm Hok.
  rewrite (run_stage_spec self tmpl bind n order Hpool Hn Hperm).
  destruct (submit_all bind (seq 0 n)) as [subs [e|]] eqn:Hsub.
  { apply submit_all_raises in Hsub as (i & Hi%elem_of_seq & Hb).
    specialize (Hok i ltac:(lia)). unfold stage_future in Hok. by rewrite Hb in Hok. }
  simpl.
  destruct (successes_all_ok (stage_future self tmpl bind) c (seq 0 n)) as [Hs Hf].
  { intros i Hi%elem_of_seq. apply Hok. lia. }
  split.
  - rewrite Hs. f_equal. rewrite <-list_fmap_compose. by apply list_fmap_ext.
  - apply Permutation_nil_r. rewrite <-Hf. unfold failures. by rewrite Hperm.
Qed.

Lemma run_stage_one_failure self tmpl bind (n k : nat) (order : list nat)
    (c : nat → string) (e : exn) :
  Py.ThreadPoolExecutor (max_workers self) = Ok () →
  buffer_getitem self "num_chunks" = Ok (Num n) →
  (k < n)%nat →
  order ≡ₚ seq 0 n →
  fails_at_completion self tmpl bind k e →
  (∀ i, (i < n)%nat → i ≠ k → stage_future self tmpl bind i = Ok (i, c i)) →
  returned (run_stage self tmpl bind order)
    = Ok (c <$> (seq 0 k ++ seq (S k) (n - S k)))
  ∧ printed (run_stage self tmpl bind order) = [ErrorReflecting k e].
Proof.
  intros Hpool Hn Hk Hperm Hfail Hok.
  pose proof (fails_at_completion_future _ _ _ _ _ Hfail) as Hfut.
  rewrite (run_stage_spec self tmpl bind n order Hpool Hn Hperm).
  destruct (submit_all bind (seq 0 n)) as [subs [e'|]] eqn:Hsub.
  { apply submit_all_raises in Hsub as (i & Hi%elem_of_seq & Hb).
    destruct (decide (i = k)) as [->|Hik].
    - destruct Hfail as (kw & _ & _ & Hbk & _). by rewrite Hb in Hbk.
    - specialize (Hok i ltac:(lia) Hik). unfold stage_future in Hok. by rewrite Hb in Hok. }
  simpl.
  assert (Hseq : seq 0 n = seq 0 k ++ k :: seq (S k) (n - S k)).
  { replace n with (k + S (n - S k))%nat at 1 by lia. by rewrite seq_app. }
  destruct (successes_all_ok (stage_future self tmpl bind) c (seq 0 k)) as [Hs1 Hf1].
  { intros i Hi%elem_of_seq. apply Hok; lia. }
  destruct (successes_all_ok (stage_future self tmpl bind) c (seq (S k) (n - S k)))
    as [Hs2 Hf2].
  { intros i Hi%elem_of_seq. apply Hok; lia. }
  split.
  - rewrite Hseq, successes_app, successes_cons, Hfut, Hs1, Hs2.
    f_equal. rewrite <-fmap_app, <-list_fmap_compose. by apply list_fmap_ext.
  - apply Permutation_singleton_r.
    assert (Hfs : failures (stage_future self tmpl bind) (seq 0 n) = [ErrorReflecting k e]).
    { by rewrite Hseq, failures_app, failures_cons, Hfut, Hf1, Hf2. }
    rewrite <-Hfs. unfold failures. by rewrite Hperm.
Qed.


(** C3.  When the completion call of exactly one unit [k] of the [n]
    units raises and every other unit succeeds, a stage method of an
    agent with a worker pool does not raise: it returns the [n - 1] completions of the other units by
    increasing chunk index, and the one line it prints names [k]. *)
Theorem one_failed_unit_is_isolated (self : SimpleTranslationAgent)
    (n k : nat) (order : list nat) (c : nat → string) (e : exn) :
  Py.ThreadPoolExecutor (max_workers self) = Ok () →
  buffer_getitem self "num_chunks" = Ok (Num n) →
  (k < n)%nat →
  order ≡ₚ seq 0 n →
  (fails_at_completion self (translation_prompt (prompts self)) (translate_kwargs self) k e →
   (∀ i, (i < n)%nat → i ≠ k → translate_future self i = Ok (i, c i)) →
   returned (translate self order) = Ok (c <$> (seq 0 k ++ seq (S k) (n - S k)))
   ∧ length (c <$> (seq 0 k ++ seq (S k) (n - S k))) = (n - 1)%nat
   ∧ printed (translate self order) = [ErrorReflecting k e])
  ∧ (fails_at_completion self (reflection_prompt (prompts self)) (reflect_kwargs self) k e →
     (∀ i, (i < n)%nat → i ≠ k → reflect_future self i = Ok (i, c i)) →
     returned (reflect self order) = Ok (c <$> (seq 0 k ++ seq (S k) (n - S k)))
     ∧ length (c <$> (seq 0 k ++ seq (S k) (n - S k))) = (n - 1)%nat
     ∧ printed (reflect self order) = [ErrorReflecting k e])
  ∧ (fails_at_completion self (improvement_prompt (prompts self)) (improve_kwargs self) k e →
     (∀ i, (i < n)%nat → i ≠ k → improve_future self i = Ok (i, c i)) →
     returned (improve self order) = Ok (c <$> (seq 0 k ++ seq (S k) (n - S k)))
     ∧ length (c <$> (seq 0 k ++ seq (S k) (n - S k))) = (n - 1)%nat
     ∧ printed (improve self order) = [ErrorReflecting k e]).
Proof.
  intros Hpool Hn Hk Hperm.
  assert (Hlen : length (c <$> (seq 0 k ++ seq (S k) (n - S k))) = (n - 1)%nat).
  { rewrite length_fmap, length_app, !length_seq. lia. }
  unfold translate, reflect, improve.
  split_and!; intros Hfail Hok;
    destruct (run_stage_one_failure _ _ _ n k order c e Hpool Hn Hk Hperm Hfail Hok)
      as [Hr Hp];
    by split_and!.
Qed.
End ordering.

(** ** A stage invoked after a partial stage *)

Lemma buffer_getitem_Some self (b : gmap string bufval) (key : string) (v : bufval) :
  _buffer self = Some b → b !! key = Some v → buffer_getitem self key = Ok v.
Proof. intros Hb Hk. unfold buffer_getitem. by rewrite Hb, Hk. Qed.

Lemma buffer_chunk_in_range self (b : gmap string bufval) (key : string)
    (l : list string) (idx : nat) (x : string) :
  _buffer self = Some b → b !! key = Some (Chunks l) → l !! idx = Some x →
  buffer_chunk self key idx = Ok x.
Proof.
  intros Hb Hk Hx. unfold buffer_chunk.
  rewrite (buffer_getitem_Some self b key (Chunks l)) by done. simpl.
  apply getitem_in_range; [lia|]. by rewrite Nat2Z.id.
Qed.

Lemma buffer_chunk_out_of_range self (b : gmap string bufval) (key : string)
    (l : list string) (idx : nat) :
  _buffer self = Some b → b !! key = Some (Chunks l) → (length l ≤ idx)%nat →
  buffer_chunk self key idx = Raise ListIndexOutOfRange.
Proof.
  intros Hb Hk Hx. unfold buffer_chunk.
  rewrite (buffer_getitem_Some self b key (Chunks l)) by done. simpl.
  apply getitem_out_of_range. lia.
Qed.

Lemma get_tagged_source_text_ok self (b : gmap string bufval) (src : list string)
    (idx : nat) :
  _buffer self = Some b → b !! "source_chunks" = Some (Chunks src) →
  (idx < length src)%nat →
  ∃ tagged, get_tagged_source_text self (Z.of_nat idx) = Ok tagged.
Proof.
  intros Hb Hsrc Hidx.
  destruct (lookup_lt_is_Some_2 src idx Hidx) as [c Hc].
  rewrite (get_tagged_source_text_in_range self b src (Z.of_nat idx) c Hb Hsrc);
    [by eauto|lia|by rewrite Nat2Z.id].
Qed.

(** Submission stops with [IndexError] at the first index that a list of
    the buffer does not cover. *)
Lemma submit_all_stops_at (bind : nat → result (gmap string string)) (n m : nat) :
  (m < n)%nat →
  (∀ i, (i < m)%nat → is_ok (bind i) = true) →
  bind m = Raise ListIndexOutOfRange →
  ∃ subs, submit_all bind (seq 0 n) = (subs, Some ListIndexOutOfRange)
          ∧ subs.*1 = seq 0 m.
Proof.
  intros Hm Hok Hbad.
  replace n with (m + S (n - S m))%nat by lia.
  rewrite seq_app. simpl.
  apply submit_all_first_failure; [|done].
  apply Forall_forall. intros i Hi%elem_of_seq. apply Hok. lia.
Qed.

Section partial.
Context `{PyBuiltins}.

Lemma run_stage_raises self tmpl bind (n : nat) (order : list nat) subs (e : exn) :
  Py.ThreadPoolExecutor (max_workers self) = Ok () →
  buffer_getitem self "num_chunks" = Ok (Num n) →
  submit_all bind (seq 0 n) = (subs, Some e) →
  run_stage self tmpl bind order
  = {| submitted := subs; printed := []; returned := Raise e |}.
Proof.
  intros Hpool Hn Hsub. unfold run_stage. by rewrite Hpool, Hn; simpl; rewrite Hsub.
Qed.

(** C2 (as the code has it).  When the list a stage reads from the buffer
    is shorter than the number of chunks, because units of the prior stage
    failed, the stage method of an agent with a worker pool raises
    [IndexError] (list index out of range) for every completion order,
    prints nothing and returns no list: this holds for [reflect] when
    [translated_chunks] is short, and for [improve] when
    [translated_chunks] or [reflection_chunks] is short. *)
Theorem stage_after_partial_stage_raises_IndexError
    (self : SimpleTranslationAgent) (b : gmap string bufval) (n : nat)
    (src tr : list string) (order : list nat) :
  Py.ThreadPoolExecutor (max_workers self) = Ok () →
  _buffer self = Some b →
  b !! "num_chunks" = Some (Num n) →
  b !! "source_chunks" = Some (Chunks src) →
  length src = n →
  b !! "translated_chunks" = Some (Chunks tr) →
  ((length tr < n)%nat →
   returned (reflect self order) = Raise ListIndexOutOfRange
   ∧ printed (reflect self order) = []
   ∧ exn_class ListIndexOutOfRange = ClsIndexError)
  ∧ (∀ rf : list string,
       b !! "reflection_chunks" = Some (Chunks rf) →
       (length tr < n ∨ length rf < n)%nat →
       returned (improve self order) = Raise ListIndexOutOfRange
       ∧ printed (improve self order) = []
       ∧ exn_class ListIndexOutOfRange = ClsIndexError).
Proof.
  intros Hpool Hb Hn Hsrc Hlen Htr.
  pose proof (buffer_getitem_Some self b _ _ Hb Hn) as Hnum.
  split.
  - intros Hshort.
    destruct (submit_all_stops_at (reflect_kwargs self) n (length tr))
      as (subs & Hsub & _); [done| | |].
    + intros i Hi. unfold reflect_kwargs.
      destruct (lookup_lt_is_Some_2 tr i Hi) as [t Ht].
      rewrite (buffer_chunk_in_range self b _ tr i t) by done. simpl.
      destruct (get_tagged_source_text_ok self b src i) as [tagged ->]; [done..|lia|].
      done.
    + unfold reflect_kwargs.
      by rewrite (buffer_chunk_out_of_range self b _ tr) by done.
    + unfold reflect. by rewrite (run_stage_raises _ _ _ n order subs _ Hpool Hnum Hsub).
  - intros rf Hrf Hshort.
    destruct (submit_all_stops_at (improve_kwargs self) n (length tr `min` length rf))
      as (subs & Hsub & _); [lia| | |].
    + intros i Hi. unfold improve_kwargs.
      destruct (lookup_lt_is_Some_2 tr i) as [t Ht]; [lia|].
      destruct (lookup_lt_is_Some_2 rf i) as [r Hr]; [lia|].
      rewrite (buffer_chunk_in_range self b _ tr i t) by done. simpl.
      rewrite (buffer_chunk_in_range self b _ rf i r) by done. simpl.
      destruct (get_tagged_source_text_ok self b src i) as [tagged ->]; [done..|lia|].
      done.
    + unfold improve_kwargs.
      destruct (decide (length tr ≤ length rf)%nat) as [Hle|Hgt].
      * by rewrite (buffer_chunk_out_of_range self b _ tr) by (done || lia).
      * destruct (lookup_lt_is_Some_2 tr (length tr `min` length rf)) as [t Ht]; [lia|].
        rewrite (buffer_chunk_in_range self b _ tr _ t) by done. simpl.
        by rewrite (buffer_chunk_out_of_range self b _ rf) by (done || lia).
    + unfold improve. by rewrite (run_stage_raises _ _ _ n order subs _ Hpool Hnum Hsub).
Qed.
End partial.

(** ** The placeholder contract of PromptConfig *)

Lemma lacks_required_not_contract (t r i : PromptTemplate) (role placeholder : string) :
  lacks_required t r i role placeholder → ¬ contract_holds t r i.
Proof. intros (prompt & required & Hin & Hreq & Hnot) Hc. by eapply Hnot, Hc. Qed.

Lemma contract_holds_intro (t r i : PromptTemplate) :
  Forall (λ ph, ph ∈ prompt_placehodlers t) ["source_lang"; "target_lang"; "source_chunk"] →
  Forall (λ ph, ph ∈ prompt_placehodlers r)
    ["source_lang"; "target_lang"; "source_chunk"; "translated_chunk"] →
  Forall (λ ph, ph ∈ prompt_placehodlers i)
    ["source_lang"; "target_lang"; "source_chunk"; "translated_chunk"; "reflection_chunk"] →
  contract_holds t r i.
Proof.
  intros Ht Hr Hi role prompt required placeholder Hin Hreq.
  unfold role_requirements in Hin. simpl in Hin.
  rewrite Forall_forall in Ht, Hr, Hi.
  repeat (apply elem_of_cons in Hin as [[= -> -> ->]|Hin]); [auto..|by inv Hin].
Qed.

Lemma lacks_required_translation (t r i : PromptTemplate) (ph : string) :
  ph ∈ ["source_lang"; "target_lang"; "source_chunk"] →
  ph ∉ prompt_placehodlers t → lacks_required t r i "translation" ph.
Proof.
  intros Hreq Hnot. exists t, ["source_lang"; "target_lang"; "source_chunk"].
  split_and!; [|done..]. unfold role_requirements. simpl. by left.
Qed.

Lemma lacks_required_reflection (t r i : PromptTemplate) (ph : string) :
  ph ∈ ["source_lang"; "target_lang"; "source_chunk"; "translated_chunk"] →
  ph ∉ prompt_placehodlers r → lacks_required t r i "reflection" ph.
Proof.
  intros Hreq Hnot.
  exists r, ["source_lang"; "target_lang"; "source_chunk"; "translated_chunk"].
  split_and!; [|done..]. unfold role_requirements. simpl. by right; left.
Qed.

Lemma lacks_required_improvement (t r i : PromptTemplate) (ph : string) :
  ph ∈ ["source_lang"; "target_lang"; "source_chunk"; "translated_chunk";
        "reflection_chunk"] →
  ph ∉ prompt_placehodlers i → lacks_required t r i "improvement" ph.
Proof.
  intros Hreq Hnot.
  exists i, ["source_lang"; "target_lang"; "source_chunk"; "translated_chunk";
             "reflection_chunk"].
  split_and!; [|done..]. unfold role_requirements. simpl. by do 2 right; left.
Qed.

(** Construction either succeeds, and then every role has its placeholders,
    or raises for a role and a placeholder which that role's prompt lacks. *)
Lemma PromptConfig_init_cases (t r i : PromptTemplate) :
  match PromptConfig_init t r i with
  | Ok cfg =>
      cfg = {| _translation_prompt := t; _reflection_prompt := r;
               _improvement_prompt := i |}
      ∧ contract_holds t r i
  | Raise e =>
      ∃ role placeholder,
        e = MissingPlaceholder role placeholder ∧ lacks_required t r i role placeholder
  end.
Proof.
  unfold PromptConfig_init, REQUIRED_PROMPT_PLACEHOLDERS, check_contract.
  change (getattr_prompt ?s "translation") with (Ok (_translation_prompt s)).
  change (getattr_prompt ?s "reflection") with (Ok (_reflection_prompt s)).
  change (getattr_prompt ?s "improvement") with (Ok (_improvement_prompt s)).
  cbn [rbind check_required _translation_prompt _reflection_prompt _improvement_prompt].
  repeat (case_bool_decide; cbn [rbind];
    [|eexists _, _; split; [reflexivity|];
      first [ apply lacks_required_translation
            | apply lacks_required_reflection
            | apply lacks_required_improvement ]; [set_solver|assumption] ]).
  split; [done|]. apply contract_holds_intro; repeat constructor; assumption.
Qed.

(** C4.  Constructing a [PromptConfig] from three templates raises, at
    construction, whenever the prompt string of a template lacks a
    placeholder required for its role, and the error names such a role and
    placeholder; when every required placeholder is present, construction
    succeeds and yields the configuration holding the three templates. *)
Theorem PromptConfig_init_enforces_contract (t r i : PromptTemplate) :
  (contract_holds t r i →
   PromptConfig_init t r i
   = Ok {| _translation_prompt := t; _reflection_prompt := r; _improvement_prompt := i |})
  ∧ (¬ contract_holds t r i →
     ∃ role placeholder,
       PromptConfig_init t r i = Raise (MissingPlaceholder role placeholder)
       ∧ exn_class (MissingPlaceholder role placeholder) = ClsValueError
       ∧ lacks_required t r i role placeholder).
Proof.
  pose proof (PromptConfig_init_cases t r i) as Hc.
  destruct (PromptConfig_init t r i) as [cfg|e].
  - destruct Hc as [-> Hc]. split; [done|]. by intros [].
  - destruct Hc as (role & ph & -> & Hl). split.
    + intros Hh. by destruct (lacks_required_not_contract _ _ _ _ _ Hl).
    + intros _. by exists role, ph.
Qed.

(** ** The constructor of PromptTemplate *)

Global Instance two_long_dec (key : string) : Decision (two_long key).
Proof. unfold two_long. apply _. Defined.

Lemma unpack2_two_long (key : string) :
  two_long key → ∃ kv, unpack2 key = Ok kv.
Proof.
  unfold two_long. destruct key as [|a [|b [|c key]]]; simpl; try done. eauto.
Qed.

Lemma unpack2_not_two_long (key : string) :
  ¬ two_long key → unpack2 key = Raise (UnpackError (String.length key)).
Proof.
  unfold two_long. destruct key as [|a [|b [|c key]]]; simpl; done.
Qed.

Lemma filter_kwargs_ok (keys placeholders : list string) (acc : gmap string string) :
  Forall two_long keys → ∃ d, filter_kwargs keys placeholders acc = Ok d.
Proof.
  intros Hk. revert acc. induction Hk as [|key keys Hkey _ IH]; intros acc; simpl.
  - eauto.
  - destruct (unpack2_two_long key Hkey) as [kv ->]. simpl. apply IH.
Qed.

(** The first key that is not two characters long raises. *)
Lemma filter_kwargs_raises (keys placeholders : list string) (acc : gmap string string) :
  ¬ Forall two_long keys →
  ∃ key, key ∈ keys ∧ ¬ two_long key
         ∧ filter_kwargs keys placeholders acc = Raise (UnpackError (String.length key)).
Proof.
  revert acc. induction keys as [|key keys IH]; intros acc Hbad.
  - destruct Hbad. constructor.
  - simpl. destruct (decide (two_long key)) as [Hkey|Hkey].
    + destruct (unpack2_two_long key Hkey) as [kv ->]. simpl.
      destruct (IH (if bool_decide (kv.1 ∈ placeholders) then <[kv.1:=kv.2]> acc else acc))
        as (key' & Hin & Hk' & ->).
      { intros Hall. apply Hbad. by constructor. }
      exists key'. split_and!; [by right|done..].
    + exists key. rewrite (unpack2_not_two_long key Hkey).
      split_and!; [by left|done..].
Qed.

(** C9.  For a dict [placeholder_kwargs], the constructor raises unless
    every key is a sequence of exactly two elements: if some key is not,
    construction fails, and once the two template strings have parsed the
    failure is the unpacking error of such a key; if every key is two long
    (in particular for an empty dict) or the argument is omitted,
    construction succeeds for template strings that parse. *)
Theorem PromptTemplate_init_unpacks_keys (prompt sysmsg : string)
    (placeholder_kwargs : list (string * string)) :
  (¬ Forall two_long placeholder_kwargs.*1 →
   ∃ e, PromptTemplate_init prompt sysmsg (Some placeholder_kwargs) = Raise e)
  ∧ (∀ pp sp,
       get_string_placeholders prompt = Ok pp →
       get_string_placeholders sysmsg = Ok sp →
       (¬ Forall two_long placeholder_kwargs.*1 →
        ∃ key, key ∈ placeholder_kwargs.*1 ∧ ¬ two_long key
               ∧ PromptTemplate_init prompt sysmsg (Some placeholder_kwargs)
                 = Raise (UnpackError (String.length key)))
       ∧ (Forall two_long placeholder_kwargs.*1 →
          ∃ t, PromptTemplate_init prompt sysmsg (Some placeholder_kwargs) = Ok t)
       ∧ (∃ t, PromptTemplate_init prompt sysmsg None = Ok t)).
Proof.
  split.
  - intros Hbad. unfold PromptTemplate_init.
    destruct (get_string_placeholders prompt) as [pp|e]; [|by eauto].
    destruct (get_string_placeholders sysmsg) as [sp|e]; [|by eauto].
    simpl. destruct (filter_kwargs_raises _ pp ∅ Hbad) as (key & _ & _ & ->).
    simpl. eauto.
  - intros pp sp Hpp Hsp. unfold PromptTemplate_init. rewrite Hpp, Hsp. simpl.
    split_and!.
    + intros Hbad. destruct (filter_kwargs_raises _ pp ∅ Hbad) as (key & Hin & Hk & ->).
      exists key. by split_and!.
    + intros Hall.
      destruct (filter_kwargs_ok _ pp ∅ Hall) as [pk ->].
      destruct (filter_kwargs_ok _ sp ∅ Hall) as [sk ->]. simpl. eauto.
    + eauto.
Qed.

(** ** Rendering *)

Section rendering.
Context `{PyBuiltins}.

Lemma keyword_field_format (f : field) (kwargs : gmap string string)
    (v : string) (auto : nat) :
  keyword_field f = true → kwargs !! field_name f = Some v →
  format_field auto f kwargs = Ok v.
Proof.
  unfold keyword_field.
  intros [[Hplain Hne%negb_true_iff%bool_decide_eq_false]%andb_true_iff Hidx]%andb_true_iff Hv.
  pose proof Hplain as Hp. unfold plain_field in Hp.
  apply andb_true_iff in Hp as [[Hfirst%bool_decide_eq_true _]%andb_true_iff _].
  unfold format_field. rewrite Hfirst.
  destruct (get_integer (field_name f)) as [[n|]|e]; try done. cbn [rbind].
  by rewrite decide_False, Hv, Hplain by done.
Qed.

(** With every field a bound keyword field, formatting substitutes. *)
Lemma format_markup_keyword (items : list markup) (kwargs : gmap string string) :
  keyword_template items →
  (∀ name, name ∈ omap (λ it : markup, field_name <$> it.2) items → name ∈ dom kwargs) →
  format_markup items kwargs = Ok (substitute items kwargs).
Proof.
  induction 1 as [|[lit [f|]] items Hf _ IH]; intros Hbound; simpl in *.
  - done.
  - destruct (kwargs !! field_name f) as [v|] eqn:Hv.
    + rewrite (keyword_field_format f kwargs v 0 Hf Hv). simpl.
      rewrite IH; [done|]. intros name Hn. apply Hbound. by right.
    + apply not_elem_of_dom in Hv. destruct Hv. apply Hbound. by left.
  - by rewrite IH.
Qed.

(** C5 (as the code has it).  For a template string that parses:
    when a placeholder of the template is not bound, rendering raises the
    error that lists exactly the placeholders of the template that the
    bindings lack, and returns no string; when every placeholder is bound
    and every replacement field is a keyword field, rendering returns the
    substituted string, and names of the bindings that the template does
    not use only cause the warning that lists them. *)
Theorem get_formatted_checks_then_substitutes (to_format : string)
    (items : list markup) (kwargs : gmap string string) :
  formatter_parse to_format = Ok items →
  let placeholders : gset string :=
    list_to_set (omap (λ it : markup, field_name <$> it.2) items) in
  (placeholders ⊈ dom kwargs →
   get_formatted to_format (Some kwargs)
     = ([], Raise (MissingParameters (placeholders ∖ dom kwargs)))
   ∧ ∀ name, name ∈ placeholders ∖ dom kwargs
             ↔ name ∈ placeholders ∧ kwargs !! name = None)
  ∧ (placeholders ⊆ dom kwargs →
     keyword_template items →
     get_formatted to_format (Some kwargs)
       = (if decide (dom kwargs ⊆ placeholders) then []
          else [ExtraParameters (dom kwargs ∖ placeholders)],
          Ok (substitute items kwargs))).
Proof.
  intros Hparse placeholders.
  unfold get_formatted, placeholders_in_dict, get_string_placeholders, str_format.
  rewrite Hparse. cbn [rbind default]. fold placeholders.
  split.
  - intros Hmiss. rewrite bool_decide_eq_false_2 by done. simpl. split; [done|].
    intros name. rewrite elem_of_difference, not_elem_of_dom. done.
  - intros Hall Hkw. rewrite bool_decide_eq_true_2 by done. simpl.
    rewrite (format_markup_keyword items kwargs Hkw).
    + destruct (decide (dom kwargs ⊆ placeholders)) as [Hsub|Hsub].
      * by rewrite bool_decide_eq_true_2 by done.
      * by rewrite bool_decide_eq_false_2 by done.
    + intros name Hn. apply Hall. unfold placeholders. by apply elem_of_list_to_set.
Qed.
End rendering.

(** ** One run of agentic_translate *)

(** Equality of two buffers written as insertions: compare the lookups. *)
Ltac buffer_eq :=
  apply map_eq; intros ?;
  rewrite ?lookup_insert, ?lookup_singleton, ?lookup_empty;
  repeat case_decide; simplify_eq; done.

Section run.
Context `{PyBuiltins}.

(** Every run stops at the first step that raises or completes. *)
Lemma agentic_translate_progress (self : SimpleTranslationAgent) (source_text : string)
    (clear_buffer : bool) (sched : schedule) :
  ∃ p, run_reached self source_text clear_buffer sched p.
Proof.
  destruct (text_splitter self source_text) as [chunks|e] eqn:Hsplit.
  2:{ exists SplitFailed. exists e. unfold agentic_translate. simpl.
      rewrite Hsplit. done. }
  destruct (returned (translate (after_split self chunks) (translate_order sched)))
    as [tr|e] eqn:Ht.
  2:{ exists (TranslateFailed chunks). split; [done|]. exists e.
      unfold agentic_translate. simpl. rewrite Hsplit.
      fold (after_split self chunks). rewrite Ht. done. }
  destruct (returned (reflect (after_translate self chunks tr) (reflect_order sched)))
    as [rf|e] eqn:Hr.
  2:{ exists (ReflectFailed chunks tr). split_and!; [done..|]. exists e.
      unfold agentic_translate. simpl. rewrite Hsplit.
      fold (after_split self chunks). rewrite Ht.
      fold (after_translate self chunks tr). rewrite Hr. done. }
  destruct (returned (improve (after_reflect self chunks tr rf) (improve_order sched)))
    as [im|e] eqn:Hi.
  2:{ exists (ImproveFailed chunks tr rf). split_and!; [done..|]. exists e.
      unfold agentic_translate. simpl. rewrite Hsplit.
      fold (after_split self chunks). rewrite Ht.
      fold (after_translate self chunks tr). rewrite Hr.
      fold (after_reflect self chunks tr rf). rewrite Hi. done. }
  exists (Completed chunks tr rf im). split_and!; [done..| |].
  - unfold agentic_translate. simpl. rewrite Hsplit.
    fold (after_split self chunks). rewrite Ht.
    fold (after_translate self chunks tr). rewrite Hr.
    fold (after_reflect self chunks tr rf). rewrite Hi. done.
  - unfold agentic_translate. simpl. rewrite Hsplit.
    fold (after_split self chunks). rewrite Ht.
    fold (after_translate self chunks tr). rewrite Hr.
    fold (after_reflect self chunks tr rf). rewrite Hi. done.
Qed.

Lemma buffer_after_split (self : SimpleTranslationAgent) (chunks : list string) :
  buffer (after_split self chunks) = buffer_at false (TranslateFailed chunks).
Proof.
  unfold buffer, after_split, buffer_setitem, set_buffer. simpl.
  buffer_eq.
Qed.

Lemma buffer_after_translate (self : SimpleTranslationAgent) (chunks tr : list string) :
  buffer (after_translate self chunks tr) = buffer_at false (ReflectFailed chunks tr).
Proof.
  unfold buffer, after_translate, after_split, buffer_setitem, set_buffer. simpl.
  buffer_eq.
Qed.

Lemma buffer_after_reflect (self : SimpleTranslationAgent) (chunks tr rf : list string) :
  buffer (after_reflect self chunks tr rf) = buffer_at false (ImproveFailed chunks tr rf).
Proof.
  unfold buffer, after_reflect, after_translate, after_split, buffer_setitem, set_buffer.
  simpl. buffer_eq.
Qed.

Lemma buffer_after_improve (self : SimpleTranslationAgent) (chunks tr rf im : list string) :
  buffer (after_improve self chunks tr rf im) = buffer_at false (Completed chunks tr rf im).
Proof.
  unfold buffer, after_improve, after_reflect, after_translate, after_split,
    buffer_setitem, set_buffer.
  simpl. buffer_eq.
Qed.

Lemma buffer_at_keys (clear_buffer : bool) (p : progress) :
  dom (buffer_at clear_buffer p) ⊆ buffer_keys.
Proof.
  unfold buffer_keys. apply elem_of_subseteq. intros key.
  destruct p, clear_buffer; simpl;
    rewrite ?dom_insert_L, ?dom_singleton_L, ?dom_empty_L;
    rewrite ?elem_of_union, ?elem_of_singleton, ?elem_of_empty; tauto.
Qed.

(** C6.  A call of [agentic_translate] that returns has run the three
    stages, and what it returns is the concatenation, without separator,
    of the list the improvement stage returned, which is in chunk-index
    order; for the improved chunks "Bonjour, " and "monde." that is
    "Bonjour, monde.". *)
Theorem agentic_translate_joins_improved_chunks :
  (∀ (self : SimpleTranslationAgent) (source_text : string) (clear_buffer : bool)
     (sched : schedule) (final : string),
     outcome (agentic_translate self source_text clear_buffer sched) = Ok final →
     ∃ chunks tr rf im,
       text_splitter self source_text = Ok chunks
       ∧ returned (translate (after_split self chunks) (translate_order sched)) = Ok tr
       ∧ returned (reflect (after_translate self chunks tr) (reflect_order sched)) = Ok rf
       ∧ returned (improve (after_reflect self chunks tr rf) (improve_order sched)) = Ok im
       ∧ final = Py.join im)
  ∧ Py.join ["Bonjour, "; "monde."] = "Bonjour, monde.".
Proof.
  split; [|done].
  intros self source_text clear_buffer sched final Hfinal.
  destruct (agentic_translate_progress self source_text clear_buffer sched) as [p Hp].
  destruct p as [|chunks|chunks tr|chunks tr rf|chunks tr rf im]; simpl in Hp.
  - destruct Hp as (e & _ & He & _). by rewrite He in Hfinal.
  - destruct Hp as (_ & e & _ & He & _). by rewrite He in Hfinal.
  - destruct Hp as (_ & _ & e & _ & He & _). by rewrite He in Hfinal.
  - destruct Hp as (_ & _ & _ & e & _ & He & _). by rewrite He in Hfinal.
  - destruct Hp as (Hs & Ht & Hr & Hi & Ho & _).
    rewrite Ho in Hfinal. injection Hfinal as <-.
    by exists chunks, tr, rf, im.
Qed.

(** C8 (as the code has it).  After a call of [agentic_translate] the
    [buffer] property returns the empty dict when the call completed with
    [clear_buffer] true or when the splitter raised; otherwise it returns
    the source chunks, their number and the output of every stage that
    completed (of the three stages when the call completed with
    [clear_buffer] false).  It has no other key: no list of failed unit
    indices is kept. *)
Theorem buffer_after_agentic_translate (self : SimpleTranslationAgent)
    (source_text : string) (clear_buffer : bool) (sched : schedule) :
  ∃ p, run_reached self source_text clear_buffer sched p
       ∧ buffer (agent_after (agentic_translate self source_text clear_buffer sched))
         = buffer_at clear_buffer p
       ∧ dom (buffer (agent_after (agentic_translate self source_text clear_buffer sched)))
         ⊆ buffer_keys.
Proof.
  destruct (agentic_translate_progress self source_text clear_buffer sched) as [p Hp].
  exists p. split; [done|].
  assert (buffer (agent_after (agentic_translate self source_text clear_buffer sched))
          = buffer_at clear_buffer p) as ->; [|split; [done|apply buffer_at_keys]].
  destruct p as [|chunks|chunks tr|chunks tr rf|chunks tr rf im]; simpl in Hp.
  - destruct Hp as (e & _ & _ & ->). done.
  - destruct Hp as (_ & e & _ & _ & ->). apply buffer_after_split.
  - destruct Hp as (_ & _ & e & _ & _ & ->). apply buffer_after_translate.
  - destruct Hp as (_ & _ & _ & e & _ & _ & ->). apply buffer_after_reflect.
  - destruct Hp as (_ & _ & _ & _ & _ & ->). destruct clear_buffer; [done|].
    apply buffer_after_improve.
Qed.
End run.

(** ** Splitters *)

Lemma split_go_nonempty (sep : ascii) (cur s : string) :
  ∃ c l, Py.split_go sep cur s = c :: l.
Proof.
  revert cur. induction s as [|a s IH]; intros cur; simpl; [by eauto|].
  case_decide; [by eauto|]. apply IH.
Qed.

(** [NewLineSplitter] and [SentenceSplitter] return at least one chunk for
    every text. *)
Lemma char_splitters_nonempty (text : string) :
  (∃ c l, split_text MkNewLineSplitter text = Ok (c :: l))
  ∧ (∃ c l, split_text MkSentenceSplitter text = Ok (c :: l)).
Proof.
  split.
  - destruct (split_go_nonempty "010" "" text) as (c & l & Hs).
    exists c, l. unfold split_text, NewLineSplitter_splitter, NewLineSplitter_split_text.
    unfold Py.split. by rewrite Hs.
  - destruct (split_go_nonempty "." "" text) as (c & l & Hs).
    exists c, l. unfold split_text, SentenceSplitter_splitter, SentenceSplitter_split_text.
    unfold Py.split. by rewrite Hs.
Qed.

(** [UniformTextSplitter] returns at least one chunk when the text has at
    least [num_chunks] characters. *)
Lemma uniform_splitter_nonempty (n : Z) (text : string) :
  1 ≤ n ≤ Py.len text →
  ∃ c l, split_text {| num_chunks := n |} text = Ok (c :: l).
Proof.
  intros Hn.
  unfold split_text, UniformTextSplitter_splitter, UniformTextSplitter_split_text.
  unfold Py.floordiv. simpl num_chunks.
  destruct (Z.eqb_spec n 0) as [->|_]; [lia|]. cbn [rbind].
  assert (Hcs : 1 ≤ Py.len text / n) by (apply Z.div_le_lower_bound; lia).
  unfold Py.range0.
  destruct (Z.eqb_spec (Py.len text / n) 0) as [Hz|_]; [lia|].
  destruct (Z.ltb_spec (Py.len text / n) 0); [lia|].
  destruct (Z.leb_spec (Py.len text) 0); [lia|]. cbn [orb rbind].
  assert (Hcount : 1 ≤ (Py.len text + Py.len text / n - 1) / (Py.len text / n)).
  { apply Z.div_le_lower_bound; lia. }
  destruct (Z.to_nat ((Py.len text + Py.len text / n - 1) / (Py.len text / n)))
    as [|k] eqn:Hk; [lia|].
  simpl. eauto.
Qed.

(** C7, where the code departs from it.  [UniformTextSplitter.split_text]
    raises [ValueError] (a zero step for [range]) on every non-empty text
    that has fewer characters than [num_chunks], instead of returning at
    least one chunk. *)
Theorem uniform_splitter_raises_on_short_text (n : Z) (text : string) :
  0 < Py.len text < n →
  split_text {| num_chunks := n |} text = Raise RangeStepZero
  ∧ exn_class RangeStepZero = ClsValueError.
Proof.
  intros Hn. split; [|done].
  unfold split_text, UniformTextSplitter_splitter, UniformTextSplitter_split_text.
  unfold Py.floordiv. simpl num_chunks.
  destruct (Z.eqb_spec n 0) as [->|_]; [lia|]. cbn [rbind].
  rewrite Z.div_small by lia. done.
Qed.

(** * The properties on the example agents *)

Section examples.
Import Examples.
#[local] Existing Instance no_rich_fields.



Lemma one_failed_unit_is_isolated_witness :
  returned (translate (segmented agent_flaky) [1; 0]%nat) = Ok ["monde."]
  ∧ length ["monde."] = 1%nat
  ∧ printed (translate (segmented agent_flaky) [1; 0]%nat)
    = [ErrorReflecting 0 (CompletionError "service unavailable")].
Proof.
  apply (proj1 (one_failed_unit_is_isolated (segmented agent_flaky) 2 0 [1; 0]%nat
                  (λ _, "monde.") (CompletionError "service unavailable")
                  eq_refl eq_refl ltac:(lia) (perm_swap 0%nat 1%nat []))).
  - eexists _, _, _. split_and!; reflexivity.
  - intros [|[|i]] Hi Hk; [lia|reflexivity|lia].
Defined.

(** A stage raised [IndexError] after a partial stage. *)
Lemma stage_after_partial_stage_raises_IndexError_witness :
  returned (reflect agent_partial [0; 1]%nat) = Raise ListIndexOutOfRange
  ∧ printed (reflect agent_partial [0; 1]%nat) = []
  ∧ exn_class ListIndexOutOfRange = ClsIndexError.
Proof.
  apply (proj1 (stage_after_partial_stage_raises_IndexError agent_partial partial_buffer 2
                  ["Hello, "; "world."] ["monde."] [0; 1]%nat
                  eq_refl eq_refl eq_refl eq_refl eq_refl eq_refl)).
  simpl. lia.
Defined.

(** C2, on the code.  Unit 0 of the translation stage failed, so the stage
    returned one translation for two chunks.  The reflection stage then
    raises [IndexError], an exception that carries no unit index, and only
    after it has submitted unit 0 with the translation of chunk 1 bound
    to it. *)
Lemma reflect_after_partial_translate_counterexample :
  returned (translate (segmented agent_flaky) [0; 1]%nat) = Ok ["monde."]
  ∧ printed (translate (segmented agent_flaky) [0; 1]%nat)
    = [ErrorReflecting 0 (CompletionError "service unavailable")]
  ∧ agent_partial = after_translate agent_flaky ["Hello, "; "world."] ["monde."]
  ∧ returned (reflect agent_partial [0; 1]%nat) = Raise ListIndexOutOfRange
  ∧ exn_class ListIndexOutOfRange = ClsIndexError
  ∧ (λ s : nat * gmap string string,
       (s.1, s.2 !! "source_chunk", s.2 !! "translated_chunk"))
      <$> submitted (reflect agent_partial [0; 1]%nat)
    = [(0%nat, Some "Hello, ", Some "monde.")].
Proof. split_and!; vm_compute; reflexivity. Qed.

Lemma PromptConfig_init_enforces_contract_witness :
  PromptConfig_init t_prompt r_prompt i_prompt = Ok config
  ∧ ∃ role placeholder,
      PromptConfig_init t_prompt t_prompt i_prompt
      = Raise (MissingPlaceholder role placeholder)
      ∧ exn_class (MissingPlaceholder role placeholder) = ClsValueError
      ∧ lacks_required t_prompt t_prompt i_prompt role placeholder.
Proof.
  split.
  - apply (proj1 (PromptConfig_init_enforces_contract t_prompt r_prompt i_prompt)).
    apply contract_holds_intro; repeat constructor;
      apply (bool_decide_unpack _); vm_compute; exact I.
  - apply (proj2 (PromptConfig_init_enforces_contract t_prompt t_prompt i_prompt)).
    apply (lacks_required_not_contract _ _ _ "reflection" "translated_chunk").
    apply lacks_required_reflection.
    + apply (bool_decide_unpack _); vm_compute; exact I.
    + apply (bool_decide_unpack _); vm_compute; exact I.
Defined.

Lemma get_formatted_checks_then_substitutes_witness :
  get_formatted "{a} and {b}" (Some bindings_abc)
  = ([ExtraParameters {[ "c" ]}], Ok "x and y")
  ∧ get_formatted "{a} and {d}" (Some bindings_abc)
    = ([], Raise (MissingParameters {[ "d" ]})).
Proof.
  split.
  - refine (proj2 (get_formatted_checks_then_substitutes "{a} and {b}"
                     [("", Some (Field "a" "" None)); (" and ", Some (Field "b" "" None))]
                     bindings_abc eq_refl) _ _).
    + apply (bool_decide_unpack _); vm_compute; exact I.
    + repeat constructor.
  - refine (proj1 (proj1 (get_formatted_checks_then_substitutes "{a} and {d}"
                     [("", Some (Field "a" "" None)); (" and ", Some (Field "d" "" None))]
                     bindings_abc eq_refl) _)).
    apply (bool_decide_unpack _); vm_compute; exact I.
Defined.

(** C5, on the code.  Every placeholder of the template "{0}" is bound
    and the bindings have one name more; rendering warns about that name
    and then raises [IndexError]: no string is returned. *)
Lemma get_formatted_positional_field_counterexample :
  get_string_placeholders "{0}" = Ok ["0"]
  ∧ bindings_0_extra !! "0" = Some "x"
  ∧ get_formatted "{0}" (Some bindings_0_extra)
    = ([ExtraParameters {[ "extra" ]}], Raise (ReplacementIndexOutOfRange 0))
  ∧ exn_class (ReplacementIndexOutOfRange 0) = ClsIndexError
  ∧ ∀ s, (get_formatted "{0}" (Some bindings_0_extra)).2 ≠ Ok s.
Proof. split_and!; try (vm_compute; reflexivity). intros s. vm_compute. discriminate. Qed.

(** Field names that start with digits.  Reading the argument as an index
    raises once the digits exceed [PY_SSIZE_T_MAX], also in a name that is
    not a number; shorter runs of digits followed by another character
    make a keyword name. *)
Example format_field_leading_digits :
  (get_formatted "{9999999999999999999x}" (Some {[ "9999999999999999999x" := "v" ]})).2
  = Raise TooManyDecimalDigits
  ∧ (get_formatted "{9223372036854775808}" (Some {[ "9223372036854775808" := "v" ]})).2
    = Raise TooManyDecimalDigits
  ∧ (get_formatted "{9223372036854775807}" (Some {[ "9223372036854775807" := "v" ]})).2
    = Raise (ReplacementIndexOutOfRange 9223372036854775807)
  ∧ (get_formatted "{922337203685477581x}" (Some {[ "922337203685477581x" := "v" ]})).2
    = Ok "v"
  ∧ (get_formatted "{12a}" (Some {[ "12a" := "v" ]})).2 = Ok "v"
  ∧ exn_class TooManyDecimalDigits = ClsValueError.
Proof. split_and!; vm_compute; reflexivity. Qed.

Lemma agentic_translate_joins_improved_chunks_witness :
  outcome (agentic_translate agent "Hello, world." true out_of_order) = Ok "Bonjour, monde."
  ∧ ∃ chunks tr rf im,
      text_splitter agent "Hello, world." = Ok chunks
      ∧ returned (translate (after_split agent chunks) (translate_order out_of_order))
        = Ok tr
      ∧ returned (reflect (after_translate agent chunks tr) (reflect_order out_of_order))
        = Ok rf
      ∧ returned (improve (after_reflect agent chunks tr rf) (improve_order out_of_order))
        = Ok im
      ∧ "Bonjour, monde." = Py.join im.
Proof.
  split; [vm_compute; reflexivity|].
  apply (proj1 agentic_translate_joins_improved_chunks agent "Hello, world." true
           out_of_order "Bonjour, monde.").
  vm_compute; reflexivity.
Defined.

Lemma uniform_splitter_raises_on_short_text_witness :
  split_text {| num_chunks := 3 |} "ab" = Raise RangeStepZero
  ∧ exn_class RangeStepZero = ClsValueError.
Proof. apply (uniform_splitter_raises_on_short_text 3 "ab"). vm_compute. done. Defined.

(** C8, on the code.  A completed run with the default [clear_buffer]
    leaves the [buffer] property empty; and a run that stops in the
    reflection stage, after unit 0 of the translation stage failed, leaves
    the source chunks, their number and the translations: no failed index
    is recorded. *)
Lemma buffer_after_default_run_counterexample :
  outcome (agentic_translate agent "Hello, world." true in_order) = Ok "Bonjour, monde."
  ∧ buffer (agent_after (agentic_translate agent "Hello, world." true in_order)) = ∅
  ∧ outcome (agentic_translate agent_flaky "Hello, world." false in_order)
    = Raise ListIndexOutOfRange
  ∧ lines (agentic_translate agent_flaky "Hello, world." false in_order)
    = [ErrorReflecting 0 (CompletionError "service unavailable")]
  ∧ buffer (agent_after (agentic_translate agent_flaky "Hello, world." false in_order))
    = {[ "source_chunks" := Chunks ["Hello, "; "world."]; "num_chunks" := Num 2;
         "translated_chunks" := Chunks ["monde."] ]}.
Proof. split_and!; vm_compute; reflexivity. Qed.

Lemma PromptTemplate_init_unpacks_keys_witness :
  (∃ key, key ∈ [("ax", "1"); ("ccc", "7")].*1 ∧ ¬ two_long key
          ∧ PromptTemplate_init "{a}{b}" "{c}" (Some [("ax", "1"); ("ccc", "7")])
            = Raise (UnpackError (String.length key)))
  ∧ (∃ t, PromptTemplate_init "{a}{b}" "{c}" (Some [("ax", "1"); ("c3", "7")]) = Ok t).
Proof.
  split.
  - apply (proj1 (proj2 (PromptTemplate_init_unpacks_keys "{a}{b}" "{c}"
                           [("ax", "1"); ("ccc", "7")]) ["a"; "b"] ["c"] eq_refl eq_refl)).
    intros Hall. apply Forall_cons in Hall as [_ Hall].
    apply Forall_cons in Hall as [Hbad _]. discriminate Hbad.
  - apply (proj1 (proj2 (proj2 (PromptTemplate_init_unpacks_keys "{a}{b}" "{c}"
                           [("ax", "1"); ("c3", "7")]) ["a"; "b"] ["c"] eq_refl eq_refl))).
    repeat constructor.
Defined.

Lemma get_tagged_source_text_tags_one_chunk_witness :
  ∃ c before after,
    ["Hello, "; "world."] !! Z.to_nat 1 = Some c
    ∧ before = Py.join (take (Z.to_nat 1) ["Hello, "; "world."])
    ∧ after = Py.join (drop (S (Z.to_nat 1)) ["Hello, "; "world."])
    ∧ get_tagged_source_text agent_partial 1
      = Ok {[ "source_chunk" := c;
              "source_tagged" :=
                before +:+ ("<" +:+ Py.str_opt (source_text_tag agent_partial) +:+ ">"
                            +:+ c +:+ "</" +:+ Py.str_opt (source_text_tag agent_partial)
                            +:+ ">")
                       +:+ after ]}
    ∧ before +:+ c +:+ after = Py.join ["Hello, "; "world."].
Proof.
  apply (get_tagged_source_text_tags_one_chunk agent_partial partial_buffer
           ["Hello, "; "world."] 1 eq_refl eq_refl).
  simpl. lia.
Defined.

Example get_tagged_source_text_example :
  get_tagged_source_text agent_partial 1
  = Ok {[ "source_chunk" := "world.";
          "source_tagged" := "Hello, <TRANSLATE_THIS>world.</TRANSLATE_THIS>" ]}.
Proof. vm_compute. reflexivity. Qed.
End examples.


(** * Further properties of the code *)

(** ** calculate_chunk_size *)

Example calculate_chunk_size_docstring (self : TikTokenMaxTokenSplitter) :
  calculate_chunk_size self 1000 500 = Ok 500
  ∧ calculate_chunk_size self 1530 500 = Ok 389
  ∧ calculate_chunk_size self 2242 500 = Ok 496.
Proof. by split_and!. Qed.

(** The number of chunks the function divides by, for a count above a
    positive limit: at least two, and enough for the limit. *)
Lemma num_chunks_bounds (token_count token_limit : Z) :
  0 < token_limit < token_count →
  2 ≤ (token_count + token_limit - 1) / token_limit ≤ token_count
  ∧ token_count ≤ token_limit * ((token_count + token_limit - 1) / token_limit).
Proof.
  intros Hl.
  pose proof (Z.mul_div_le (token_count + token_limit - 1) token_limit ltac:(lia)).
  pose proof (Z.mul_succ_div_gt (token_count + token_limit - 1) token_limit ltac:(lia)).
  split_and!.
  - apply Z.div_le_lower_bound; lia.
  - nia.
  - lia.
Qed.

(** X1.  A token count within the limit is its own chunk size; above a positive
    limit the chunk size is positive and at most one and a half times the
    limit. *)
Theorem calculate_chunk_size_bounds (self : TikTokenMaxTokenSplitter)
    (token_count token_limit : Z) :
  (token_count ≤ token_limit →
   calculate_chunk_size self token_count token_limit = Ok token_count)
  ∧ (0 < token_limit < token_count →
     ∃ size, calculate_chunk_size self token_count token_limit = Ok size
             ∧ 1 ≤ size ≤ token_limit + (token_limit - 1) / 2).
Proof.
  unfold calculate_chunk_size. split.
  - intros Hle. by rewrite (proj2 (Z.leb_le _ _) Hle).
  - intros Hl. rewrite (proj2 (Z.leb_gt _ _)) by lia.
    destruct (num_chunks_bounds token_count token_limit Hl) as [[Hn2 Hn] Hcover].
    unfold Py.floordiv, Py.floormod.
    rewrite (proj2 (Z.eqb_neq token_limit 0)) by lia. cbn [rbind].
    set (n := (token_count + token_limit - 1) / token_limit) in *.
    rewrite (proj2 (Z.eqb_neq n 0)) by lia. cbn [rbind].
    assert (Hcs : 1 ≤ token_count / n ≤ token_limit).
    { split; [apply Z.div_le_lower_bound; lia|apply Z.div_le_upper_bound; lia]. }
    pose proof (Z.mod_pos_bound token_count token_limit ltac:(lia)) as Hrem.
    assert (Hextra : 0 ≤ token_count `mod` token_limit / n ≤ (token_limit - 1) / 2).
    { split; [apply Z.div_pos; lia|].
      trans (token_count `mod` token_limit / 2).
      - apply Z.div_le_compat_l; lia.
      - apply Z.div_le_mono; lia. }
    destruct (0 <? token_count `mod` token_limit); eexists; (split; [reflexivity|lia]).
Qed.

(** X2.  The chunk size can exceed the limit: it does for every count that is
    one below twice a limit of at least five. *)
Theorem calculate_chunk_size_exceeds_limit (self : TikTokenMaxTokenSplitter)
    (token_limit : Z) :
  5 ≤ token_limit →
  ∃ size, calculate_chunk_size self (2 * token_limit - 1) token_limit = Ok size
          ∧ size = token_limit - 1 + (token_limit - 1) / 2
          ∧ token_limit < size.
Proof.
  intros Hl. unfold calculate_chunk_size.
  rewrite (proj2 (Z.leb_gt _ _)) by lia.
  assert (Hn : (2 * token_limit - 1 + token_limit - 1) / token_limit = 2).
  { symmetry. apply (Z.div_unique _ _ 2 (token_limit - 2)); lia. }
  assert (Hrem : (2 * token_limit - 1) `mod` token_limit = token_limit - 1).
  { symmetry. apply (Z.mod_unique _ _ 1 (token_limit - 1)); lia. }
  assert (Hcs : (2 * token_limit - 1) / 2 = token_limit - 1).
  { symmetry. apply (Z.div_unique _ _ (token_limit - 1) 1); lia. }
  unfold Py.floordiv, Py.floormod. rewrite Hn.
  rewrite (proj2 (Z.eqb_neq token_limit 0)) by lia. cbn [rbind Z.eqb].
  rewrite Hrem, Hcs. rewrite (proj2 (Z.ltb_lt 0 (token_limit - 1))) by lia.
  cbn [rbind]. eexists. split_and!; [reflexivity..|].
  assert (2 ≤ (token_limit - 1) / 2) by (apply Z.div_le_lower_bound; lia). lia.
Qed.

(** X3.  A limit of zero with a positive count divides by zero. *)
Theorem calculate_chunk_size_zero_limit (self : TikTokenMaxTokenSplitter)
    (token_count : Z) :
  0 < token_count →
  calculate_chunk_size self token_count 0 = Raise DivisionByZero
  ∧ exn_class DivisionByZero = ClsZeroDivisionError.
Proof.
  intros Hc. unfold calculate_chunk_size.
  by rewrite (proj2 (Z.leb_gt _ _)) by lia.
Qed.


(** ** The chunks of the splitters *)

Lemma substring_empty (i m : nat) : String.substring i m "" = "".
Proof. by destruct i, m. Qed.

Lemma substring_drop (n i m : nat) (s : string) :
  String.substring (n + i) m s = String.substring i m (str_drop n s).
Proof.
  revert s. induction n as [|n IH]; intros s; [done|].
  destruct s as [|c s].
  - change (str_drop (S n) "") with "". by rewrite !substring_empty.
  - apply IH.
Qed.

Lemma substring_take_drop (n : nat) (s : string) :
  String.substring 0 n s +:+ str_drop n s = s.
Proof.
  revert s. induction n as [|n IH]; intros s; [by destruct s|].
  destruct s as [|c s]; simpl; [done|].
  by rewrite string_app_cons, IH.
Qed.

Lemma str_drop_length (n : nat) (s : string) :
  String.length (str_drop n s) = (String.length s - n)%nat.
Proof.
  revert s. induction n as [|n IH]; intros s; simpl; [lia|].
  destruct s as [|c s]; simpl; [done|]. apply IH.
Qed.

Lemma string_length_0 (s : string) : String.length s = 0%nat → s = "".
Proof. by destruct s. Qed.

(** Consecutive pieces of [cs] characters that reach the end of a string
    concatenate to the string. *)
Lemma pieces_join (cs m : nat) (s : string) :
  (String.length s ≤ m * cs)%nat →
  Py.join ((λ k, String.substring (k * cs) cs s) <$> seq 0 m) = s.
Proof.
  revert s. induction m as [|m IH]; intros s Hlen.
  - simpl. symmetry. apply string_length_0. lia.
  - change (seq 0 (S m)) with (0%nat :: seq 1 m).
    rewrite <-fmap_S_seq, fmap_cons, <-list_fmap_compose. simpl Py.join.
    trans (String.substring 0 cs s +:+ str_drop cs s); [|apply substring_take_drop].
    f_equal.
    rewrite <-(IH (str_drop cs s)) by (rewrite str_drop_length; lia).
    f_equal. apply list_fmap_ext. intros _ k _. simpl.
    by rewrite <-substring_drop.
Qed.

(** The list [UniformTextSplitter.split_text] returns for a text of at
    least [num_chunks] characters. *)
Lemma uniform_split_ok (n : Z) (text : string) :
  1 ≤ n ≤ Py.len text →
  split_text {| num_chunks := n |} text
  = Ok ((λ k : nat,
           String.substring (k * Z.to_nat (Py.len text / n)) (Z.to_nat (Py.len text / n)) text)
        <$> seq 0 (Z.to_nat ((Py.len text + Py.len text / n - 1) / (Py.len text / n)))).
Proof.
  intros Hn.
  unfold split_text, UniformTextSplitter_splitter, UniformTextSplitter_split_text.
  unfold Py.floordiv. simpl num_chunks.
  rewrite (proj2 (Z.eqb_neq n 0)) by lia. cbn [rbind].
  assert (Hcs : 1 ≤ Py.len text / n) by (apply Z.div_le_lower_bound; lia).
  unfold Py.range0.
  rewrite (proj2 (Z.eqb_neq _ 0)) by lia.
  rewrite (proj2 (Z.ltb_ge _ 0)) by lia.
  rewrite (proj2 (Z.leb_gt _ 0)) by lia. cbn [orb rbind].
  f_equal. rewrite <-list_fmap_compose. apply list_fmap_ext. intros _ k _. simpl.
  unfold Py.str_slice. f_equal; lia.
Qed.

(** X4.  [UniformTextSplitter] loses nothing: the chunks of a text of at least
    [num_chunks] characters concatenate to the text. *)
Theorem uniform_split_concatenates_to_text (n : Z) (text : string) :
  1 ≤ n ≤ Py.len text →
  ∃ chunks, split_text {| num_chunks := n |} text = Ok chunks
            ∧ Py.join chunks = text.
Proof.
  intros Hn. eexists. split; [by apply uniform_split_ok|].
  assert (Hcs : 1 ≤ Py.len text / n) by (apply Z.div_le_lower_bound; lia).
  apply pieces_join.
  pose proof (Z.mul_succ_div_gt (Py.len text + Py.len text / n - 1) (Py.len text / n)
                ltac:(lia)) as Hgt.
  assert (0 ≤ (Py.len text + Py.len text / n - 1) / (Py.len text / n))
    by (apply Z.div_pos; lia).
  unfold Py.len in *. nia.
Qed.

(** X5.  [UniformTextSplitter] returns at least [num_chunks] chunks:
    exactly [num_chunks] when that number divides the length of the text,
    and more than [num_chunks] when it does not. *)
Theorem uniform_split_chunk_count (n : Z) (text : string) :
  1 ≤ n ≤ Py.len text →
  ∃ chunks, split_text {| num_chunks := n |} text = Ok chunks
            ∧ n ≤ Z.of_nat (length chunks)
            ∧ (Py.len text `mod` n = 0 → Z.of_nat (length chunks) = n)
            ∧ (Py.len text `mod` n ≠ 0 → n < Z.of_nat (length chunks)).
Proof.
  intros Hn. eexists. split; [by apply uniform_split_ok|].
  assert (Hcs : 1 ≤ Py.len text / n) by (apply Z.div_le_lower_bound; lia).
  pose proof (Z.mul_div_le (Py.len text) n ltac:(lia)) as Hle.
  rewrite length_fmap, length_seq.
  assert (0 ≤ (Py.len text + Py.len text / n - 1) / (Py.len text / n))
    by (apply Z.div_pos; lia).
  rewrite Z2Nat.id by done.
  pose proof (Z.div_mod (Py.len text) n ltac:(lia)) as Hdm.
  pose proof (Z.mod_pos_bound (Py.len text) n ltac:(lia)) as Hrem.
  split_and!.
  - apply Z.div_le_lower_bound; lia.
  - intros Hdiv. symmetry.
    apply (Z.div_unique _ _ n (Py.len text / n - 1)); lia.
  - intros Hdiv.
    assert (n + 1 ≤ (Py.len text + Py.len text / n - 1) / (Py.len text / n))
      by (apply Z.div_le_lower_bound; [lia|nia]).
    lia.
Qed.

(** X6.  The failures of [UniformTextSplitter]: zero chunks divide by zero; an
    empty text gives a zero step; and a negative number of chunks gives no
    chunk at all for a non-empty text. *)
Theorem uniform_split_edge_cases (n : Z) (text : string) :
  split_text {| num_chunks := 0 |} text = Raise DivisionByZero
  ∧ (n ≠ 0 → split_text {| num_chunks := n |} "" = Raise RangeStepZero)
  ∧ (n < 0 → 0 < Py.len text → split_text {| num_chunks := n |} text = Ok []).
Proof.
  unfold split_text, UniformTextSplitter_splitter, UniformTextSplitter_split_text.
  unfold Py.floordiv. simpl num_chunks. split_and!.
  - done.
  - intros Hn. by rewrite (proj2 (Z.eqb_neq n 0)) by done.
  - intros Hn Hlen. rewrite (proj2 (Z.eqb_neq n 0)) by lia. cbn [rbind].
    assert (Hneg : Py.len text / n < 0).
    { rewrite <-Z.div_opp_opp by lia. apply Z.div_lt_upper_bound; lia. }
    unfold Py.range0.
    rewrite (proj2 (Z.eqb_neq _ 0)) by lia.
    by rewrite (proj2 (Z.ltb_lt _ 0)) by lia.
Qed.

Lemma join_with_cons (sep : ascii) (s : string) (l : list string) :
  l ≠ [] → join_with sep (s :: l) = s +:+ String sep (join_with sep l).
Proof. by destruct l. Qed.

Lemma count_char_app (c : ascii) (s1 s2 : string) :
  count_char c (s1 +:+ s2) = (count_char c s1 + count_char c s2)%nat.
Proof.
  induction s1 as [|a s1 IH]; [done|].
  rewrite string_app_cons. simpl. rewrite IH. lia.
Qed.

(** The pieces of [split]: none holds the separator, there is one more
    than separators, and joined by the separator they are the text. *)
Lemma split_go_spec (sep : ascii) (cur s : string) :
  count_char sep cur = 0%nat →
  Forall (λ piece, count_char sep piece = 0%nat) (Py.split_go sep cur s)
  ∧ length (Py.split_go sep cur s) = S (count_char sep s)
  ∧ join_with sep (Py.split_go sep cur s) = cur +:+ s.
Proof.
  revert cur. induction s as [|a s IH]; intros cur Hcur; simpl.
  - split_and!; [by constructor|done|by rewrite string_app_nil_r].
  - destruct (decide (a = sep)) as [->|Hne].
    + destruct (IH "" eq_refl) as (Hall & Hlen & Hjoin).
      split_and!; [by constructor|simpl; by rewrite Hlen|].
      rewrite join_with_cons, Hjoin; [done|].
      intros Hnil. by rewrite Hnil in Hlen.
    + destruct (IH (cur +:+ String a "")) as (Hall & Hlen & Hjoin).
      { rewrite count_char_app, Hcur. simpl. by rewrite decide_False by done. }
      split_and!; [done..|].
      by rewrite Hjoin, string_app_assoc.
Qed.

(** X7.  [NewLineSplitter] and [SentenceSplitter] cut the text at every
    separator: no chunk holds a separator, there is one chunk more than
    separators in the text, and the chunks joined by the separator are the
    text. *)
Theorem char_splitters_cut_at_separators (text : string) :
  (∃ chunks, split_text MkNewLineSplitter text = Ok chunks
             ∧ Forall (λ chunk, count_char "010" chunk = 0%nat) chunks
             ∧ length chunks = S (count_char "010" text)
             ∧ join_with "010" chunks = text)
  ∧ (∃ chunks, split_text MkSentenceSplitter text = Ok chunks
               ∧ Forall (λ chunk, count_char "." chunk = 0%nat) chunks
               ∧ length chunks = S (count_char "." text)
               ∧ join_with "." chunks = text).
Proof.
  split; (eexists; split; [reflexivity|]); unfold Py.split.
  - destruct (split_go_spec "010" "" text eq_refl) as (Hall & Hlen & Hjoin). done.
  - destruct (split_go_spec "." "" text eq_refl) as (Hall & Hlen & Hjoin). done.
Qed.


(** ** Templates written as segments *)

Lemma snoc_char_app (acc : string) (c : ascii) (s : string) :
  snoc_char acc c +:+ s = acc +:+ String c s.
Proof. unfold snoc_char. by rewrite string_app_assoc. Qed.

Lemma literal_char_spec (c : ascii) :
  literal_char c = true → ch c "{" = false ∧ ch c "}" = false.
Proof.
  unfold literal_char. intros [H1 H2]%andb_true_iff.
  by apply negb_true_iff in H1, H2.
Qed.

Lemma name_char_spec (c : ascii) :
  name_char c = true →
  ch c "{" = false ∧ ch c "}" = false ∧ ch c "[" = false
  ∧ ch c ":" = false ∧ ch c "!" = false.
Proof.
  unfold name_char.
  intros [[[Hl H1]%andb_true_iff H2]%andb_true_iff H3]%andb_true_iff.
  apply literal_char_spec in Hl as [? ?].
  by apply negb_true_iff in H1, H2, H3.
Qed.

(** Literal characters are read into the literal under construction. *)
Lemma parse_literal (acc s rest : string) :
  str_forall literal_char s = true →
  parse_go (PLiteral acc) (s +:+ rest) = parse_go (PLiteral (acc +:+ s)) rest.
Proof.
  revert acc. induction s as [|c s IH]; intros acc Hs.
  - by rewrite string_app_nil_l, string_app_nil_r.
  - simpl in Hs. apply andb_true_iff in Hs as [Hc Hs].
    apply literal_char_spec in Hc as [Ho Hc].
    rewrite string_app_cons. cbn [parse_go]. rewrite Ho, Hc.
    by rewrite IH, snoc_char_app.
Qed.

(** Name characters are read into the field name up to the closing brace. *)
Lemma parse_name (lit acc name rest : string) :
  str_forall name_char name = true →
  parse_go (PName lit acc) (name +:+ String "}" rest)
  = let* items := parse_go (PLiteral "") rest in
    Ok ((lit, Some (Field (acc +:+ name) "" None)) :: items).
Proof.
  revert acc. induction name as [|c name IH]; intros acc Hn.
  - rewrite string_app_nil_l, string_app_nil_r. done.
  - simpl in Hn. apply andb_true_iff in Hn as [Hc Hn].
    apply name_char_spec in Hc as (H1 & H2 & H3 & H4 & H5).
    rewrite string_app_cons. cbn [parse_go]. rewrite H1, H2, H3, H4, H5.
    by rewrite IH, snoc_char_app.
Qed.

(** An opening brace followed by a name starts a field. *)
Lemma parse_open (lit name rest : string) :
  str_forall name_char name = true →
  parse_go (PLiteral lit) (String "{" (name +:+ String "}" rest))
  = parse_go (PName lit "") (name +:+ String "}" rest).
Proof.
  intros Hn. destruct name as [|c name].
  - done.
  - simpl in Hn. apply andb_true_iff in Hn as [Hc _].
    apply name_char_spec in Hc as (H1 & _).
    rewrite string_app_cons. cbn [parse_go]. change (ch "{" "{") with true.
    cbn iota. by rewrite H1.
Qed.

Lemma parse_segments (segs : list (string * string)) (tail : string) :
  segments_ok segs tail →
  formatter_parse (template_text segs tail) = Ok (template_markup segs tail).
Proof.
  unfold formatter_parse, segments_ok, template_markup. intros [Hsegs Htail].
  induction Hsegs as [|[lit name] segs [Hlit Hname] _ IH]; simpl in *.
  - rewrite <-(string_app_nil_r tail) at 1.
    rewrite parse_literal by done. simpl. rewrite string_app_nil_l.
    by destruct (decide (tail = "")).
  - rewrite parse_literal, string_app_nil_l by done.
    rewrite parse_open, parse_name by done. rewrite IH. done.
Qed.

Lemma omap_field_names (segs : list (string * string)) :
  omap (λ it : markup, field_name <$> it.2)
    ((λ seg : string * string, (seg.1, Some (Field seg.2 "" None))) <$> segs)
  = segs.*2.
Proof.
  induction segs as [|[lit name] segs IH]; [done|].
  rewrite !fmap_cons. simpl. f_equal. exact IH.
Qed.

Lemma template_markup_names (segs : list (string * string)) (tail : string) :
  omap (λ it : markup, field_name <$> it.2) (template_markup segs tail) = segs.*2.
Proof.
  unfold template_markup. rewrite omap_app, omap_field_names.
  destruct (decide (tail = "")); apply app_nil_r.
Qed.

Lemma substitute_fields (segs : list (string * string)) (rest : list markup)
    (bindings : gmap string string) :
  substitute (((λ seg : string * string, (seg.1, Some (Field seg.2 "" None))) <$> segs)
              ++ rest) bindings
  = fill segs (substitute rest bindings) bindings.
Proof.
  induction segs as [|[lit name] segs IH]; [done|].
  rewrite fmap_cons, <-app_comm_cons. cbn [substitute fill fst snd field_name].
  do 2 f_equal. exact IH.
Qed.

Lemma substitute_template_markup (segs : list (string * string)) (tail : string)
    (bindings : gmap string string) :
  substitute (template_markup segs tail) bindings = fill segs tail bindings.
Proof.
  unfold template_markup. rewrite substitute_fields. f_equal.
  destruct (decide (tail = "")) as [->|_]; [done|]. simpl.
  by rewrite string_app_nil_r.
Qed.

(** X8.  The placeholders of a template are the names written between braces,
    in the order of the text and with their repetitions. *)
Theorem get_string_placeholders_of_segments (segs : list (string * string))
    (tail : string) :
  segments_ok segs tail →
  get_string_placeholders (template_text segs tail) = Ok segs.*2.
Proof.
  intros Hok. unfold get_string_placeholders.
  rewrite (parse_segments segs tail Hok). cbn [rbind].
  by rewrite template_markup_names.
Qed.

Section segments.
Context `{PyBuiltins}.

(** Rendering with every placeholder bound, for keyword fields. *)
Lemma get_formatted_keyword (to_format : string) (items : list markup)
    (kwargs : gmap string string) :
  formatter_parse to_format = Ok items →
  keyword_template items →
  (∀ name, name ∈ omap (λ it : markup, field_name <$> it.2) items → name ∈ dom kwargs) →
  get_formatted to_format (Some kwargs)
  = (if decide (dom kwargs ⊆ list_to_set (omap (λ it : markup, field_name <$> it.2) items))
     then []
     else [ExtraParameters
             (dom kwargs ∖ list_to_set (omap (λ it : markup, field_name <$> it.2) items))],
     Ok (substitute items kwargs)).
Proof.
  intros Hparse Hkw Hbound.
  unfold get_formatted, placeholders_in_dict, get_string_placeholders, str_format.
  rewrite Hparse. cbn [rbind default].
  rewrite bool_decide_eq_true_2.
  2:{ intros name Hn%elem_of_list_to_set. by apply Hbound. }
  cbn [negb]. rewrite (format_markup_keyword items kwargs Hkw Hbound).
  destruct (decide (dom kwargs ⊆ _)) as [Hsub|Hsub].
  - by rewrite bool_decide_eq_true_2 by done.
  - by rewrite bool_decide_eq_false_2 by done.
Qed.

(** X9.  Rendering a template written as segments, every name being a bound
    keyword name, gives the literals with the bound values in between,
    whatever other names the bindings hold. *)
Theorem get_formatted_fills_segments (segs : list (string * string)) (tail : string)
    (kwargs : gmap string string) :
  segments_ok segs tail →
  Forall (λ seg : string * string,
            keyword_field (Field seg.2 "" None) = true ∧ is_Some (kwargs !! seg.2)) segs →
  (get_formatted (template_text segs tail) (Some kwargs)).2
  = Ok (fill segs tail kwargs).
Proof.
  intros Hok Hsegs.
  rewrite (get_formatted_keyword _ (template_markup segs tail) kwargs).
  - simpl. by rewrite substitute_template_markup.
  - by apply parse_segments.
  - unfold keyword_template, template_markup. apply Forall_app. split.
    + apply Forall_fmap. eapply Forall_impl; [exact Hsegs|]. by intros seg [Hk _].
    + destruct (decide (tail = "")); by repeat constructor.
  - rewrite template_markup_names. intros name (seg & -> & Hin)%list_elem_of_fmap.
    rewrite Forall_forall in Hsegs. destruct (Hsegs seg Hin) as [_ Hsome].
    by apply elem_of_dom.
Qed.
End segments.

(** ** The binding check and the stored keyword arguments *)

(** X10.  [placeholders_in_dict] returns [True] exactly when the keys are the
    placeholders; it returns [False], with the warning, although every
    placeholder is a key, when there are other keys as well; and it never
    returns for a placeholder that is not a key: it raises. *)
Theorem placeholders_in_dict_outcomes (_str : string) (phs : list string)
    (_kwargs : gmap string string) :
  get_string_placeholders _str = Ok phs →
  (dom _kwargs = list_to_set phs ↔ placeholders_in_dict _str _kwargs = ([], Ok true))
  ∧ (list_to_set phs ⊆ dom _kwargs ∧ dom _kwargs ≠ list_to_set phs
     ↔ placeholders_in_dict _str _kwargs
       = ([ExtraParameters (dom _kwargs ∖ list_to_set phs)], Ok false))
  ∧ ((∃ name, name ∈ phs ∧ _kwargs !! name = None)
     ↔ placeholders_in_dict _str _kwargs
       = ([], Raise (MissingParameters (list_to_set phs ∖ dom _kwargs)))).
Proof.
  intros Hphs. unfold placeholders_in_dict. rewrite Hphs.
  set (P := list_to_set phs : gset string).
  assert (Hmiss : (∃ name, name ∈ phs ∧ _kwargs !! name = None) ↔ P ⊈ dom _kwargs).
  { split.
    - intros (name & Hin & Hnone) Hsub.
      apply not_elem_of_dom in Hnone. apply Hnone, Hsub. by apply elem_of_list_to_set.
    - intros Hsub. destruct (decide (Forall (λ name, name ∈ dom _kwargs) phs)) as [Hall|Hex].
      + destruct Hsub. intros name Hn%elem_of_list_to_set.
        rewrite Forall_forall in Hall. by apply Hall.
      + apply not_Forall_Exists in Hex; [|apply _].
        apply Exists_exists in Hex as (name & Hin & Hnot).
        exists name. split; [done|]. by apply not_elem_of_dom. }
  destruct (decide (P ⊆ dom _kwargs)) as [Hsub|Hsub].
  - rewrite bool_decide_eq_true_2 by done. cbn [negb].
    destruct (decide (dom _kwargs ⊆ P)) as [Hsup|Hsup].
    + rewrite bool_decide_eq_true_2 by done. cbn [negb].
      assert (Heq : dom _kwargs = P) by (apply set_eq; intros x; split; auto).
      split_and!; split; try done.
      * by intros [_ Hne].
      * intros Hm. by apply Hmiss in Hm.
    + rewrite bool_decide_eq_false_2 by done. cbn [negb].
      split_and!; split; try done.
      * intros Heq. destruct Hsup. by rewrite Heq.
      * intros _. split; [done|]. intros Heq. destruct Hsup. by rewrite Heq.
      * intros Hm. by apply Hmiss in Hm.
  - rewrite bool_decide_eq_false_2 by done. cbn [negb].
    split_and!; split; try done.
    + intros Heq. destruct Hsub. by rewrite Heq.
    + by intros [Hs _].
    + intros _. by apply Hmiss.
Qed.

Section stored_kwargs.
Context `{PyBuiltins}.

End stored_kwargs.

(** The keyword arguments the constructor stores come from the characters
    of the two-character keys. *)
Lemma filter_kwargs_sound (keys placeholders : list string)
    (acc d : gmap string string) (name v : string) :
  filter_kwargs keys placeholders acc = Ok d →
  d !! name = Some v →
  acc !! name = Some v
  ∨ ∃ a b, name = String a "" ∧ v = String b ""
           ∧ String a (String b "") ∈ keys ∧ name ∈ placeholders.
Proof.
  revert acc. induction keys as [|key keys IH]; intros acc; simpl.
  - intros [= <-] Hd. by left.
  - destruct key as [|a [|b [|c key]]]; try done. simpl.
    intros Hf Hd. destruct (IH _ Hf Hd) as [Hacc|(a' & b' & -> & -> & Hin & Hph)].
    + case_bool_decide as Hph.
      * apply lookup_insert_Some in Hacc as [[<- <-]|[_ Hacc]]; [|by left].
        right. exists a, b. split_and!; [done|done|by left|done].
      * by left.
    + right. exists a', b'. split_and!; [done|done|by right|done].
Qed.

(** X12.  When the constructor returns, the template keeps the two strings and
    their placeholders, and every keyword argument it stores binds the
    first character of a key of [placeholder_kwargs], a placeholder of the
    string, to the second character of that key: the values of the dict are
    not used. *)
Theorem PromptTemplate_init_stores_key_characters (prompt_str sysmsg_str : string)
    (placeholder_kwargs : list (string * string)) (t : PromptTemplate) :
  PromptTemplate_init prompt_str sysmsg_str (Some placeholder_kwargs) = Ok t →
  prompt t = prompt_str
  ∧ sysmsg t = sysmsg_str
  ∧ get_string_placeholders prompt_str = Ok (prompt_placehodlers t)
  ∧ get_string_placeholders sysmsg_str = Ok (sysmsg_params t)
  ∧ (∀ name v, prompt_kwargs t !! name = Some v →
       ∃ a b, name = String a "" ∧ v = String b ""
              ∧ String a (String b "") ∈ placeholder_kwargs.*1
              ∧ name ∈ prompt_placehodlers t)
  ∧ (∀ name v, sysmsg_kwargs t !! name = Some v →
       ∃ a b, name = String a "" ∧ v = String b ""
              ∧ String a (String b "") ∈ placeholder_kwargs.*1
              ∧ name ∈ sysmsg_params t)
  ∧ (∀ other : list (string * string),
       other.*1 = placeholder_kwargs.*1 →
       PromptTemplate_init prompt_str sysmsg_str (Some other) = Ok t).
Proof.
  unfold PromptTemplate_init.
  destruct (get_string_placeholders prompt_str) as [pp|] eqn:Hpp; [|done].
  destruct (get_string_placeholders sysmsg_str) as [sp|] eqn:Hsp; [|done].
  cbn [rbind]. change (default [] (Some ?l)) with l.
  destruct (filter_kwargs placeholder_kwargs.*1 pp ∅) as [pk|] eqn:Hpk; cbn [rbind]; [|done].
  destruct (filter_kwargs placeholder_kwargs.*1 sp ∅) as [sk|] eqn:Hsk; cbn [rbind]; [|done].
  intros [= <-]. simpl. split_and!; try done.
  - intros name v Hl.
    destruct (filter_kwargs_sound _ _ _ _ name v Hpk Hl) as [He|?]; [|done].
    by rewrite lookup_empty in He.
  - intros name v Hl.
    destruct (filter_kwargs_sound _ _ _ _ name v Hsk Hl) as [He|?]; [|done].
    by rewrite lookup_empty in He.
  - intros other ->. by rewrite Hpk, Hsk.
Qed.

(** ** Tagging: errors and negative indices *)

Lemma getitem_below_range {A} (l : list A) (i : Z) :
  i < - Z.of_nat (length l) → Py.getitem l i = Raise ListIndexOutOfRange.
Proof.
  intros Hi. unfold Py.getitem.
  rewrite (proj2 (Z.ltb_lt i 0)) by lia. cbv zeta.
  by rewrite (proj2 (Z.ltb_lt _ 0)) by lia.
Qed.

Lemma getitem_negative {A} (l : list A) (i : Z) :
  - Z.of_nat (length l) ≤ i < 0 →
  Py.getitem l i = Py.getitem l (i + Z.of_nat (length l)).
Proof.
  intros Hi. unfold Py.getitem. cbv zeta.
  rewrite (proj2 (Z.ltb_lt i 0)) by lia.
  by rewrite !(proj2 (Z.ltb_ge (i + Z.of_nat (length l)) 0)) by lia.
Qed.

Lemma slice_bound_negative (n : nat) (i : Z) :
  - Z.of_nat n ≤ i < 0 → Py.slice_bound n i = Py.slice_bound n (i + Z.of_nat n).
Proof.
  intros Hi. unfold Py.slice_bound.
  rewrite (proj2 (Z.ltb_lt i 0)) by lia.
  by rewrite (proj2 (Z.ltb_ge (i + Z.of_nat n) 0)) by lia.
Qed.

(** X13.  [get_tagged_source_text] raises [ValueError] when the buffer is [None]
    or empty and when it has no source chunks, and [IndexError] for an index
    that is not in [-len, len). *)
Theorem get_tagged_source_text_errors (self : SimpleTranslationAgent) (chunk_idx : Z) :
  (_buffer self = None ∨ _buffer self = Some ∅ →
   get_tagged_source_text self chunk_idx = Raise BufferEmpty)
  ∧ (∀ b, _buffer self = Some b → b ≠ ∅ → b !! "source_chunks" = None →
       get_tagged_source_text self chunk_idx = Raise SourceChunksNotFound)
  ∧ (∀ b chnks, _buffer self = Some b → b !! "source_chunks" = Some (Chunks chnks) →
       chunk_idx < - Z.of_nat (length chnks) ∨ Z.of_nat (length chnks) ≤ chunk_idx →
       get_tagged_source_text self chunk_idx = Raise ListIndexOutOfRange).
Proof.
  unfold get_tagged_source_text. split_and!.
  - intros [->| ->]; [done|]. by rewrite decide_True by done.
  - intros b -> Hne Hsrc. by rewrite decide_False, Hsrc by done.
  - intros b chnks -> Hsrc Hidx.
    destruct (decide (b = ∅)) as [->|_]; [by rewrite lookup_empty in Hsrc|].
    rewrite Hsrc. cbn [as_chunks rbind].
    destruct Hidx as [Hlow|Hhigh].
    + by rewrite getitem_below_range by done.
    + by rewrite getitem_out_of_range by done.
Qed.

(** X14.  A negative index below [-1] counts from the end: the call returns what
    it returns for the index plus the number of chunks. *)
Theorem get_tagged_source_text_negative_index (self : SimpleTranslationAgent)
    (b : gmap string bufval) (chnks : list string) (chunk_idx : Z) :
  _buffer self = Some b →
  b !! "source_chunks" = Some (Chunks chnks) →
  - Z.of_nat (length chnks) ≤ chunk_idx < -1 →
  get_tagged_source_text self chunk_idx
  = get_tagged_source_text self (chunk_idx + Z.of_nat (length chnks)).
Proof.
  intros Hb Hsrc Hidx. unfold get_tagged_source_text. rewrite Hb.
  destruct (decide (b = ∅)) as [->|_]; [done|].
  rewrite Hsrc. cbn [as_chunks rbind].
  rewrite (getitem_negative chnks chunk_idx) by lia.
  unfold Py.slice_to, Py.slice_from.
  rewrite (slice_bound_negative (length chnks) chunk_idx) by lia.
  rewrite (slice_bound_negative (length chnks) (chunk_idx + 1)) by lia.
  by replace (chunk_idx + 1 + Z.of_nat (length chnks))
    with (chunk_idx + Z.of_nat (length chnks) + 1) by lia.
Qed.

(** X15.  The index [-1] is different: the last chunk is tagged, but it is
    followed by all the chunks again, because the slice after it starts at
    index 0. *)
Theorem get_tagged_source_text_index_minus_one (self : SimpleTranslationAgent)
    (b : gmap string bufval) (before : list string) (c : string) :
  _buffer self = Some b →
  b !! "source_chunks" = Some (Chunks (before ++ [c])) →
  get_tagged_source_text self (-1)
  = Ok {[ "source_chunk" := c;
          "source_tagged" :=
            Py.join before +:+ tag_chunk c (source_text_tag self)
            +:+ Py.join (before ++ [c]) ]}.
Proof.
  intros Hb Hsrc. unfold get_tagged_source_text. rewrite Hb.
  destruct (decide (b = ∅)) as [->|_]; [by rewrite lookup_empty in Hsrc|].
  rewrite Hsrc. cbn [as_chunks rbind].
  rewrite (getitem_negative (before ++ [c]) (-1)) by (rewrite length_app; simpl; lia).
  rewrite (getitem_in_range (before ++ [c]) _ c).
  2:{ rewrite length_app. simpl. lia. }
  2:{ rewrite length_app. simpl.
      replace (Z.to_nat (-1 + Z.of_nat (length before + 1))) with (length before) by lia.
      by rewrite lookup_app_r, Nat.sub_diag by lia. }
  cbn [rbind]. unfold Py.slice_to, Py.slice_from.
  rewrite (slice_bound_negative (length (before ++ [c])) (-1))
    by (rewrite length_app; simpl; lia).
  rewrite !slice_bound_in_range by (rewrite length_app; simpl; lia).
  rewrite length_app. simpl length.
  replace (Z.to_nat (-1 + Z.of_nat (length before + 1))) with (length before) by lia.
  rewrite take_app_length. change (Z.to_nat (-1 + 1)) with 0%nat. rewrite drop_0.
  by rewrite (join_app before), (join_app [_]), join_singleton.
Qed.

(** ** The buffer between the steps of a run *)

(** Equality of two dicts of keyword arguments written with unions and
    insertions: compare the lookups. *)
Ltac kwargs_eq :=
  apply map_eq; intros ?;
  rewrite ?lookup_union, ?lookup_insert, ?lookup_singleton, ?lookup_empty;
  repeat case_decide; simplify_eq; done.

Lemma after_split_lookups (self : SimpleTranslationAgent) (chunks : list string) :
  ∃ b, _buffer (after_split self chunks) = Some b
       ∧ b !! "num_chunks" = Some (Num (length chunks))
       ∧ b !! "source_chunks" = Some (Chunks chunks)
       ∧ b !! "translated_chunks" = None.
Proof. eexists. split; [reflexivity|]. by split_and!. Qed.

Lemma after_translate_lookups (self : SimpleTranslationAgent) (chunks tr : list string) :
  ∃ b, _buffer (after_translate self chunks tr) = Some b
       ∧ b !! "num_chunks" = Some (Num (length chunks))
       ∧ b !! "source_chunks" = Some (Chunks chunks)
       ∧ b !! "translated_chunks" = Some (Chunks tr)
       ∧ b !! "reflection_chunks" = None.
Proof. eexists. split; [reflexivity|]. by split_and!. Qed.

Lemma after_reflect_lookups (self : SimpleTranslationAgent) (chunks tr rf : list string) :
  ∃ b, _buffer (after_reflect self chunks tr rf) = Some b
       ∧ b !! "num_chunks" = Some (Num (length chunks))
       ∧ b !! "source_chunks" = Some (Chunks chunks)
       ∧ b !! "translated_chunks" = Some (Chunks tr)
       ∧ b !! "reflection_chunks" = Some (Chunks rf).
Proof. eexists. split; [reflexivity|]. by split_and!. Qed.

(** X16.  The keyword arguments of the unit [idx] of each stage of a run: the
    chunk, the text with that chunk tagged, the two languages and, for the
    later stages, the output of the earlier stages at the same index. *)
Theorem stage_kwargs_of_unit (self : SimpleTranslationAgent)
    (chunks tr rf : list string) (idx : nat) (c t r : string) :
  default_kwargs self
    = {[ "source_lang" := source_lang self; "target_lang" := target_lang self ]} →
  chunks !! idx = Some c →
  tr !! idx = Some t →
  rf !! idx = Some r →
  let tagged := Py.join (take idx chunks) +:+ tag_chunk c (source_text_tag self)
                +:+ Py.join (drop (S idx) chunks) in
  translate_kwargs (after_split self chunks) idx
    = Ok {[ "source_chunk" := c; "source_tagged" := tagged;
            "source_lang" := source_lang self; "target_lang" := target_lang self ]}
  ∧ reflect_kwargs (after_translate self chunks tr) idx
    = Ok {[ "source_chunk" := c; "source_tagged" := tagged;
            "source_lang" := source_lang self; "target_lang" := target_lang self;
            "translated_chunk" := t ]}
  ∧ improve_kwargs (after_reflect self chunks tr rf) idx
    = Ok {[ "source_chunk" := c; "source_tagged" := tagged;
            "source_lang" := source_lang self; "target_lang" := target_lang self;
            "translated_chunk" := t; "reflection_chunk" := r ]}.
Proof.
  intros Hdk Hc Ht Hr tagged.
  destruct (after_split_lookups self chunks) as (b1 & Hb1 & _ & Hs1 & _).
  destruct (after_translate_lookups self chunks tr) as (b2 & Hb2 & _ & Hs2 & Ht2 & _).
  destruct (after_reflect_lookups self chunks tr rf) as (b3 & Hb3 & _ & Hs3 & Ht3 & Hr3).
  unfold translate_kwargs, reflect_kwargs, improve_kwargs.
  rewrite (buffer_chunk_in_range _ b2 "translated_chunks" tr idx t) by done.
  rewrite (buffer_chunk_in_range _ b3 "translated_chunks" tr idx t) by done.
  rewrite (buffer_chunk_in_range _ b3 "reflection_chunks" rf idx r) by done.
  rewrite (get_tagged_source_text_in_range _ b1 chunks (Z.of_nat idx) c)
    by (done || lia || by rewrite Nat2Z.id).
  rewrite (get_tagged_source_text_in_range _ b2 chunks (Z.of_nat idx) c)
    by (done || lia || by rewrite Nat2Z.id).
  rewrite (get_tagged_source_text_in_range _ b3 chunks (Z.of_nat idx) c)
    by (done || lia || by rewrite Nat2Z.id).
  cbn [rbind]. rewrite Nat2Z.id.
  change (default_kwargs (after_split self chunks)) with (default_kwargs self).
  change (default_kwargs (after_translate self chunks tr)) with (default_kwargs self).
  change (default_kwargs (after_reflect self chunks tr rf)) with (default_kwargs self).
  change (source_text_tag (after_split self chunks)) with (source_text_tag self).
  change (source_text_tag (after_translate self chunks tr)) with (source_text_tag self).
  change (source_text_tag (after_reflect self chunks tr rf)) with (source_text_tag self).
  rewrite Hdk. fold tagged.
  split_and!; f_equal; kwargs_eq.
Qed.

(** ** What a stage accounts for *)

Lemma successes_failures_length (fut : nat → result (nat * string)) (idxs : list nat) :
  (length (successes fut idxs) + length (failures fut idxs))%nat = length idxs.
Proof.
  induction idxs as [|i idxs IH]; [done|].
  rewrite successes_cons, failures_cons. destruct (fut i); simpl; lia.
Qed.

Lemma submit_all_ids (bind : nat → result (gmap string string)) (idxs : list nat)
    (subs : list (nat * gmap string string)) :
  submit_all bind idxs = (subs, None) → subs.*1 = idxs.
Proof.
  intros Hsub%submit_all_ok. induction Hsub as [|i s idxs subs [Hi _] _ IH]; [done|].
  rewrite fmap_cons. by f_equal.
Qed.

Section accounting.
Context `{PyBuiltins}.

Lemma run_stage_accounts self tmpl bind (n : nat) (order : list nat) (out : list string) :
  Py.ThreadPoolExecutor (max_workers self) = Ok () →
  buffer_getitem self "num_chunks" = Ok (Num n) →
  order ≡ₚ seq 0 n →
  returned (run_stage self tmpl bind order) = Ok out →
  (length out + length (printed (run_stage self tmpl bind order)))%nat = n
  ∧ (submitted (run_stage self tmpl bind order)).*1 = seq 0 n.
Proof.
  intros Hpool Hn Hperm.
  rewrite (run_stage_spec self tmpl bind n order Hpool Hn Hperm).
  destruct (submit_all bind (seq 0 n)) as [subs [e|]] eqn:Hsub; [done|].
  simpl. intros [= <-]. split.
  - rewrite length_fmap.
    assert (length (failures (stage_future self tmpl bind) order)
            = length (failures (stage_future self tmpl bind) (seq 0 n))) as ->.
    { unfold failures. by rewrite Hperm. }
    by rewrite successes_failures_length, length_seq.
  - by apply (submit_all_ids bind).
Qed.

(** X17.  A stage method that returns has submitted the units 0 to [n - 1], in
    this order, and accounts for each of them: the number of completions it
    returns and the number of lines it printed add up to [n]. *)
Theorem stage_accounts_for_every_unit (self : SimpleTranslationAgent)
    (n : nat) (order : list nat) :
  Py.ThreadPoolExecutor (max_workers self) = Ok () →
  buffer_getitem self "num_chunks" = Ok (Num n) →
  order ≡ₚ seq 0 n →
  (∀ out, returned (translate self order) = Ok out →
     (length out + length (printed (translate self order)))%nat = n
     ∧ (submitted (translate self order)).*1 = seq 0 n)
  ∧ (∀ out, returned (reflect self order) = Ok out →
       (length out + length (printed (reflect self order)))%nat = n
       ∧ (submitted (reflect self order)).*1 = seq 0 n)
  ∧ (∀ out, returned (improve self order) = Ok out →
       (length out + length (printed (improve self order)))%nat = n
       ∧ (submitted (improve self order)).*1 = seq 0 n).
Proof.
  intros Hpool Hn Hperm. unfold translate, reflect, improve.
  split_and!; intros out Hout; by eapply run_stage_accounts.
Qed.
End accounting.

(** ** Whole runs *)

Lemma collect_no_futures (order : list nat) : collect [] order = ([], []).
Proof. induction order as [|p order IH]; [done|]. simpl. by rewrite IH. Qed.

Section runs.
Context `{PyBuiltins}.

(** The run of [agentic_translate] whose three stages return. *)
Lemma agentic_translate_completed (self : SimpleTranslationAgent) (source_text : string)
    (clear_buffer : bool) (sched : schedule) (chunks tr rf im : list string) :
  text_splitter self source_text = Ok chunks →
  returned (translate (after_split self chunks) (translate_order sched)) = Ok tr →
  returned (reflect (after_translate self chunks tr) (reflect_order sched)) = Ok rf →
  returned (improve (after_reflect self chunks tr rf) (improve_order sched)) = Ok im →
  outcome (agentic_translate self source_text clear_buffer sched) = Ok (Py.join im)
  ∧ lines (agentic_translate self source_text clear_buffer sched)
    = printed (translate (after_split self chunks) (translate_order sched))
      ++ printed (reflect (after_translate self chunks tr) (reflect_order sched))
      ++ printed (improve (after_reflect self chunks tr rf) (improve_order sched))
  ∧ warned (agentic_translate self source_text clear_buffer sched)
    = match _buffer self with
      | Some b => if decide (b = ∅) then [] else [BufferNotEmpty]
      | None => []
      end ++ (if decide (length chunks = 1%nat) then [SourceTooShort] else [])
  ∧ buffer (agent_after (agentic_translate self source_text clear_buffer sched))
    = buffer_at clear_buffer (Completed chunks tr rf im).
Proof.
  intros Hsplit Ht Hr Hi.
  unfold agentic_translate. simpl. rewrite Hsplit.
  fold (after_split self chunks). rewrite Ht.
  fold (after_translate self chunks tr). rewrite Hr.
  fold (after_reflect self chunks tr rf). rewrite Hi.
  fold (after_improve self chunks tr rf im). simpl.
  split_and!; [done..|].
  destruct clear_buffer; [done|]. apply buffer_after_improve.
Qed.

Lemma run_stage_no_chunks self tmpl bind (order : list nat) :
  Py.ThreadPoolExecutor (max_workers self) = Ok () →
  buffer_getitem self "num_chunks" = Ok (Num 0) →
  run_stage self tmpl bind order = {| submitted := []; printed := []; returned := Ok [] |}.
Proof.
  intros Hpool Hn. unfold run_stage. rewrite Hpool, Hn. simpl.
  by rewrite collect_no_futures.
Qed.

Lemma run_stage_all_fail self tmpl bind (n : nat) (order : list nat) (e : nat → exn) :
  Py.ThreadPoolExecutor (max_workers self) = Ok () →
  buffer_getitem self "num_chunks" = Ok (Num n) →
  order ≡ₚ seq 0 n →
  (∀ i, (i < n)%nat → is_ok (bind i) = true) →
  (∀ i, (i < n)%nat → stage_future self tmpl bind i = Raise (e i)) →
  returned (run_stage self tmpl bind order) = Ok []
  ∧ printed (run_stage self tmpl bind order) = (λ i, ErrorReflecting i (e i)) <$> order.
Proof.
  intros Hpool Hn Hperm Hbind Hfail.
  rewrite (run_stage_spec self tmpl bind n order Hpool Hn Hperm).
  destruct (submit_all bind (seq 0 n)) as [subs [e'|]] eqn:Hsub.
  { apply submit_all_raises in Hsub as (i & Hi%elem_of_seq & Hb).
    specialize (Hbind i ltac:(lia)). by rewrite Hb in Hbind. }
  simpl. split.
  - f_equal. assert (Hnone : ∀ idxs, Forall (λ i, (i < n)%nat) idxs →
                       successes (stage_future self tmpl bind) idxs = []).
    { induction 1 as [|i idxs Hi _ IH]; [done|].
      by rewrite successes_cons, (Hfail i Hi). }
    rewrite Hnone; [done|]. apply Forall_forall. intros i Hi%elem_of_seq. lia.
  - assert (Hall : Forall (λ i, (i < n)%nat) order).
    { rewrite Hperm. apply Forall_forall. intros i Hi%elem_of_seq. lia. }
    clear Hperm. induction Hall as [|i idxs Hi _ IH]; [done|].
    by rewrite failures_cons, (Hfail i Hi), fmap_cons, IH.
Qed.

(** X18.  When every unit of every stage succeeds, a run returns the
    concatenation of the completions of the improvement stage in chunk
    order, prints nothing, and leaves in the buffer (unless it is cleared)
    the chunks and the completions of the three stages, all in chunk
    order. *)
Theorem agentic_translate_when_all_units_succeed (self : SimpleTranslationAgent)
    (source_text : string) (clear_buffer : bool) (sched : schedule)
    (chunks : list string) (t r i : nat → string) :
  Py.ThreadPoolExecutor (max_workers self) = Ok () →
  text_splitter self source_text = Ok chunks →
  translate_order sched ≡ₚ seq 0 (length chunks) →
  reflect_order sched ≡ₚ seq 0 (length chunks) →
  improve_order sched ≡ₚ seq 0 (length chunks) →
  (∀ k, (k < length chunks)%nat →
     translate_future (after_split self chunks) k = Ok (k, t k)) →
  (∀ k, (k < length chunks)%nat →
     reflect_future (after_translate self chunks (t <$> seq 0 (length chunks))) k
     = Ok (k, r k)) →
  (∀ k, (k < length chunks)%nat →
     improve_future (after_reflect self chunks (t <$> seq 0 (length chunks))
                       (r <$> seq 0 (length chunks))) k
     = Ok (k, i k)) →
  outcome (agentic_translate self source_text clear_buffer sched)
    = Ok (Py.join (i <$> seq 0 (length chunks)))
  ∧ lines (agentic_translate self source_text clear_buffer sched) = []
  ∧ buffer (agent_after (agentic_translate self source_text clear_buffer sched))
    = buffer_at clear_buffer
        (Completed chunks (t <$> seq 0 (length chunks)) (r <$> seq 0 (length chunks))
           (i <$> seq 0 (length chunks))).
Proof.
  intros Hpool Hsplit Hto Hro Hio Ht Hr Hi.
  set (n := length chunks) in *.
  destruct (after_split_lookups self chunks) as (b1 & Hb1 & Hn1 & _).
  destruct (after_translate_lookups self chunks (t <$> seq 0 n)) as (b2 & Hb2 & Hn2 & _).
  destruct (after_reflect_lookups self chunks (t <$> seq 0 n) (r <$> seq 0 n))
    as (b3 & Hb3 & Hn3 & _).
  unfold translate_future, reflect_future, improve_future in *.
  destruct (run_stage_all_succeed (after_split self chunks) _ _
              n (translate_order sched) t Hpool
              (buffer_getitem_Some _ _ _ _ Hb1 Hn1) Hto Ht) as [Hrt Hpt].
  destruct (run_stage_all_succeed (after_translate self chunks (t <$> seq 0 n)) _ _
              n (reflect_order sched) r Hpool
              (buffer_getitem_Some _ _ _ _ Hb2 Hn2) Hro Hr) as [Hrr Hpr].
  destruct (run_stage_all_succeed
              (after_reflect self chunks (t <$> seq 0 n) (r <$> seq 0 n)) _ _
              n (improve_order sched) i Hpool
              (buffer_getitem_Some _ _ _ _ Hb3 Hn3) Hio Hi) as [Hri Hpi].
  destruct (agentic_translate_completed self source_text clear_buffer sched chunks
              (t <$> seq 0 n) (r <$> seq 0 n) (i <$> seq 0 n) Hsplit Hrt Hrr Hri)
    as (Ho & Hl & _ & Hb).
  split_and!; [done| |done].
  rewrite Hl. unfold translate, reflect, improve. by rewrite Hpt, Hpr, Hpi.
Qed.

(** X19.  A splitter that returns no chunk: the run returns the empty string,
    prints nothing and does not warn that the text is short. *)
Theorem agentic_translate_without_chunks (self : SimpleTranslationAgent)
    (source_text : string) (clear_buffer : bool) (sched : schedule) :
  Py.ThreadPoolExecutor (max_workers self) = Ok () →
  text_splitter self source_text = Ok [] →
  outcome (agentic_translate self source_text clear_buffer sched) = Ok ""
  ∧ lines (agentic_translate self source_text clear_buffer sched) = []
  ∧ (SourceTooShort ∉ warned (agentic_translate self source_text clear_buffer sched))
  ∧ buffer (agent_after (agentic_translate self source_text clear_buffer sched))
    = buffer_at clear_buffer (Completed [] [] [] []).
Proof.
  intros Hpool Hsplit.
  destruct (after_split_lookups self []) as (b1 & Hb1 & Hn1 & _).
  destruct (after_translate_lookups self [] []) as (b2 & Hb2 & Hn2 & _).
  destruct (after_reflect_lookups self [] [] []) as (b3 & Hb3 & Hn3 & _).
  assert (Ht : translate (after_split self []) (translate_order sched)
               = {| submitted := []; printed := []; returned := Ok [] |}).
  { apply run_stage_no_chunks; [done|]. by apply (buffer_getitem_Some _ b1). }
  assert (Hr : reflect (after_translate self [] []) (reflect_order sched)
               = {| submitted := []; printed := []; returned := Ok [] |}).
  { apply run_stage_no_chunks; [done|]. by apply (buffer_getitem_Some _ b2). }
  assert (Hi : improve (after_reflect self [] [] []) (improve_order sched)
               = {| submitted := []; printed := []; returned := Ok [] |}).
  { apply run_stage_no_chunks; [done|]. by apply (buffer_getitem_Some _ b3). }
  destruct (agentic_translate_completed self source_text clear_buffer sched [] [] [] []
              Hsplit) as (Ho & Hl & Hw & Hb).
  { by rewrite Ht. }
  { by rewrite Hr. }
  { by rewrite Hi. }
  split_and!; [done| | |done].
  - rewrite Hl. by rewrite Ht, Hr, Hi.
  - rewrite Hw. simpl. rewrite app_nil_r.
    destruct (_buffer self) as [b|]; [|by intros ?%elem_of_nil].
    destruct (decide (b = ∅)); [by intros ?%elem_of_nil|].
    by intros [=]%list_elem_of_singleton.
Qed.
End runs.

(** ** Runs one after the other, and stage methods outside a run *)

Section sequences.
Context `{PyBuiltins}.

(** A run starts from an empty buffer: whatever the buffer held before has
    no effect on what the run returns, prints and leaves behind. *)
Lemma agentic_translate_resets (self : SimpleTranslationAgent)
    (b : option (gmap string bufval)) (source_text : string) (clear_buffer : bool)
    (sched : schedule) :
  outcome (agentic_translate (set_buffer self b) source_text clear_buffer sched)
  = outcome (agentic_translate self source_text clear_buffer sched)
  ∧ lines (agentic_translate (set_buffer self b) source_text clear_buffer sched)
    = lines (agentic_translate self source_text clear_buffer sched)
  ∧ buffer (agent_after (agentic_translate (set_buffer self b) source_text clear_buffer sched))
    = buffer (agent_after (agentic_translate self source_text clear_buffer sched)).
Proof.
  unfold agentic_translate. simpl.
  change (set_buffer (set_buffer self b) (Some ∅)) with (set_buffer self (Some ∅)).
  destruct (text_splitter self source_text) as [chunks|e]; [|done].
  repeat (match goal with
          | |- context [returned ?x] => destruct (returned x)
          end; simpl; try done).
Qed.

Lemma agent_after_set_buffer (self : SimpleTranslationAgent) (source_text : string)
    (clear_buffer : bool) (sched : schedule) :
  ∃ b, agent_after (agentic_translate self source_text clear_buffer sched)
       = set_buffer self b.
Proof.
  destruct (agentic_translate_progress self source_text clear_buffer sched) as [p Hp].
  destruct p as [|chunks|chunks tr|chunks tr rf|chunks tr rf im]; simpl in Hp.
  - destruct Hp as (e & _ & _ & ->). by eexists.
  - destruct Hp as (_ & e & _ & _ & ->). by eexists.
  - destruct Hp as (_ & _ & e & _ & _ & ->). by eexists.
  - destruct Hp as (_ & _ & _ & e & _ & _ & ->). by eexists.
  - destruct Hp as (_ & _ & _ & _ & _ & ->). destruct clear_buffer; by eexists.
Qed.

(** The warning about a buffer that is not empty is issued exactly when the
    buffer holds something. *)
Lemma warned_buffer_not_empty (self : SimpleTranslationAgent) (source_text : string)
    (clear_buffer : bool) (sched : schedule) :
  BufferNotEmpty ∈ warned (agentic_translate self source_text clear_buffer sched)
  ↔ buffer self ≠ ∅.
Proof.
  assert (Hshape : ∃ w1,
            warned (agentic_translate self source_text clear_buffer sched)
            = match _buffer self with
              | Some b => if decide (b = ∅) then [] else [BufferNotEmpty]
              | None => []
              end ++ w1
            ∧ BufferNotEmpty ∉ w1).
  { unfold agentic_translate.
    destruct (text_splitter _ source_text) as [chunks|e]; simpl.
    2:{ exists []. rewrite app_nil_r. split; [done|]. by intros ?%elem_of_nil. }
    exists (if decide (length chunks = 1%nat) then [SourceTooShort] else []).
    split.
    - repeat (match goal with
              | |- context [returned ?x] => destruct (returned x)
              end; simpl; try done).
    - destruct (decide (length chunks = 1%nat)); [|by intros ?%elem_of_nil].
      by intros [=]%list_elem_of_singleton. }
  destruct Hshape as (w1 & -> & Hw1). unfold buffer.
  rewrite elem_of_app. split.
  - intros [Hin|Hin]; [|done].
    destruct (_buffer self) as [b|]; [|by apply elem_of_nil in Hin].
    destruct (decide (b = ∅)); [by apply elem_of_nil in Hin|done].
  - intros Hne. left. destruct (_buffer self) as [b|]; [|done].
    simpl in Hne. rewrite decide_False by done. by left.
Qed.

(** X20.  Runs of one agent do not influence each other: after any run, a second
    run returns, prints and leaves in the buffer what it would on the agent
    as it was before the first run; it only adds the warning about the
    buffer when the first run left something in it. *)
Theorem runs_are_independent (self : SimpleTranslationAgent)
    (text1 text2 : string) (clear1 clear2 : bool) (sched1 sched2 : schedule) :
  outcome (agentic_translate (agent_after (agentic_translate self text1 clear1 sched1))
             text2 clear2 sched2)
  = outcome (agentic_translate self text2 clear2 sched2)
  ∧ lines (agentic_translate (agent_after (agentic_translate self text1 clear1 sched1))
             text2 clear2 sched2)
    = lines (agentic_translate self text2 clear2 sched2)
  ∧ buffer (agent_after
              (agentic_translate (agent_after (agentic_translate self text1 clear1 sched1))
                 text2 clear2 sched2))
    = buffer (agent_after (agentic_translate self text2 clear2 sched2))
  ∧ (BufferNotEmpty
       ∈ warned (agentic_translate (agent_after (agentic_translate self text1 clear1 sched1))
                   text2 clear2 sched2)
     ↔ buffer (agent_after (agentic_translate self text1 clear1 sched1)) ≠ ∅).
Proof.
  destruct (agent_after_set_buffer self text1 clear1 sched1) as [b Hb].
  split_and!; [rewrite Hb; apply agentic_translate_resets..|].
  apply warned_buffer_not_empty.
Qed.

(** X21.  Stage methods called outside a run: without a worker pool they raise
    [ValueError] before anything else; on an agent that has not run they
    raise [TypeError], the buffer being [None]; and the later stages raise
    [KeyError] when the buffer holds chunks but not the output of the
    earlier stage. *)
Theorem stage_methods_outside_a_run (self : SimpleTranslationAgent) (order : list nat) :
  (∀ w, max_workers self = Some w → w ≤ 0 →
     translate self order
       = {| submitted := []; printed := []; returned := Raise MaxWorkersNotPositive |}
     ∧ reflect self order
       = {| submitted := []; printed := []; returned := Raise MaxWorkersNotPositive |}
     ∧ improve self order
       = {| submitted := []; printed := []; returned := Raise MaxWorkersNotPositive |})
  ∧ (Py.ThreadPoolExecutor (max_workers self) = Ok () → _buffer self = None →
     returned (translate self order)
       = Raise (TypeError "'NoneType' object is not subscriptable")
     ∧ returned (reflect self order)
       = Raise (TypeError "'NoneType' object is not subscriptable")
     ∧ returned (improve self order)
       = Raise (TypeError "'NoneType' object is not subscriptable"))
  ∧ (Py.ThreadPoolExecutor (max_workers self) = Ok () →
     ∀ chunks, chunks ≠ [] →
       returned (reflect (after_split self chunks) order)
         = Raise (KeyError "translated_chunks")
       ∧ returned (improve (after_split self chunks) order)
         = Raise (KeyError "translated_chunks")).
Proof.
  split_and!.
  - intros w Hw Hneg. unfold translate, reflect, improve, run_stage, Py.ThreadPoolExecutor.
    rewrite Hw, (proj2 (Z.leb_le w 0)) by done. done.
  - intros Hpool Hnone. unfold translate, reflect, improve, run_stage, buffer_getitem.
    rewrite Hpool, Hnone. done.
  - intros Hpool chunks Hne.
    destruct (after_split_lookups self chunks) as (b & Hb & Hn & _ & Hnone).
    destruct chunks as [|c chunks]; [done|].
    assert (Hbad : ∀ idx, buffer_chunk (after_split self (c :: chunks)) "translated_chunks" idx
                          = Raise (KeyError "translated_chunks")).
    { intros idx. unfold buffer_chunk, buffer_getitem. by rewrite Hb, Hnone. }
    unfold reflect, improve. split.
    + erewrite (run_stage_raises _ _ _ (length (c :: chunks)) order []);
        [done|done|by apply (buffer_getitem_Some _ b)|].
      simpl. unfold reflect_kwargs. by rewrite Hbad.
    + erewrite (run_stage_raises _ _ _ (length (c :: chunks)) order []);
        [done|done|by apply (buffer_getitem_Some _ b)|].
      simpl. unfold improve_kwargs. by rewrite Hbad.
Qed.

(** X22.  When every unit of the translation stage fails, the stage returns the
    empty list, and the run then raises [IndexError] in the reflection
    stage, leaving the chunks and the empty list of translations in the
    buffer. *)
Theorem agentic_translate_when_translation_fails (self : SimpleTranslationAgent)
    (source_text : string) (clear_buffer : bool) (sched : schedule)
    (chunks : list string) (e : nat → exn) :
  Py.ThreadPoolExecutor (max_workers self) = Ok () →
  text_splitter self source_text = Ok chunks →
  chunks ≠ [] →
  translate_order sched ≡ₚ seq 0 (length chunks) →
  (∀ k, (k < length chunks)%nat →
     translate_future (after_split self chunks) k = Raise (e k)) →
  returned (translate (after_split self chunks) (translate_order sched)) = Ok []
  ∧ printed (translate (after_split self chunks) (translate_order sched))
    = (λ k, ErrorReflecting k (e k)) <$> translate_order sched
  ∧ outcome (agentic_translate self source_text clear_buffer sched)
    = Raise ListIndexOutOfRange
  ∧ buffer (agent_after (agentic_translate self source_text clear_buffer sched))
    = buffer_at clear_buffer (ReflectFailed chunks []).
Proof.
  intros Hpool Hsplit Hne Hperm Hfail.
  destruct (after_split_lookups self chunks) as (b1 & Hb1 & Hn1 & Hs1 & _).
  destruct (after_translate_lookups self chunks []) as (b2 & Hb2 & Hn2 & Hs2 & Ht2 & _).
  unfold translate_future in Hfail.
  destruct (run_stage_all_fail (after_split self chunks)
              (translation_prompt (prompts (after_split self chunks)))
              (translate_kwargs (after_split self chunks)) (length chunks)
              (translate_order sched) e Hpool (buffer_getitem_Some _ _ _ _ Hb1 Hn1)
              Hperm) as [Hrt Hpt]; [|exact Hfail|].
  { intros k Hk. unfold translate_kwargs.
    destruct (get_tagged_source_text_ok _ b1 chunks k Hb1 Hs1 Hk) as [tagged ->]. done. }
  assert (Hrr : returned (reflect (after_translate self chunks []) (reflect_order sched))
                = Raise ListIndexOutOfRange).
  { destruct (submit_all_stops_at (reflect_kwargs (after_translate self chunks []))
                (length chunks) 0) as (subs & Hsub & _).
    - destruct chunks; [done|simpl; lia].
    - intros k Hk. lia.
    - unfold reflect_kwargs.
      by rewrite (buffer_chunk_out_of_range _ b2 _ []) by (done || simpl; lia).
    - unfold reflect.
      by rewrite (run_stage_raises (after_translate self chunks []) _ _ (length chunks)
                    _ subs _ Hpool (buffer_getitem_Some _ _ _ _ Hb2 Hn2) Hsub). }
  split_and!; [exact Hrt|exact Hpt| |].
  - unfold agentic_translate. simpl. rewrite Hsplit.
    fold (after_split self chunks).
    change (returned (translate (after_split self chunks) (translate_order sched)))
      with (returned (run_stage (after_split self chunks)
                        (translation_prompt (prompts (after_split self chunks)))
                        (translate_kwargs (after_split self chunks))
                        (translate_order sched))).
    rewrite Hrt. fold (after_translate self chunks []). by rewrite Hrr.
  - unfold agentic_translate. simpl. rewrite Hsplit.
    fold (after_split self chunks).
    change (returned (translate (after_split self chunks) (translate_order sched)))
      with (returned (run_stage (after_split self chunks)
                        (translation_prompt (prompts (after_split self chunks)))
                        (translate_kwargs (after_split self chunks))
                        (translate_order sched))).
    rewrite Hrt. fold (after_translate self chunks []). rewrite Hrr. simpl.
    apply buffer_after_translate.
Qed.
End sequences.

(** ** A placeholder that nothing binds *)

Section unbound.
Context `{PyBuiltins}.

(** A placeholder of the prompt that neither the call nor the template
    binds stops [query_model] before the model is queried. *)
Lemma query_model_missing (self : SimpleTranslationAgent) (chunk_id : nat)
    (tmpl : PromptTemplate) (phs : list string) (kw : gmap string string)
    (skw : option (gmap string string)) :
  get_string_placeholders (prompt tmpl) = Ok phs →
  list_to_set phs ⊈ dom (kw ∪ prompt_kwargs tmpl) →
  (query_model self chunk_id tmpl (Some kw) skw).2
  = Raise (MissingParameters (list_to_set phs ∖ dom (kw ∪ prompt_kwargs tmpl))).
Proof.
  intros Hphs Hsub.
  unfold query_model, get_formatted_prompt, get_formatted, placeholders_in_dict.
  cbn [default]. rewrite Hphs. by rewrite bool_decide_eq_false_2 by done.
Qed.

(** X23.  A translation prompt with a placeholder that is none of the four names
    the stage binds and that the template does not store: [translate] does
    not raise; every unit fails with the [ValueError] of the missing
    parameters, which is printed, and the stage returns the empty list. *)
Theorem translate_with_unbound_placeholder (self : SimpleTranslationAgent)
    (chunks : list string) (order : list nat) (phs : list string) (name : string) :
  Py.ThreadPoolExecutor (max_workers self) = Ok () →
  default_kwargs self
    = {[ "source_lang" := source_lang self; "target_lang" := target_lang self ]} →
  get_string_placeholders (prompt (translation_prompt (prompts self))) = Ok phs →
  name ∈ phs →
  name ∉ ["source_chunk"; "source_tagged"; "source_lang"; "target_lang"] →
  prompt_kwargs (translation_prompt (prompts self)) !! name = None →
  order ≡ₚ seq 0 (length chunks) →
  let missing : gset string :=
    list_to_set phs
    ∖ (list_to_set ["source_chunk"; "source_tagged"; "source_lang"; "target_lang"]
       ∪ dom (prompt_kwargs (translation_prompt (prompts self)))) in
  name ∈ missing
  ∧ exn_class (MissingParameters missing) = ClsValueError
  ∧ returned (translate (after_split self chunks) order) = Ok []
  ∧ printed (translate (after_split self chunks) order)
    = (λ k, ErrorReflecting k (MissingParameters missing)) <$> order.
Proof.
  intros Hpool Hdk Hphs Hin Hnot Hstored Hperm missing.
  assert (Hmiss : name ∈ missing).
  { apply elem_of_difference. split; [by apply elem_of_list_to_set|].
    intros [Hn%elem_of_list_to_set|Hn%elem_of_dom]%elem_of_union; [done|].
    rewrite Hstored in Hn. by destruct Hn. }
  destruct (after_split_lookups self chunks) as (b1 & Hb1 & Hn1 & Hs1 & _).
  destruct (run_stage_all_fail (after_split self chunks)
              (translation_prompt (prompts (after_split self chunks)))
              (translate_kwargs (after_split self chunks)) (length chunks)
              order (λ _, MissingParameters missing) Hpool
              (buffer_getitem_Some _ _ _ _ Hb1 Hn1) Hperm) as [Hrt Hpt].
  - intros k Hk. unfold translate_kwargs.
    destruct (get_tagged_source_text_ok _ b1 chunks k Hb1 Hs1 Hk) as [tagged ->]. done.
  - intros k Hk. unfold stage_future, translate_kwargs.
    destruct (lookup_lt_is_Some_2 chunks k Hk) as [c Hc].
    rewrite (get_tagged_source_text_in_range _ b1 chunks (Z.of_nat k) c Hb1 Hs1)
      by (lia || by rewrite Nat2Z.id).
    cbn [rbind].
    change (default_kwargs (after_split self chunks)) with (default_kwargs self).
    change (prompts (after_split self chunks)) with (prompts self).
    rewrite Hdk.
    set (tagged := Py.join _ +:+ _).
    assert (Hdom : dom ({[ "source_chunk" := c; "source_tagged" := tagged ]}
                        ∪ ({[ "source_lang" := source_lang self;
                              "target_lang" := target_lang self ]} : gmap string string)
                        ∪ prompt_kwargs (translation_prompt (prompts self)))
                   = list_to_set ["source_chunk"; "source_tagged"; "source_lang";
                                  "target_lang"]
                     ∪ dom (prompt_kwargs (translation_prompt (prompts self)))).
    { rewrite !dom_union_L, !dom_insert_L, !dom_singleton_L. simpl. by f_equal. }
    rewrite (query_model_missing _ _ _ phs); [by rewrite Hdom|done|].
    rewrite Hdom. intros Hsub. apply elem_of_difference in Hmiss as [Hphs' Hbound].
    by apply Hbound, Hsub.
  - by split_and!.
Qed.
End unbound.



(** ** The further properties on the examples *)

Section further_examples.
Import Examples.
#[local] Existing Instance no_rich_fields.

Lemma calculate_chunk_size_bounds_witness :
  calculate_chunk_size a_tiktoken_splitter 400 500 = Ok 400
  ∧ ∃ size, calculate_chunk_size a_tiktoken_splitter 1530 500 = Ok size
            ∧ 1 ≤ size ≤ 500 + (500 - 1) / 2.
Proof.
  split.
  - apply (proj1 (calculate_chunk_size_bounds a_tiktoken_splitter 400 500)). lia.
  - apply (proj2 (calculate_chunk_size_bounds a_tiktoken_splitter 1530 500)). lia.
Defined.

Lemma calculate_chunk_size_exceeds_limit_witness :
  ∃ size, calculate_chunk_size a_tiktoken_splitter (2 * 500 - 1) 500 = Ok size
          ∧ size = 500 - 1 + (500 - 1) / 2
          ∧ 500 < size.
Proof. apply (calculate_chunk_size_exceeds_limit a_tiktoken_splitter 500). lia. Defined.

Lemma calculate_chunk_size_zero_limit_witness :
  calculate_chunk_size a_tiktoken_splitter 7 0 = Raise DivisionByZero
  ∧ exn_class DivisionByZero = ClsZeroDivisionError.
Proof. apply (calculate_chunk_size_zero_limit a_tiktoken_splitter 7). lia. Defined.

Lemma uniform_split_concatenates_to_text_witness :
  ∃ chunks, split_text {| num_chunks := 2 |} "hello" = Ok chunks
            ∧ Py.join chunks = "hello".
Proof. apply (uniform_split_concatenates_to_text 2 "hello"). vm_compute. by split. Defined.

Lemma uniform_split_chunk_count_witness :
  ∃ chunks, split_text {| num_chunks := 2 |} "hello" = Ok chunks
            ∧ 2 ≤ Z.of_nat (length chunks)
            ∧ (Py.len "hello" `mod` 2 = 0 → Z.of_nat (length chunks) = 2)
            ∧ (Py.len "hello" `mod` 2 ≠ 0 → 2 < Z.of_nat (length chunks)).
Proof. apply (uniform_split_chunk_count 2 "hello"). vm_compute. by split. Defined.

Example uniform_split_chunk_count_example :
  split_text {| num_chunks := 2 |} "hello" = Ok ["he"; "ll"; "o"]
  ∧ split_text {| num_chunks := 2 |} "hell" = Ok ["he"; "ll"].
Proof. by split. Qed.

Lemma uniform_split_edge_cases_witness :
  split_text {| num_chunks := 4 |} "" = Raise RangeStepZero
  ∧ split_text {| num_chunks := -2 |} "hello" = Ok [].
Proof.
  split.
  - apply (proj1 (proj2 (uniform_split_edge_cases 4 "hello"))). lia.
  - apply (proj2 (proj2 (uniform_split_edge_cases (-2) "hello"))); vm_compute; done.
Defined.

Lemma get_string_placeholders_of_segments_witness :
  get_string_placeholders
    (template_text [("Say ", "a"); (" to ", "b"); (" and ", "a")] "!")
  = Ok ["a"; "b"; "a"].
Proof.
  apply (get_string_placeholders_of_segments
           [("Say ", "a"); (" to ", "b"); (" and ", "a")] "!").
  split; [repeat constructor|reflexivity].
Defined.

Lemma get_formatted_fills_segments_witness :
  (get_formatted (template_text [("Say ", "a"); (" to ", "b")] "!") (Some bindings_abc)).2
  = Ok "Say x to y!".
Proof.
  apply (get_formatted_fills_segments [("Say ", "a"); (" to ", "b")] "!" bindings_abc).
  - split; [repeat constructor|reflexivity].
  - repeat constructor; by eexists.
Defined.

Lemma placeholders_in_dict_outcomes_witness :
  placeholders_in_dict "{a} and {b}" bindings_abc
  = ([ExtraParameters (dom bindings_abc ∖ list_to_set ["a"; "b"])], Ok false).
Proof.
  apply (proj1 (proj1 (proj2 (placeholders_in_dict_outcomes "{a} and {b}" ["a"; "b"]
                                bindings_abc eq_refl)))).
  split.
  - apply (bool_decide_unpack _). vm_compute. exact I.
  - apply (bool_decide_unpack _). vm_compute. exact I.
Defined.


Lemma PromptTemplate_init_stores_key_characters_witness :
  prompt stored_template = "{a} and {b}"
  ∧ (∃ a b, "a" = String a "" ∧ "x" = String b ""
            ∧ String a (String b "") ∈ [("ax", "ignored"); ("cz", "ignored")].*1
            ∧ "a" ∈ prompt_placehodlers stored_template)
  ∧ PromptTemplate_init "{a} and {b}" "{a}" (Some [("ax", "other"); ("cz", "values")])
    = Ok stored_template.
Proof.
  assert (Hinit : PromptTemplate_init "{a} and {b}" "{a}"
                    (Some [("ax", "ignored"); ("cz", "ignored")]) = Ok stored_template)
    by (vm_compute; reflexivity).
  destruct (PromptTemplate_init_stores_key_characters "{a} and {b}" "{a}"
              [("ax", "ignored"); ("cz", "ignored")] stored_template Hinit)
    as (Hp & _ & _ & _ & Hstored & _ & Hother).
  split_and!.
  - exact Hp.
  - apply (Hstored "a" "x"). reflexivity.
  - apply Hother. reflexivity.
Defined.

Lemma get_tagged_source_text_errors_witness :
  get_tagged_source_text agent 0 = Raise BufferEmpty
  ∧ get_tagged_source_text agent_partial 2 = Raise ListIndexOutOfRange.
Proof.
  split.
  - apply (proj1 (get_tagged_source_text_errors agent 0)). by left.
  - apply (proj2 (proj2 (get_tagged_source_text_errors agent_partial 2))
             partial_buffer ["Hello, "; "world."] eq_refl eq_refl).
    right. simpl. lia.
Defined.

Lemma get_tagged_source_text_negative_index_witness :
  get_tagged_source_text agent_partial (-2)
  = get_tagged_source_text agent_partial (-2 + Z.of_nat (length ["Hello, "; "world."])).
Proof.
  apply (get_tagged_source_text_negative_index agent_partial partial_buffer
           ["Hello, "; "world."] (-2) eq_refl eq_refl).
  simpl. lia.
Defined.

Lemma get_tagged_source_text_index_minus_one_witness :
  get_tagged_source_text agent_partial (-1)
  = Ok {[ "source_chunk" := "world.";
          "source_tagged" :=
            Py.join ["Hello, "] +:+ tag_chunk "world." (source_text_tag agent_partial)
            +:+ Py.join (["Hello, "] ++ ["world."]) ]}.
Proof.
  apply (get_tagged_source_text_index_minus_one agent_partial partial_buffer
           ["Hello, "] "world." eq_refl eq_refl).
Defined.

Example get_tagged_source_text_index_minus_one_example :
  get_tagged_source_text agent_partial (-1)
  = Ok {[ "source_chunk" := "world.";
          "source_tagged" := "Hello, <TRANSLATE_THIS>world.</TRANSLATE_THIS>Hello, world." ]}.
Proof. vm_compute. reflexivity. Qed.

Lemma stage_kwargs_of_unit_witness :
  reflect_kwargs (after_translate agent ["Hello, "; "world."] ["Salut, "; "monde."]) 1
  = Ok {[ "source_chunk" := "world.";
          "source_tagged" :=
            Py.join (take 1 ["Hello, "; "world."])
            +:+ tag_chunk "world." (source_text_tag agent)
            +:+ Py.join (drop 2 ["Hello, "; "world."]);
          "source_lang" := "en"; "target_lang" := "fr";
          "translated_chunk" := "monde." ]}.
Proof.
  apply (proj1 (proj2 (stage_kwargs_of_unit agent ["Hello, "; "world."]
                         ["Salut, "; "monde."] ["too informal"; "fine"] 1
                         "world." "monde." "fine" eq_refl eq_refl eq_refl eq_refl))).
Defined.

Lemma stage_accounts_for_every_unit_witness :
  (length ["monde."]
   + length (printed (translate (segmented agent_flaky) [1; 0]%nat)))%nat = 2%nat
  ∧ (submitted (translate (segmented agent_flaky) [1; 0]%nat)).*1 = seq 0 2.
Proof.
  apply (proj1 (stage_accounts_for_every_unit (segmented agent_flaky) 2 [1; 0]%nat
                  eq_refl eq_refl (perm_swap 0%nat 1%nat []))).
  vm_compute. reflexivity.
Defined.

Lemma agentic_translate_when_all_units_succeed_witness :
  outcome (agentic_translate agent "Hello, world." false out_of_order)
    = Ok (Py.join ((λ k, match k with O => "Bonjour, " | _ => "monde." end) <$> seq 0 2))
  ∧ lines (agentic_translate agent "Hello, world." false out_of_order) = []
  ∧ buffer (agent_after (agentic_translate agent "Hello, world." false out_of_order))
    = buffer_at false
        (Completed ["Hello, "; "world."]
           ((λ k, match k with O => "Salut, " | _ => "monde." end) <$> seq 0 2)
           ((λ k, match k with O => "too informal" | _ => "fine" end) <$> seq 0 2)
           ((λ k, match k with O => "Bonjour, " | _ => "monde." end) <$> seq 0 2)).
Proof.
  apply (agentic_translate_when_all_units_succeed agent "Hello, world." false out_of_order
           ["Hello, "; "world."]
           (λ k, match k with O => "Salut, " | _ => "monde." end)
           (λ k, match k with O => "too informal" | _ => "fine" end)
           (λ k, match k with O => "Bonjour, " | _ => "monde." end)
           eq_refl eq_refl (perm_swap 0%nat 1%nat []) (perm_swap 0%nat 1%nat [])
           (perm_swap 0%nat 1%nat []));
    intros [|[|k]] Hk; first [reflexivity | simpl in Hk; lia].
Defined.

Lemma agentic_translate_without_chunks_witness :
  outcome (agentic_translate agent_empty "" true in_order) = Ok ""
  ∧ lines (agentic_translate agent_empty "" true in_order) = []
  ∧ (SourceTooShort ∉ warned (agentic_translate agent_empty "" true in_order))
  ∧ buffer (agent_after (agentic_translate agent_empty "" true in_order))
    = buffer_at true (Completed [] [] [] []).
Proof.
  apply (agentic_translate_without_chunks agent_empty "" true in_order eq_refl eq_refl).
Defined.

Lemma stage_methods_outside_a_run_witness :
  translate agent_no_pool [0; 1]%nat
    = {| submitted := []; printed := []; returned := Raise MaxWorkersNotPositive |}
  ∧ returned (translate agent [0; 1]%nat)
    = Raise (TypeError "'NoneType' object is not subscriptable")
  ∧ returned (reflect (after_split agent ["Hello, "; "world."]) [0; 1]%nat)
    = Raise (KeyError "translated_chunks").
Proof.
  split_and!.
  - apply (proj1 (stage_methods_outside_a_run agent_no_pool [0; 1]%nat) 0 eq_refl).
    lia.
  - apply (proj1 (proj2 (stage_methods_outside_a_run agent [0; 1]%nat)) eq_refl eq_refl).
  - apply (proj2 (proj2 (stage_methods_outside_a_run agent [0; 1]%nat)) eq_refl
             ["Hello, "; "world."]).
    done.
Defined.

Lemma agentic_translate_when_translation_fails_witness :
  returned (translate (after_split agent_down ["Hello, "; "world."])
              (translate_order out_of_order)) = Ok []
  ∧ printed (translate (after_split agent_down ["Hello, "; "world."])
               (translate_order out_of_order))
    = (λ k, ErrorReflecting k (CompletionError "service unavailable"))
      <$> translate_order out_of_order
  ∧ outcome (agentic_translate agent_down "Hello, world." false out_of_order)
    = Raise ListIndexOutOfRange
  ∧ buffer (agent_after (agentic_translate agent_down "Hello, world." false out_of_order))
    = buffer_at false (ReflectFailed ["Hello, "; "world."] []).
Proof.
  apply (agentic_translate_when_translation_fails agent_down "Hello, world." false
           out_of_order ["Hello, "; "world."]
           (λ _, CompletionError "service unavailable") eq_refl eq_refl).
  - done.
  - apply perm_swap.
  - intros [|[|k]] Hk; first [reflexivity | simpl in Hk; lia].
Defined.
Lemma translate_with_unbound_placeholder_witness :
  returned (translate (after_split agent_glossary ["Hello, "; "world."]) [1; 0]%nat) = Ok []
  ∧ printed (translate (after_split agent_glossary ["Hello, "; "world."]) [1; 0]%nat)
    = (λ k, ErrorReflecting k
              (MissingParameters
                 (list_to_set ["source_lang"; "target_lang"; "source_chunk"; "glossary"]
                  ∖ (list_to_set ["source_chunk"; "source_tagged"; "source_lang";
                                  "target_lang"]
                     ∪ dom (prompt_kwargs (translation_prompt (prompts agent_glossary)))))))
      <$> [1; 0]%nat.
Proof.
  refine (proj2 (proj2 (translate_with_unbound_placeholder agent_glossary
                          ["Hello, "; "world."] [1; 0]%nat
                          ["source_lang"; "target_lang"; "source_chunk"; "glossary"]
                          "glossary" eq_refl eq_refl eq_refl _ _ eq_refl
                          (perm_swap 0%nat 1%nat [])))).
  - repeat constructor.
  - intros Hin.
    repeat (apply elem_of_cons in Hin as [Hin|Hin]; [discriminate Hin|]). by inv Hin.
Defined.

Example translate_with_unbound_placeholder_example :
  printed (translate (after_split agent_glossary ["Hello, "; "world."]) [1; 0]%nat)
  = [ErrorReflecting 1 (MissingParameters {[ "glossary" ]});
     ErrorReflecting 0 (MissingParameters {[ "glossary" ]})].
Proof. vm_compute. reflexivity. Qed.
End further_examples.
